(** * pajbot/models/user.py: the user record, its two stores and the
      point, debt, warning and token protocols

    The development embeds [pajbot/models/user.py]: the relational
    record [User], the process-wide [UserSQLCache], the lazy accessors
    [UserSQL] and [UserRedis] and the facade [UserCombined].  Python
    integers are [Z], strings are [string], dictionaries are [gmap]s (a
    Redis hash is kept as an association list, because [spend_tokens]
    walks it in the order the store enumerates it).  Methods are
    computations in a state-and-exception monad over the [World]: the
    relational table, the cache, the Redis store, the logger, the event
    bus and the one [UserCombined] object a method is called on.

    Embedded are the methods the properties below speak about and what
    they call.  The timestamp properties ([_last_seen], [_last_active],
    [new], [last_seen], [last_active]) work on floating-point seconds and
    are left out, as are [sql_save], [save], [load], the tags and the
    accessor of [duel_stats], which repeats the pattern of [points]. *)

From Stdlib Require Import ZArith Ascii String.
From stdpp Require Import gmap strings list fin_maps pretty.

Open Scope Z_scope.

(** ** Python values *)

(** The dynamically typed values that travel through the cache, the
    [values] dictionary of [UserRedis] and the replies of the store. *)
Inductive pyval :=
  | VNone
  | VBool (b : bool)
  | VInt (z : Z)
  | VStr (s : string).

(** [bool(v)]: the truth value Python gives to [v] in [v or default]. *)
Definition truthy (v : pyval) : bool :=
  match v with
  | VNone => false
  | VBool b => b
  | VInt z => negb (z =? 0)
  | VStr s => negb (String.eqb s EmptyString)
  end.

(** [a or b]. *)
Definition py_or (a b : pyval) : pyval := if truthy a then a else b.

(** [a == b]; [bool] is a subclass of [int], so [True == 1]. *)
Definition py_eq (a b : pyval) : bool :=
  match a, b with
  | VNone, VNone => true
  | VBool x, VBool y => Bool.eqb x y
  | VInt x, VInt y => x =? y
  | VBool x, VInt y | VInt y, VBool x => (if x then 1 else 0) =? y
  | VStr x, VStr y => String.eqb x y
  | _, _ => false
  end.

(** [v is None]. *)
Definition is_None (v : pyval) : bool :=
  match v with VNone => true | _ => false end.

(** [str(n)] for an integer. *)
Definition str_int (n : Z) : string := pretty n.

(** [str(l)] for a list of integers: ['[1, 2]']. *)
Definition str_list (l : list Z) : string :=
  "[" +:+ String.concat ", " (str_int <$> l) +:+ "]".

(** [str(v)], as ['{}'.format(v)] renders it. *)
Definition py_str (v : pyval) : string :=
  match v with
  | VNone => "None"
  | VBool true => "True"
  | VBool false => "False"
  | VInt z => str_int z
  | VStr s => s
  end.

(** ** Strings *)

(** [s.lower()] on ASCII letters; other bytes are kept. *)
Definition lower_ascii (c : ascii) : ascii :=
  let n := nat_of_ascii c in
  if (65 <=? n)%nat && (n <=? 90)%nat then ascii_of_nat (n + 32) else c.

Fixpoint lower (s : string) : string :=
  match s with
  | EmptyString => EmptyString
  | String c s' => String (lower_ascii c) (lower s')
  end.

(** [int(s)] for a string: optional surrounding white space, an optional
    sign and decimal digits; [None] stands for the [ValueError]. *)
Definition is_space (c : ascii) : bool :=
  let n := nat_of_ascii c in
  (n =? 32)%nat || ((9 <=? n)%nat && (n <=? 13)%nat).

Definition digit_of (c : ascii) : option Z :=
  let n := nat_of_ascii c in
  if (48 <=? n)%nat && (n <=? 57)%nat then Some (Z.of_nat (n - 48)) else None.

Fixpoint all_space (s : string) : bool :=
  match s with
  | EmptyString => true
  | String c s' => is_space c && all_space s'
  end.

Fixpoint int_digits (s : string) (acc : Z) (seen : bool) : option Z :=
  match s with
  | EmptyString => if seen then Some acc else None
  | String c s' =>
      match digit_of c with
      | Some d => int_digits s' (10 * acc + d) true
      | None => if seen && all_space s then Some acc else None
      end
  end.

Definition int_signed (s : string) : option Z :=
  match s with
  | String "-" s' => Z.opp <$> int_digits s' 0 false
  | String "+" s' => int_digits s' 0 false
  | _ => int_digits s 0 false
  end.

Fixpoint py_int (s : string) : option Z :=
  match s with
  | String c s' => if is_space c then py_int s' else int_signed s
  | EmptyString => None
  end.

(** ** The relational record *)

Module User.
(** A row of [tb_user] together with the transient attributes that
    [User.__init__] sets on the object. *)
Record t := mk {
  id : option Z;
  username : string;
  username_raw : string;
  level : Z;
  points : Z;
  subscriber : bool;
  minutes_in_chat_online : Z;
  minutes_in_chat_offline : Z;
  quest_progress : list (string * Z);
  debts : list Z;
  timed_out : bool
}.

#[global] Instance eq_dec : EqDecision t.
Proof. solve_decision. Defined.

Definition __init__ (name : string) : t :=
  {| id := None;
     username := lower name;
     username_raw := name;
     level := 100;
     points := 0;
     subscriber := false;
     minutes_in_chat_online := 0;
     minutes_in_chat_offline := 0;
     quest_progress := [];
     debts := [];
     timed_out := false |}.

Definition set_points (v : Z) (u : t) : t :=
  mk (id u) (username u) (username_raw u) (level u) v (subscriber u)
     (minutes_in_chat_online u) (minutes_in_chat_offline u)
     (quest_progress u) (debts u) (timed_out u).

Definition set_subscriber (v : bool) (u : t) : t :=
  mk (id u) (username u) (username_raw u) (level u) (points u) v
     (minutes_in_chat_online u) (minutes_in_chat_offline u)
     (quest_progress u) (debts u) (timed_out u).

Definition set_level (v : Z) (u : t) : t :=
  mk (id u) (username u) (username_raw u) v (points u) (subscriber u)
     (minutes_in_chat_online u) (minutes_in_chat_offline u)
     (quest_progress u) (debts u) (timed_out u).

Definition set_id (v : option Z) (u : t) : t :=
  mk v (username u) (username_raw u) (level u) (points u) (subscriber u)
     (minutes_in_chat_online u) (minutes_in_chat_offline u)
     (quest_progress u) (debts u) (timed_out u).

Definition set_minutes_in_chat_online (v : Z) (u : t) : t :=
  mk (id u) (username u) (username_raw u) (level u) (points u) (subscriber u)
     v (minutes_in_chat_offline u) (quest_progress u) (debts u) (timed_out u).

Definition set_minutes_in_chat_offline (v : Z) (u : t) : t :=
  mk (id u) (username u) (username_raw u) (level u) (points u) (subscriber u)
     (minutes_in_chat_online u) v (quest_progress u) (debts u) (timed_out u).
End User.

(** ** The relational store *)

(** Modelled from the spec: the comparison the relational store applies
    to the unique [username] column is not part of this module; the
    specification gives it as case-folded ("Username equality is
    case-folded"), so two names select the same row when their folded
    forms agree. *)
Definition collate (name : string) : string := lower name.

Module Session.
(** A session of the relational store: the rows of [tb_user] it reads,
    indexed by the unique [username] column under [collate], and the
    objects registered with [add] that await insertion, as they were when
    they were registered. *)
Record t := mk {
  table : gmap string User.t;
  new : list User.t
}.

(** [query(User).filter_by(username=name).one_or_none()]. *)
Definition one_or_none (s : t) (name : string) : option User.t :=
  table s !! collate name.

(** [db_session.add(user)]. *)
Definition add (user : User.t) (s : t) : t :=
  mk (table s) (new s ++ [user]).

(** [db_session.expunge(user)]. *)
Definition expunge (user : User.t) (s : t) : t :=
  mk (table s) (filter (λ u, u ≠ user) (new s)).

(** The identity the store gives to the next new row. *)
Definition next_id (tb : gmap string User.t) : Z :=
  1 + map_fold (λ _ u acc, Z.max acc (default 0 (User.id u))) 0 tb.

(** The row written for a registered object. *)
Definition persist (tb : gmap string User.t) (u : User.t) : gmap string User.t :=
  let u' := match User.id u with
            | Some _ => u
            | None => User.set_id (Some (next_id tb)) u
            end in
  <[collate (User.username u) := u']> tb.

(** Modelled from the spec: the commit that closes a session scope
    belongs to the store; it writes every registered object as the row of
    its username, and the store assigns an identity to an object that has
    none. *)
Definition commit (s : t) : gmap string User.t :=
  foldl persist (table s) (new s).
End Session.

(** ** The short-lived field cache *)

Module CacheEntry.
(** The dictionary [{'id': .., 'level': .., 'subscriber': ..}] that
    [UserSQLCache.save] stores for a username. *)
Record t := mk {
  id : option Z;
  level : Z;
  subscriber : bool
}.

(** [entry[value]], [None] when [value not in entry]. *)
Definition lookup (e : t) (value : string) : option pyval :=
  if String.eqb value "id" then
    Some (match id e with Some i => VInt i | None => VNone end)
  else if String.eqb value "level" then Some (VInt (level e))
  else if String.eqb value "subscriber" then Some (VBool (subscriber e))
  else None.
End CacheEntry.

(** ** The key-value store *)

(** An association list with one entry per field, in the order the store
    enumerates the fields. *)
Module AList.
Abbreviation t := (list (string * string)).

Fixpoint get (f : string) (h : t) : option string :=
  match h with
  | [] => None
  | (k, v) :: h' => if String.eqb k f then Some v else get f h'
  end.

(** The entry of [f] is replaced where it stands; a new field goes to
    the end. *)
Fixpoint set (f v : string) (h : t) : t :=
  match h with
  | [] => [(f, v)]
  | (k, x) :: h' =>
      if String.eqb k f then (k, v) :: h' else (k, x) :: set f v h'
  end.

Definition del (f : string) (h : t) : t :=
  filter (λ kv, kv.1 ≠ f) h.
End AList.

Inductive command :=
  | ZSCORE (key member : string)
  | ZADD (key member : string) (score : Z)
  | ZREM (key member : string)
  | HGET (key field : string)
  | HSET (key field value : string)
  | HSETNX (key field value : string)
  | HDEL (key field : string)
  | HGETALL (key : string)
  | MGET (keys : list string)
  | SETEX (key : string) (time : Z) (value : string).

Module Redis.
(** The store by kind of key: hashes, sorted sets and plain keys (a
    plain key holds its value and the lifetime it was set with), and the
    journal of the commands the client has sent.  Sorted-set scores are
    the integers this module writes. *)
Record t := mk {
  hashes : gmap string AList.t;
  zsets : gmap string (gmap string Z);
  strings : gmap string (string * Z);
  journal : list command
}.

Definition sent (c : command) (r : t) : t :=
  mk (hashes r) (zsets r) (strings r) (journal r ++ [c]).

Definition hash (key : string) (r : t) : AList.t :=
  default [] (hashes r !! key).

Definition put_hash (key : string) (h : AList.t) (r : t) : t :=
  mk (match h with
      | [] => delete key (hashes r)
      | _ => <[key := h]> (hashes r)
      end) (zsets r) (strings r) (journal r).

Definition zset (key : string) (r : t) : gmap string Z :=
  default ∅ (zsets r !! key).

Definition put_zset (key : string) (z : gmap string Z) (r : t) : t :=
  mk (hashes r) (if decide (z = ∅) then delete key (zsets r)
                 else <[key := z]> (zsets r)) (strings r) (journal r).

Definition put_string (key : string) (v : string * Z) (r : t) : t :=
  mk (hashes r) (zsets r) (<[key := v]> (strings r)) (journal r).
End Redis.

(** ** The object and the world around it *)

Module Self.
(** The attributes of a [UserCombined] instance: those of [UserSQL]
    ([user_model], [model_loaded], [shared_db_session]), of [UserRedis]
    ([redis_loaded], [values]) and its own. *)
Record t := mk {
  username : string;
  user_model : option User.t;
  model_loaded : bool;
  shared_db_session : bool;
  redis_loaded : bool;
  values : gmap string pyval;
  debts : list Z;
  moderator : bool;
  timed_out : bool;
  timeout_end : option Z
}.

Definition set_username (v : string) (s : t) : t :=
  mk v (user_model s) (model_loaded s) (shared_db_session s)
     (redis_loaded s) (values s) (debts s) (moderator s) (timed_out s)
     (timeout_end s).
Definition set_user_model (v : option User.t) (s : t) : t :=
  mk (username s) v (model_loaded s) (shared_db_session s)
     (redis_loaded s) (values s) (debts s) (moderator s) (timed_out s)
     (timeout_end s).
Definition set_model_loaded (v : bool) (s : t) : t :=
  mk (username s) (user_model s) v (shared_db_session s)
     (redis_loaded s) (values s) (debts s) (moderator s) (timed_out s)
     (timeout_end s).
Definition set_shared_db_session (v : bool) (s : t) : t :=
  mk (username s) (user_model s) (model_loaded s) v
     (redis_loaded s) (values s) (debts s) (moderator s) (timed_out s)
     (timeout_end s).
Definition set_redis_loaded (v : bool) (s : t) : t :=
  mk (username s) (user_model s) (model_loaded s) (shared_db_session s)
     v (values s) (debts s) (moderator s) (timed_out s) (timeout_end s).
Definition set_values (v : gmap string pyval) (s : t) : t :=
  mk (username s) (user_model s) (model_loaded s) (shared_db_session s)
     (redis_loaded s) v (debts s) (moderator s) (timed_out s)
     (timeout_end s).
Definition set_debts (v : list Z) (s : t) : t :=
  mk (username s) (user_model s) (model_loaded s) (shared_db_session s)
     (redis_loaded s) (values s) v (moderator s) (timed_out s)
     (timeout_end s).
Definition set_moderator (v : bool) (s : t) : t :=
  mk (username s) (user_model s) (model_loaded s) (shared_db_session s)
     (redis_loaded s) (values s) (debts s) v (timed_out s) (timeout_end s).
Definition set_timed_out (v : bool) (s : t) : t :=
  mk (username s) (user_model s) (model_loaded s) (shared_db_session s)
     (redis_loaded s) (values s) (debts s) (moderator s) v (timeout_end s).
Definition set_timeout_end (v : option Z) (s : t) : t :=
  mk (username s) (user_model s) (model_loaded s) (shared_db_session s)
     (redis_loaded s) (values s) (debts s) (moderator s) (timed_out s) v.

(** A freshly allocated instance, before [__init__] has run. *)
Definition blank : t :=
  mk EmptyString None false false false ∅ [] false false None.
End Self.

Inductive loglevel := DEBUG | WARNING | ERROR | EXCEPTION.

(** [HandlerManager.trigger(name, user, tokens)]: the event, the username
    of the object it is fired for and the amount. *)
Record event := Event {
  ev_name : string;
  ev_user : string;
  ev_tokens : Z
}.

(** The world a method runs in.  The table, the store, the stream context,
    the logger and the event sink are the collaborators the module uses;
    [self] is the [UserCombined] object the method is called on. *)
Record World := mkWorld {
  db : gmap string User.t;            (* the rows of tb_user *)
  session_new : list User.t;          (* pending objects of the session
                                         given to the constructor *)
  cache : gmap string CacheEntry.t;   (* UserSQLCache.cache *)
  redis : Redis.t;                    (* RedisManager.get() *)
  streamer : string;                  (* StreamHelper.get_streamer() *)
  current_stream_id : option string;  (* StreamHelper.get_current_stream_id() *)
  log : list (loglevel * string);
  events : list event;
  self : Self.t
}.

Definition set_db (v : gmap string User.t) (w : World) : World :=
  mkWorld v (session_new w) (cache w) (redis w) (streamer w)
          (current_stream_id w) (log w) (events w) (self w).
Definition set_session_new (v : list User.t) (w : World) : World :=
  mkWorld (db w) v (cache w) (redis w) (streamer w)
          (current_stream_id w) (log w) (events w) (self w).
Definition set_cache (v : gmap string CacheEntry.t) (w : World) : World :=
  mkWorld (db w) (session_new w) v (redis w) (streamer w)
          (current_stream_id w) (log w) (events w) (self w).
Definition set_redis (v : Redis.t) (w : World) : World :=
  mkWorld (db w) (session_new w) (cache w) v (streamer w)
          (current_stream_id w) (log w) (events w) (self w).
Definition set_log (v : list (loglevel * string)) (w : World) : World :=
  mkWorld (db w) (session_new w) (cache w) (redis w) (streamer w)
          (current_stream_id w) v (events w) (self w).
Definition set_events (v : list event) (w : World) : World :=
  mkWorld (db w) (session_new w) (cache w) (redis w) (streamer w)
          (current_stream_id w) (log w) v (self w).
Definition set_self (v : Self.t) (w : World) : World :=
  mkWorld (db w) (session_new w) (cache w) (redis w) (streamer w)
          (current_stream_id w) (log w) (events w) v.

(** ** Exceptions and the monad of methods *)

Inductive exn :=
  | FailedCommand
  | NoCacheHit (msg : string)
  | KeyError (key : string)
  | IndexError
  | AttributeError
  | RuntimeError (msg : string)
  | Exception (name : string).

Inductive outcome (A : Type) :=
  | Ok (a : A)
  | Raise (e : exn).
Arguments Ok {A} a.
Arguments Raise {A} e.

(** A method runs on a world and ends in a value or an exception; the
    changes made before an exception stay. *)
Definition M (A : Type) : Type := World → outcome A * World.

#[global] Instance M_ret : MRet M := λ A a w, (Ok a, w).
#[global] Instance M_bind : MBind M := λ A B k m w,
  match m w with
  | (Ok a, w') => k a w'
  | (Raise e, w') => (Raise e, w')
  end.

Definition raise {A} (e : exn) : M A := λ w, (Raise e, w).

(** [try: m  except: h]. *)
Definition try_except {A} (m : M A) (h : exn → M A) : M A := λ w,
  match m w with
  | (Ok a, w') => (Ok a, w')
  | (Raise e, w') => h e w'
  end.

Definition gets {A} (f : World → A) : M A := λ w, (Ok (f w), w).
Definition modify (f : World → World) : M unit := λ w, (Ok tt, f w).
Definition modify_self (f : Self.t → Self.t) : M unit :=
  modify (λ w, set_self (f (self w)) w).

Definition logging (lvl : loglevel) (msg : string) : M unit :=
  modify (λ w, set_log (log w ++ [(lvl, msg)]) w).

(** ** StreamHelper and HandlerManager *)

Module StreamHelper.
(** Modelled from the spec: the stream context provider is not part of
    this module; it gives the channel identity that prefixes the keys. *)
Definition get_streamer : M string := gets streamer.

(** Modelled from the spec: the identifier of the current broadcast, or
    the signal that none is active ([False] in the source, [None] here). *)
Definition get_current_stream_id : M (option string) := gets current_stream_id.
End StreamHelper.

Module HandlerManager.
(** Modelled from the spec: the event sink records what was fired. *)
Definition trigger (name : string) (user : Self.t) (tokens : Z) : M unit :=
  modify (λ w, set_events (events w ++ [Event name (Self.username user) tokens]) w).
End HandlerManager.

(** ** The client of the key-value store *)

(** Modelled from the spec: the key-value store is an external
    collaborator; the commands of the client [RedisManager.get()] have the
    meaning its interface gives them (score and hash-field get, set and
    remove, get-all, set-if-absent, multi-get, set with expiry).  Each
    command is entered in the journal when it is sent. *)
Module RedisManager.
Definition send (c : command) : M unit :=
  modify (λ w, set_redis (Redis.sent c (redis w)) w).

Definition update (f : Redis.t → Redis.t) : M unit :=
  modify (λ w, set_redis (f (redis w)) w).

Definition reply (o : option string) : pyval :=
  match o with Some s => VStr s | None => VNone end.

Definition zscore (key member : string) : M pyval :=
  send (ZSCORE key member);;
  r ← gets redis;
  mret (match Redis.zset key r !! member with
        | Some z => VInt z
        | None => VNone
        end).

Definition zadd (key member : string) (score : Z) : M unit :=
  send (ZADD key member score);;
  update (λ r, Redis.put_zset key (<[member := score]> (Redis.zset key r)) r).

Definition zrem (key member : string) : M unit :=
  send (ZREM key member);;
  update (λ r, Redis.put_zset key (delete member (Redis.zset key r)) r).

Definition hget (key field : string) : M pyval :=
  send (HGET key field);;
  r ← gets redis;
  mret (reply (AList.get field (Redis.hash key r))).

Definition hset (key field value : string) : M unit :=
  send (HSET key field value);;
  update (λ r, Redis.put_hash key (AList.set field value (Redis.hash key r)) r).

(** Set if absent: 1 when the field was created, 0 when it existed. *)
Definition hsetnx (key field value : string) : M Z :=
  send (HSETNX key field value);;
  r ← gets redis;
  match AList.get field (Redis.hash key r) with
  | Some _ => mret 0
  | None =>
      update (Redis.put_hash key (AList.set field value (Redis.hash key r)));;
      mret 1
  end.

Definition hdel (key field : string) : M unit :=
  send (HDEL key field);;
  update (λ r, Redis.put_hash key (AList.del field (Redis.hash key r)) r).

Definition hgetall (key : string) : M AList.t :=
  send (HGETALL key);;
  r ← gets redis;
  mret (Redis.hash key r).

Definition mget (keys : list string) : M (list pyval) :=
  send (MGET keys);;
  r ← gets redis;
  mret ((λ k, reply (fst <$> Redis.strings r !! k)) <$> keys).

Definition setex (key : string) (time : Z) (value : string) : M unit :=
  send (SETEX key time value);;
  update (Redis.put_string key (value, time)).

(** The read commands a pipeline queues, and [pipeline.execute()]. *)
Inductive queued :=
  | Qzscore (key member : string)
  | Qhget (key field : string).

Fixpoint execute (pipeline : list queued) : M (list pyval) :=
  match pipeline with
  | [] => mret []
  | q :: pipeline' =>
      v ← match q with
          | Qzscore key member => zscore key member
          | Qhget key field => hget key field
          end;
      vs ← execute pipeline';
      mret (v :: vs)
  end.
End RedisManager.

(** ** UserSQLCache *)

Module UserSQLCache.
Definition _clear_cache : M unit :=
  modify (set_cache ∅).

Definition save (user : User.t) : M unit :=
  modify (λ w, set_cache
    (<[User.username user :=
         CacheEntry.mk (User.id user) (User.level user) (User.subscriber user)]>
       (cache w)) w).

Definition get (username value : string) : M pyval :=
  c ← gets cache;
  match c !! username with
  | None => raise (NoCacheHit "User not in cache")
  | Some entry =>
      match CacheEntry.lookup entry value with
      | None => raise (NoCacheHit "Value not in cache")
      | Some v => mret v
      end
  end.
End UserSQLCache.

(** [except NoCacheHit: h], other exceptions pass. *)
Definition except_NoCacheHit {A} (m : M A) (h : M A) : M A :=
  try_except m (λ e, match e with NoCacheHit _ => h | _ => raise e end).

(** ** DBManager *)

Module DBManager.
(** Modelled from the spec:
    [with DBManager.create_session_scope(..) as db_session: body] opens a
    short-lived session of its own over the table and commits it when the
    scope ends. *)
Definition create_session_scope {A} (body : Session.t → A * Session.t) : M A :=
  tb ← gets db;
  let '(a, s) := body (Session.mk tb []) in
  modify (set_db (Session.commit s));;
  mret a.

(** The same body in the session that was given to the constructor. *)
Definition in_shared_session {A} (body : Session.t → A * Session.t) : M A :=
  tb ← gets db;
  pending ← gets session_new;
  let '(a, s) := body (Session.mk tb pending) in
  modify (set_session_new (Session.new s));;
  mret a.
End DBManager.

(** ** UserSQL *)

Module UserSQL.
Definition __init__ (username : string) (db_session : bool)
    (user_model : option User.t) : M unit :=
  modify_self (Self.set_username username);;
  modify_self (Self.set_user_model user_model);;
  modify_self (Self.set_model_loaded (bool_decide (is_Some user_model)));;
  modify_self (Self.set_shared_db_session db_session).

Definition select_or_create (db_session : Session.t) (username : string)
    : User.t * Session.t :=
  match Session.one_or_none db_session username with
  | None =>
      let user := User.__init__ username in
      (user, Session.add user db_session)
  | Some user => (user, db_session)
  end.

Definition sql_load : M unit :=
  s ← gets self;
  if Self.model_loaded s then mret tt
  else
    modify_self (Self.set_model_loaded true);;
    logging DEBUG ("[UserSQL] Loading user model for " +:+ Self.username s);;
    user ← (if Self.shared_db_session s then
              DBManager.in_shared_session
                (λ db_session, select_or_create db_session (Self.username s))
            else
              DBManager.create_session_scope
                (λ db_session,
                   let '(user, db_session) :=
                     select_or_create db_session (Self.username s) in
                   (user, Session.expunge user db_session)));
    modify_self (Self.set_user_model (Some user)).

(** [self.user_model.<attribute>]; a missing model is the
    [AttributeError] of [None]. *)
Definition user_model : M User.t :=
  s ← gets self;
  match Self.user_model s with
  | Some user => mret user
  | None => raise AttributeError
  end.

Definition update_model (f : User.t → User.t) : M unit :=
  user ← user_model;
  modify_self (Self.set_user_model (Some (f user))).

Definition level : M pyval :=
  s ← gets self;
  except_NoCacheHit (UserSQLCache.get (Self.username s) "level")
    (sql_load;; user ← user_model; mret (VInt (User.level user))).

Definition set_level (value : Z) : M unit :=
  sql_load;; update_model (User.set_level value).

Definition subscriber : M pyval :=
  s ← gets self;
  except_NoCacheHit (UserSQLCache.get (Self.username s) "subscriber")
    (sql_load;; user ← user_model; mret (VBool (User.subscriber user))).

(** The setter returns from inside the [try] when the cached value
    equals the new one; [unchanged] is that early return. *)
Definition set_subscriber (value : bool) : M unit :=
  s ← gets self;
  except_NoCacheHit
    (old_value ← UserSQLCache.get (Self.username s) "subscriber";
     mret (py_eq old_value (VBool value)))
    (mret false)
  ≫= λ unchanged : bool,
  if unchanged then mret tt
  else sql_load;; update_model (User.set_subscriber value).

Definition points : M Z :=
  sql_load;; user ← user_model; mret (User.points user).

Definition set_points (value : Z) : M unit :=
  sql_load;; update_model (User.set_points value).

Definition id : M pyval :=
  s ← gets self;
  except_NoCacheHit (UserSQLCache.get (Self.username s) "id")
    (sql_load;; user ← user_model;
     mret (match User.id user with Some i => VInt i | None => VNone end)).

Definition set_id (value : option Z) : M unit :=
  sql_load;; update_model (User.set_id value).

Definition minutes_in_chat_online : M pyval :=
  s ← gets self;
  except_NoCacheHit (UserSQLCache.get (Self.username s) "minutes_in_chat_online")
    (sql_load;; user ← user_model; mret (VInt (User.minutes_in_chat_online user))).

Definition set_minutes_in_chat_online (value : Z) : M unit :=
  sql_load;; update_model (User.set_minutes_in_chat_online value).

Definition minutes_in_chat_offline : M pyval :=
  s ← gets self;
  except_NoCacheHit (UserSQLCache.get (Self.username s) "minutes_in_chat_offline")
    (sql_load;; user ← user_model; mret (VInt (User.minutes_in_chat_offline user))).

Definition set_minutes_in_chat_offline (value : Z) : M unit :=
  sql_load;; update_model (User.set_minutes_in_chat_offline value).
End UserSQL.

(** ** UserRedis *)

(** [d[key]] with its [KeyError]. *)
Definition dict_get (d : gmap string pyval) (key : string) : M pyval :=
  match d !! key with
  | Some v => mret v
  | None => raise (KeyError key)
  end.

(** [int(v)]; [None] stands for its [TypeError] or [ValueError]. *)
Definition int_of (v : pyval) : option Z :=
  match v with
  | VNone => None
  | VBool b => Some (if b then 1 else 0)
  | VInt z => Some z
  | VStr s => py_int s
  end.

(** The timestamp fields are loaded with the other hash fields; their
    read and write properties are not embedded. *)
Module UserRedis.
Definition SS_KEYS : list string := ["num_lines"].
Definition HASH_KEYS : list string := ["last_seen"; "last_active"; "username_raw"].
Definition BOOL_KEYS : list string := ["ignored"; "banned"].
Definition FULL_KEYS : list string := SS_KEYS ++ HASH_KEYS ++ BOOL_KEYS.

Definition SS_DEFAULTS : gmap string pyval := {[ "num_lines" := VInt 0 ]}.
Definition HASH_DEFAULTS : gmap string pyval :=
  <[ "last_seen" := VNone ]> {[ "last_active" := VNone ]}.

Definition __init__ (username : string) : M unit :=
  modify_self (Self.set_username username);;
  modify_self (Self.set_redis_loaded false);;
  modify_self (Self.set_values ∅).

(** ['{streamer}:users:{key}']. *)
Definition users_key (streamer key : string) : string :=
  streamer +:+ ":users:" +:+ key.

Definition queue_up_redis_calls : M (list RedisManager.queued) :=
  streamer ← StreamHelper.get_streamer;
  s ← gets self;
  mret (((λ key, RedisManager.Qzscore (users_key streamer key) (Self.username s)) <$> SS_KEYS)
        ++ ((λ key, RedisManager.Qhget (users_key streamer key) (Self.username s)) <$> HASH_KEYS)
        ++ ((λ key, RedisManager.Qhget (users_key streamer key) (Self.username s)) <$> BOOL_KEYS)).

Definition fix_ss (key : string) (value : pyval) : M pyval :=
  match int_of value with
  | Some val => mret (VInt val)
  | None => dict_get SS_DEFAULTS key
  end.

Definition fix_hash (key : string) (value : pyval) : M pyval :=
  s ← gets self;
  if String.eqb key "username_raw" then mret (py_or value (VStr (Self.username s)))
  else if truthy value then mret value
  else dict_get HASH_DEFAULTS key.

Definition fix_bool (key : string) (value : pyval) : bool :=
  if is_None value then false else true.

Definition set_value (key : string) (v : pyval) : M unit :=
  modify_self (λ s, Self.set_values (<[key := v]> (Self.values s)) s).

(** The loop of [load_redis_data]: [full_keys.pop(0)] for every reply,
    with the [IndexError] of popping from the empty list. *)
Fixpoint load_values (full_keys : list string) (data : list pyval) : M unit :=
  match data with
  | [] => mret tt
  | value :: data' =>
      match full_keys with
      | [] => raise IndexError
      | key :: full_keys' =>
          (if bool_decide (key ∈ SS_KEYS) then
             v ← fix_ss key value; set_value key v
           else if bool_decide (key ∈ HASH_KEYS) then
             v ← fix_hash key value; set_value key v
           else set_value key (VBool (fix_bool key value)));;
          load_values full_keys' data'
      end
  end.

Definition load_redis_data (data : list pyval) : M unit :=
  modify_self (Self.set_redis_loaded true);;
  load_values FULL_KEYS data.

Definition redis_load : M unit :=
  s ← gets self;
  if Self.redis_loaded s then mret tt
  else
    pipeline ← queue_up_redis_calls;
    data ← RedisManager.execute pipeline;
    load_redis_data data.

(** [self.values[key]] after the lazy load: the body of the read
    properties. *)
Definition value (key : string) : M pyval :=
  redis_load;;
  s ← gets self;
  dict_get (Self.values s) key.

Definition num_lines : M pyval := value "num_lines".

Definition set_num_lines (v : Z) : M unit :=
  set_value "num_lines" (VInt v);;
  streamer ← StreamHelper.get_streamer;
  s ← gets self;
  if negb (v =? 0) then
    RedisManager.zadd (users_key streamer "num_lines") (Self.username s) v
  else
    RedisManager.zrem (users_key streamer "num_lines") (Self.username s).

Definition username_raw : M pyval := value "username_raw".

Definition set_username_raw (v : string) : M unit :=
  set_value "username_raw" (VStr v);;
  streamer ← StreamHelper.get_streamer;
  s ← gets self;
  if negb (String.eqb v (Self.username s)) then
    RedisManager.hset (users_key streamer "username_raw") (Self.username s) v
  else
    RedisManager.hdel (users_key streamer "username_raw") (Self.username s).

Definition ignored : M pyval := value "ignored".

Definition set_ignored (v : bool) : M unit :=
  set_value "ignored" (VBool v);;
  streamer ← StreamHelper.get_streamer;
  s ← gets self;
  if v then
    RedisManager.hset (users_key streamer "ignored") (Self.username s) (str_int 1)
  else
    RedisManager.hdel (users_key streamer "ignored") (Self.username s).

Definition banned : M pyval := value "banned".

Definition set_banned (v : bool) : M unit :=
  set_value "banned" (VBool v);;
  streamer ← StreamHelper.get_streamer;
  s ← gets self;
  if v then
    RedisManager.hset (users_key streamer "banned") (Self.username s) (str_int 1)
  else
    RedisManager.hdel (users_key streamer "banned") (Self.username s).
End UserRedis.

(** ** UserCombined *)

Module WarningModule.
(** [warning_module.settings]: the entries [timeout] reads. *)
Record settings := mk {
  total_chances : Z;
  redis_prefix : string;
  base_timeout : Z;
  length : Z
}.
End WarningModule.

(** [range(0, n)]. *)
Definition range (n : Z) : list Z := Z.of_nat <$> seq 0 (Z.to_nat n).

(** [sum(l)]. *)
Definition py_sum (l : list Z) : Z := foldl Z.add 0 l.

(** [l.remove(x)]: the first occurrence goes; [None] stands for the
    [ValueError] of an absent [x]. *)
Fixpoint list_remove (x : Z) (l : list Z) : option (list Z) :=
  match l with
  | [] => None
  | y :: l' => if y =? x then Some l' else (y ::.) <$> list_remove x l'
  end.

Module UserCombined.
Definition __init__ (username : string) (db_session : bool)
    (user_model : option User.t) : M unit :=
  modify (set_self Self.blank);;
  UserRedis.__init__ username;;
  UserSQL.__init__ username db_session user_model;;
  UserRedis.set_username_raw username;;
  modify_self (Self.set_debts []);;
  modify_self (Self.set_moderator false);;
  modify_self (Self.set_timed_out false);;
  modify_self (Self.set_timeout_end None).

Definition create_debt (points : Z) : M unit :=
  modify_self (λ s, Self.set_debts (Self.debts s ++ [points]) s).

(** ['{prefix}_{username}_warning_{id}'] for every [id] of the range. *)
Definition get_warning_keys (total_chances : Z) (prefix : string) : M (list string) :=
  s ← gets self;
  mret ((λ id, prefix +:+ "_" +:+ Self.username s +:+ "_warning_" +:+ str_int id)
          <$> range total_chances).

Definition get_warnings (warning_keys : list string) : M (list pyval) :=
  RedisManager.mget warning_keys.

Definition get_chances_used (warnings : list pyval) : Z :=
  Z.of_nat (length warnings)
  - Z.of_nat (length (filter (λ v, py_eq v VNone = true) warnings)).

Fixpoint add_warning_from (ids : list nat) (timeout : Z)
    (warning_keys : list string) (warnings : list pyval) : M bool :=
  match ids with
  | [] => mret false
  | id :: ids' =>
      match warnings !! id with
      | None => raise IndexError
      | Some w =>
          if is_None w then
            match warning_keys !! id with
            | None => raise IndexError
            | Some key => RedisManager.setex key timeout (str_int 1);; mret true
            end
          else add_warning_from ids' timeout warning_keys warnings
      end
  end.

Definition add_warning (timeout : Z) (warning_keys : list string)
    (warnings : list pyval) : M bool :=
  add_warning_from (seq 0 (length warning_keys)) timeout warning_keys warnings.

Definition timeout (timeout_length : Z)
    (warning_module : option WarningModule.settings) (use_warnings : bool)
    : M (Z * string) :=
  let punishment := "timed out for " +:+ str_int timeout_length +:+ " seconds" in
  match warning_module with
  | Some settings =>
      if use_warnings then
        let total_chances := WarningModule.total_chances settings in
        warning_keys ← get_warning_keys total_chances (WarningModule.redis_prefix settings);
        warnings ← get_warnings warning_keys;
        let chances_used := get_chances_used warnings in
        if chances_used <? total_chances then
          let timeout_length := WarningModule.base_timeout settings * (chances_used + 1) in
          let punishment :=
            "timed out for " +:+ str_int timeout_length +:+ " seconds (warning)" in
          add_warning (WarningModule.length settings) warning_keys warnings;;
          mret (timeout_length, punishment)
        else mret (timeout_length, punishment)
      else mret (timeout_length, punishment)
  | None => mret (timeout_length, punishment)
  end.

Definition spend_points (points_to_spend : Z) : M bool :=
  balance ← UserSQL.points;
  if points_to_spend <=? balance then
    balance ← UserSQL.points;
    UserSQL.set_points (balance - points_to_spend);;
    mret true
  else mret false.

Definition spend (points_to_spend : Z) : M bool :=
  spend_points points_to_spend.

(** The debug line and [self.points += points_to_spend], which both
    [except] clauses of [spend_currency_context] end with. *)
Definition return_points (points_to_spend : Z) : M unit :=
  name ← UserRedis.username_raw;
  logging DEBUG ("Returning " +:+ str_int points_to_spend +:+ " points to " +:+ py_str name);;
  balance ← UserSQL.points;
  UserSQL.set_points (balance + points_to_spend).

(** [except FailedCommand:] and the bare [except:], which logs the
    exception first. *)
Definition spend_currency_except (points_to_spend : Z) (e : exn) : M unit :=
  match e with
  | FailedCommand => return_points points_to_spend
  | _ => logging EXCEPTION "XXXX";; return_points points_to_spend
  end.

(** [with self.spend_currency_context(points, tokens): body].  The
    generator runs to its [yield] when the block is entered; an
    exception of the body is thrown into it at the [yield], inside the
    [try].  A generator that handles the exception and ends makes the
    [with] statement suppress it; one that ends before it has yielded
    makes the context manager raise [RuntimeError]. *)
Definition spend_currency_context (points_to_spend tokens_to_spend : Z)
    (body : M unit) : M unit :=
  try_except (spend_points points_to_spend;; mret tt)
    (λ e, spend_currency_except points_to_spend e;;
          raise (RuntimeError "generator didn't yield"));;
  try_except body (spend_currency_except points_to_spend).

Definition remove_debt (debt : Z) : M unit :=
  s ← gets self;
  match list_remove debt (Self.debts s) with
  | Some debts => modify_self (Self.set_debts debts)
  | None =>
      logging ERROR ("For some reason the debt " +:+ str_int debt
                     +:+ " was not in the list of debts " +:+ str_list (Self.debts s))
  end.

Definition pay_debt (debt : Z) : M unit :=
  balance ← UserSQL.points;
  UserSQL.set_points (balance - debt);;
  remove_debt debt.

Definition points_in_debt : M Z :=
  s ← gets self;
  mret (py_sum (Self.debts s)).

Definition points_available : M Z :=
  balance ← UserSQL.points;
  debt ← points_in_debt;
  mret (balance - debt).

Definition can_afford (points_to_spend : Z) : M bool :=
  available ← points_available;
  mret (points_to_spend <=? available).

(** ['{streamer}:{username}:tokens']. *)
Definition tokens_key (streamer username : string) : string :=
  streamer +:+ ":" +:+ username +:+ ":tokens".

(** The loop of [spend_tokens] over the dictionary [hgetall] returned. *)
Fixpoint spend_from (user_token_key : string) (token_dict : AList.t)
    (tokens_to_spend : Z) : M bool :=
  match token_dict with
  | [] => mret false
  | (stream_id, value) :: token_dict' =>
      match py_int value with
      | None => spend_from user_token_key token_dict' tokens_to_spend
      | Some num_tokens =>
          if num_tokens =? 0 then
            spend_from user_token_key token_dict' tokens_to_spend
          else
            let decrease_by := Z.min tokens_to_spend num_tokens in
            let tokens_to_spend := tokens_to_spend - decrease_by in
            let num_tokens := num_tokens - decrease_by in
            RedisManager.hset user_token_key stream_id (str_int num_tokens);;
            if tokens_to_spend =? 0 then mret true
            else spend_from user_token_key token_dict' tokens_to_spend
      end
  end.

Definition spend_tokens (tokens_to_spend : Z) : M bool :=
  streamer ← StreamHelper.get_streamer;
  s ← gets self;
  let user_token_key := tokens_key streamer (Self.username s) in
  token_dict ← RedisManager.hgetall user_token_key;
  spend_from user_token_key token_dict tokens_to_spend.

Definition award_tokens (tokens : Z) (force : bool) : M bool :=
  streamer ← StreamHelper.get_streamer;
  stream_id ← StreamHelper.get_current_stream_id;
  match stream_id with
  | None => mret false
  | Some stream_id =>
      s ← gets self;
      let key := tokens_key streamer (Self.username s) in
      if force then
        RedisManager.hset key stream_id (str_int tokens);;
        mret true
      else
        created ← RedisManager.hsetnx key stream_id (str_int tokens);
        if created =? 1 then
          HandlerManager.trigger "on_user_gain_tokens" s tokens;;
          mret true
        else mret false
  end.

Fixpoint sum_tokens (token_values : list string) (s : Self.t) (num_tokens : Z) : M Z :=
  match token_values with
  | [] => mret num_tokens
  | token_value :: token_values' =>
      match py_int token_value with
      | Some n => sum_tokens token_values' s (num_tokens + n)
      | None =>
          logging WARNING ("Invalid value for tokens, user " +:+ Self.username s);;
          sum_tokens token_values' s num_tokens
      end
  end.

Definition get_tokens : M Z :=
  streamer ← StreamHelper.get_streamer;
  s ← gets self;
  tokens ← RedisManager.hgetall (tokens_key streamer (Self.username s));
  sum_tokens tokens.*2 s 0.

Definition can_afford_with_tokens (cost : Z) : M bool :=
  num_tokens ← get_tokens;
  mret (cost <=? num_tokens).
End UserCombined.

(** ** Observations used in the statements *)

(** The world after the lazy load of the relational record. *)
Definition loaded (w : World) : World := (UserSQL.sql_load w).2.

(** The point balance: what reading [self.points] gives, [None] when the
    read raises. *)
Definition balance (w : World) : option Z :=
  match UserSQL.points w with
  | (Ok b, _) => Some b
  | (Raise _, _) => None
  end.

(** What the relational accessor reads and writes. *)
Definition sql_view (w : World) :=
  (db w, session_new w, Self.username (self w), Self.user_model (self w),
   Self.model_loaded (self w), Self.shared_db_session (self w)).

(** The token ledger of the object: the hash at its tokens key. *)
Definition ledger (w : World) : AList.t :=
  Redis.hash (UserCombined.tokens_key (streamer w) (Self.username (self w))) (redis w).

(** Two states of the store with the same data; the journals may differ. *)
Definition same_data (r r' : Redis.t) : Prop :=
  Redis.hashes r' = Redis.hashes r ∧ Redis.zsets r' = Redis.zsets r ∧
  Redis.strings r' = Redis.strings r.

(** The key-value side of an object is consistent when a loaded object
    holds its raw name, as every object does that [__init__] has built. *)
Definition wf_redis (s : Self.t) : Prop :=
  Self.redis_loaded s = true → is_Some (Self.values s !! "username_raw").

(** A sequence of [create_debt] calls, one for every amount of [ds]. *)
Fixpoint create_debts (ds : list Z) : M unit :=
  match ds with
  | [] => mret tt
  | d :: ds' => UserCombined.create_debt d;; create_debts ds'
  end.

(** The balance stored for a session, read as [int] reads it. *)
Definition session_balance (sid : string) (w : World) : option Z :=
  AList.get sid (ledger w) ≫= py_int.

(** The warning keys of the object under a policy, the values the store
    holds for them and the number of chances they show as used, as
    [timeout] computes them. *)
Definition warning_keys (st : WarningModule.settings) (w : World) : list string :=
  match UserCombined.get_warning_keys (WarningModule.total_chances st)
          (WarningModule.redis_prefix st) w with
  | (Ok keys, _) => keys
  | (Raise _, _) => []
  end.

Definition warnings (st : WarningModule.settings) (w : World) : list pyval :=
  match UserCombined.get_warnings (warning_keys st w) w with
  | (Ok ws, _) => ws
  | (Raise _, _) => []
  end.

Definition chances_used (st : WarningModule.settings) (w : World) : Z :=
  UserCombined.get_chances_used (warnings st w).

(** The name of the warning key numbered [id], as the store sees it:
    ['{prefix}_{username}_warning_{id}']. *)
Definition warning_key (st : WarningModule.settings) (w : World) (id : nat) : string :=
  WarningModule.redis_prefix st +:+ "_" +:+ Self.username (self w)
    +:+ "_warning_" +:+ str_int (Z.of_nat id).

(** The number of warning keys already set: how many of the keys
    numbered [0] to [total_chances - 1] the store holds. *)
Definition keys_set (st : WarningModule.settings) (w : World) : Z :=
  Z.of_nat (length (filter
    (λ id, is_Some (Redis.strings (redis w) !! warning_key st w id))
    (seq 0 (Z.to_nat (WarningModule.total_chances st))))).

(** The two punishment labels. *)
Definition punishment (length : Z) : string :=
  "timed out for " +:+ str_int length +:+ " seconds".

Definition warning_punishment (length : Z) : string :=
  "timed out for " +:+ str_int length +:+ " seconds (warning)".

(** The sum of the balances of a ledger as [get_tokens] adds them up: a
    value [int] rejects counts for nothing. *)
Definition ledger_total (l : AList.t) : Z :=
  foldr (λ kv acc, default 0 (py_int kv.2) + acc) 0 l.

(** Every balance of the ledger is an integer that is not negative. *)
Definition nonneg_ledger (l : AList.t) : Prop :=
  ∀ k v, (k, v) ∈ l → ∃ n, py_int v = Some n ∧ 0 ≤ n.

(** The relational side of an object is consistent when a loaded object
    holds a record, as every object does that [__init__] has built. *)
Definition wf_sql (s : Self.t) : Prop :=
  Self.model_loaded s = true → is_Some (Self.user_model s).

(** The commands of one load, in the order they are sent. *)
Definition load_commands (w : World) : list command :=
  [ZSCORE (UserRedis.users_key (streamer w) "num_lines") (Self.username (self w));
   HGET (UserRedis.users_key (streamer w) "last_seen") (Self.username (self w));
   HGET (UserRedis.users_key (streamer w) "last_active") (Self.username (self w));
   HGET (UserRedis.users_key (streamer w) "username_raw") (Self.username (self w));
   HGET (UserRedis.users_key (streamer w) "ignored") (Self.username (self w));
   HGET (UserRedis.users_key (streamer w) "banned") (Self.username (self w))].

(** [n] calls of [timeout] in a row with the same arguments, and their
    results. *)
Fixpoint timeouts (n : nat) (L : Z) (st : WarningModule.settings)
    : M (list (Z * string)) :=
  match n with
  | O => mret []
  | S n' =>
      r ← UserCombined.timeout L (Some st) true;
      rs ← timeouts n' L st;
      mret (r :: rs)
  end.

(** What a call of [timeout] returns when [used] warning keys are set. *)
Definition timeout_result (L : Z) (st : WarningModule.settings) (used : Z)
    : Z * string :=
  if bool_decide (used < WarningModule.total_chances st) then
    (WarningModule.base_timeout st * (used + 1),
     warning_punishment (WarningModule.base_timeout st * (used + 1)))
  else (L, punishment L).

(** ** Example worlds *)

Definition redis0 : Redis.t := Redis.mk ∅ ∅ ∅ [].

(** An empty table, cache and store; the stream with identifier 1 is live. *)
Definition world0 : World :=
  mkWorld ∅ [] ∅ redis0 "pajlada" (Some "1") [] [] Self.blank.

(** The user alice, constructed in [world0] and given 10 points. *)
Definition alice10 : World :=
  ((UserCombined.__init__ "alice" false None;; UserSQL.set_points 10) world0).2.

(** alice after her subscriber flag was set and the cache refreshed from
    her record. *)
Definition alice_cached : World :=
  ((UserCombined.__init__ "alice" false None;;
    UserSQL.set_subscriber true;;
    user ← UserSQL.user_model;
    UserSQLCache.save user) world0).2.

(** A session over a table that holds alice with 7 points. *)
Definition table_alice : Session.t :=
  Session.mk {[ "alice" := User.set_points 7 (User.__init__ "alice") ]} [].

(** A new object for alice after she was banned. *)
Definition alice_banned : World :=
  ((UserCombined.__init__ "alice" false None;;
    UserRedis.set_banned true;;
    UserCombined.__init__ "alice" false None) world0).2.

(** A warning policy with two chances and a base timeout of 10. *)
Definition two_chances : WarningModule.settings :=
  WarningModule.mk 2 "warn" 10 600.

(** alice after two warnings under that policy. *)
Definition alice_warned : World :=
  ((UserCombined.timeout 300 (Some two_chances) true;;
    UserCombined.timeout 300 (Some two_chances) true) alice10).2.

(** alice when her first warning has expired and the second one is
    still live. *)
Definition alice_late : World :=
  set_redis (Redis.put_string "warn_alice_warning_1" ("1", 600) (redis alice10))
    alice10.

(** alice with the debts 2 and 3. *)
Definition alice_in_debt : World := (create_debts [2; 3] alice10).2.

(** alice while no stream is live. *)
Definition alice_offline : World :=
  mkWorld (db alice10) (session_new alice10) (cache alice10) (redis alice10)
          (streamer alice10) None (log alice10) (events alice10) (self alice10).

(** alice with the given token ledger. *)
Definition ledger_world (l : AList.t) : World :=
  set_redis (Redis.put_hash (UserCombined.tokens_key "pajlada" "alice") l
               (redis alice10)) alice10.

(** A world whose table holds alice with 7 points, and new objects in it
    for the names ALICE and Bob, without and with a shared session. *)
Definition world_alice7 : World :=
  set_db (Session.table table_alice) world0.

Definition ALICE_new : World :=
  (UserCombined.__init__ "ALICE" false None world_alice7).2.

Definition Bob_new : World :=
  (UserCombined.__init__ "Bob" false None world_alice7).2.

Definition Bob_shared : World :=
  (UserCombined.__init__ "Bob" true None world_alice7).2.

(** An unloaded object for bob in the store alice left behind after she
    wrote 42 lines and the raw name Alice. *)
Definition bob_unloaded : World :=
  ((UserCombined.__init__ "alice" false None;;
    UserRedis.set_num_lines 42;;
    UserRedis.set_username_raw "Alice";;
    UserRedis.__init__ "bob") world0).2.

(** The same store, and an unloaded object for alice again. *)
Definition alice_unloaded : World :=
  ((UserCombined.__init__ "alice" false None;;
    UserRedis.set_num_lines 42;;
    UserRedis.set_username_raw "Alice";;
    UserRedis.__init__ "alice") world0).2.

(** ** Proof steps *)

(** Unfold the monad and the primitive effects. *)
Ltac run :=
  unfold mbind, M_bind, mret, M_ret, StreamHelper.get_streamer,
    StreamHelper.get_current_stream_id, HandlerManager.trigger, gets,
    modify_self, logging, modify, raise, try_except in *.

(** Decide the membership of a constant key in a constant list of keys,
    and the lookups in the constant dictionaries of defaults. *)
Ltac key_cases :=
  repeat match goal with
  | |- context [bool_decide (?k ∈ ?l)] =>
      let b := eval vm_compute in (bool_decide (k ∈ l)) in
      change (bool_decide (k ∈ l)) with b
  end.

Ltac closed_lookups :=
  repeat match goal with
  | |- context [@lookup string pyval (gmap string pyval) _ ?k ?m] =>
      is_const m;
      let b := eval vm_compute in (m !! k) in
      change (m !! k) with b
  end.

(** * Properties *)

(** ** The lazy load and the point balance *)

Lemma sql_load_ok w : UserSQL.sql_load w = (Ok tt, loaded w).
Proof.
  unfold loaded, UserSQL.sql_load, DBManager.in_shared_session,
    DBManager.create_session_scope. run.
  destruct (Self.model_loaded (self w)); [done|].
  cbn. destruct (Self.shared_db_session (self w)); cbn;
    by destruct (UserSQL.select_or_create _ _).
Qed.

Lemma loaded_model_loaded w : Self.model_loaded (self (loaded w)) = true.
Proof.
  unfold loaded, UserSQL.sql_load, DBManager.in_shared_session,
    DBManager.create_session_scope. run.
  destruct (Self.model_loaded (self w)) eqn:E; [done|].
  cbn. destruct (Self.shared_db_session (self w)); cbn;
    by destruct (UserSQL.select_or_create _ _).
Qed.

Lemma loaded_id w : Self.model_loaded (self w) = true → loaded w = w.
Proof. intros H. unfold loaded, UserSQL.sql_load. run. by rewrite H. Qed.

Lemma loaded_loaded w : loaded (loaded w) = loaded w.
Proof. apply loaded_id, loaded_model_loaded. Qed.

Lemma points_eq w :
  UserSQL.points w =
  match Self.user_model (self (loaded w)) with
  | Some u => (Ok (User.points u), loaded w)
  | None => (Raise AttributeError, loaded w)
  end.
Proof.
  unfold UserSQL.points, UserSQL.user_model. run. rewrite sql_load_ok.
  by destruct (Self.user_model (self (loaded w))).
Qed.

Lemma set_points_eq v w :
  UserSQL.set_points v w =
  match Self.user_model (self (loaded w)) with
  | Some u =>
      (Ok tt, set_self (Self.set_user_model (Some (User.set_points v u))
                          (self (loaded w))) (loaded w))
  | None => (Raise AttributeError, loaded w)
  end.
Proof.
  unfold UserSQL.set_points, UserSQL.update_model, UserSQL.user_model. run.
  rewrite sql_load_ok. by destruct (Self.user_model (self (loaded w))).
Qed.

Lemma balance_Some w b :
  balance w = Some b ↔
  ∃ u, Self.user_model (self (loaded w)) = Some u ∧ User.points u = b.
Proof.
  unfold balance. rewrite points_eq.
  destruct (Self.user_model (self (loaded w))) as [u|]; split.
  - intros [= <-]. eauto.
  - by intros (u' & [= <-] & <-).
  - done.
  - by intros (u' & [=] & _).
Qed.

Lemma points_balance w b :
  balance w = Some b → UserSQL.points w = (Ok b, loaded w).
Proof.
  intros (u & Hu & <-)%balance_Some. by rewrite points_eq, Hu.
Qed.

Lemma balance_loaded w : balance (loaded w) = balance w.
Proof. unfold balance. by rewrite !points_eq, loaded_loaded. Qed.

(** The balance can be read whenever a loaded object holds its record, as
    every object does that [__init__] has built. *)
Lemma balance_defined w :
  (Self.model_loaded (self w) = true → is_Some (Self.user_model (self w))) →
  is_Some (balance w).
Proof.
  intros Hwf. unfold balance. rewrite points_eq.
  destruct (Self.model_loaded (self w)) eqn:Hl.
  - rewrite (loaded_id _ Hl). by destruct (Hwf eq_refl) as [u ->].
  - unfold loaded, UserSQL.sql_load, DBManager.in_shared_session,
      DBManager.create_session_scope. run. rewrite Hl. cbn.
    destruct (Self.shared_db_session (self w)); cbn;
      by destruct (UserSQL.select_or_create _ _).
Qed.

Lemma set_points_balance v w b :
  balance w = Some b →
  ∃ w', UserSQL.set_points v w = (Ok tt, w') ∧ balance w' = Some v ∧
        Self.debts (self w') = Self.debts (self (loaded w)) ∧
        log w' = log (loaded w).
Proof.
  intros (u & Hu & <-)%balance_Some. rewrite set_points_eq, Hu.
  eexists; split; [done|]. split; [|done].
  apply balance_Some. rewrite loaded_id by (cbn; apply loaded_model_loaded).
  cbn. eauto.
Qed.

Lemma balance_view w w' : sql_view w = sql_view w' → balance w = balance w'.
Proof.
  unfold sql_view, balance, UserSQL.points, UserSQL.sql_load, UserSQL.user_model,
    DBManager.in_shared_session, DBManager.create_session_scope.
  destruct w as [d sn c r st cs l ev [un um ml sh rl vs ds mo ti te]],
           w' as [d' sn' c' r' st' cs' l' ev' [un' um' ml' sh' rl' vs' ds' mo' ti' te']].
  cbn. intros [= -> -> -> -> -> ->]. run. cbn.
  destruct ml'; cbn.
  - by destruct um'.
  - destruct sh'; cbn; by destruct (UserSQL.select_or_create _ _).
Qed.

Lemma logging_view lvl msg w :
  ∃ w', logging lvl msg w = (Ok tt, w') ∧ sql_view w' = sql_view w ∧ self w' = self w.
Proof. eexists. by split. Qed.

Lemma spend_points_run w n b :
  balance w = Some b →
  ∃ w', UserCombined.spend_points n w = (Ok (bool_decide (n ≤ b)), w') ∧
        (n ≤ b → balance w' = Some (b - n)) ∧
        (b < n → w' = loaded w ∧ balance w' = Some b).
Proof.
  intros Hb. unfold UserCombined.spend_points. run.
  rewrite (points_balance _ _ Hb).
  destruct (Z.leb_spec n b) as [Hle|Hlt].
  - rewrite bool_decide_true by done.
    assert (Hb' : balance (loaded w) = Some b) by by rewrite balance_loaded.
    rewrite (points_balance _ _ Hb'), loaded_loaded.
    destruct (set_points_balance (b - n) _ _ Hb') as (w' & -> & Hw' & _).
    exists w'. split; [done|]. split; [done|lia].
  - rewrite bool_decide_false by lia.
    exists (loaded w). split; [done|]. split; [lia|].
    intros _. split; [done|]. by rewrite balance_loaded.
Qed.

(** ** The lazy load of the key-value fields *)

Lemma load_values_full v1 v2 v3 v4 v5 v6 w :
  ∃ vals,
    UserRedis.load_values UserRedis.FULL_KEYS [v1; v2; v3; v4; v5; v6] w =
      (Ok tt, set_self (Self.set_values vals (self w)) w) ∧
    is_Some (vals !! "username_raw") ∧
    vals !! "ignored" = Some (VBool (UserRedis.fix_bool "ignored" v5)) ∧
    vals !! "banned" = Some (VBool (UserRedis.fix_bool "banned" v6)).
Proof.
  unfold UserRedis.FULL_KEYS, UserRedis.SS_KEYS, UserRedis.HASH_KEYS,
    UserRedis.BOOL_KEYS.
  cbn [app UserRedis.load_values]. key_cases. cbv iota.
  unfold UserRedis.fix_ss, UserRedis.fix_hash, UserRedis.set_value, dict_get. run.
  closed_lookups.
  destruct (int_of v1), (truthy v2), (truthy v3); cbn;
    (eexists; split; [reflexivity|]);
    rewrite !(lookup_insert_ne _ "banned" "ignored") by done;
    rewrite !(lookup_insert_ne _ "banned" "username_raw"),
            !(lookup_insert_ne _ "ignored" "username_raw") by done;
    rewrite !lookup_insert_eq; eauto.
Qed.

Lemma redis_load_unloaded w :
  Self.redis_loaded (self w) = false →
  ∃ vals r',
    UserRedis.redis_load w =
      (Ok tt,
       set_self (Self.set_values vals (Self.set_redis_loaded true (self w)))
         (set_redis r' w)) ∧
    same_data (redis w) r' ∧
    is_Some (vals !! "username_raw") ∧
    vals !! "ignored" =
      Some (VBool (UserRedis.fix_bool "ignored"
        (RedisManager.reply (AList.get (Self.username (self w))
           (Redis.hash (UserRedis.users_key (streamer w) "ignored") (redis w)))))) ∧
    vals !! "banned" =
      Some (VBool (UserRedis.fix_bool "banned"
        (RedisManager.reply (AList.get (Self.username (self w))
           (Redis.hash (UserRedis.users_key (streamer w) "banned") (redis w)))))).
Proof.
  intros Hl.
  unfold UserRedis.redis_load, UserRedis.queue_up_redis_calls,
    UserRedis.load_redis_data.
  run. rewrite Hl.
  unfold UserRedis.SS_KEYS, UserRedis.HASH_KEYS, UserRedis.BOOL_KEYS.
  cbn [fmap list_fmap app RedisManager.execute].
  unfold RedisManager.zscore, RedisManager.hget, RedisManager.send. run.
  cbn -[UserRedis.load_values UserRedis.FULL_KEYS].
  match goal with
  | |- context [UserRedis.load_values _ [?v1; ?v2; ?v3; ?v4; ?v5; ?v6] ?w'] =>
      destruct (load_values_full v1 v2 v3 v4 v5 v6 w') as (vals & -> & Hn & Hi & Hb)
  end.
  eexists vals, _. split; [reflexivity|]. split; done.
Qed.

Lemma username_raw_ok w :
  wf_redis (self w) →
  ∃ name w', UserRedis.username_raw w = (Ok name, w') ∧ sql_view w' = sql_view w.
Proof.
  intros Hwf. unfold UserRedis.username_raw, UserRedis.value.
  destruct (Self.redis_loaded (self w)) eqn:Hl.
  - destruct (Hwf Hl) as [v Hv]. unfold UserRedis.redis_load, dict_get. run.
    rewrite Hl, Hv. eauto.
  - destruct (redis_load_unloaded w Hl) as (vals & r' & Hrl & _ & [v Hv] & _).
    unfold dict_get. run. rewrite Hrl. cbn. rewrite Hv. eauto.
Qed.

(** ** Spending points inside a context *)

Lemma return_points_ok w p b :
  balance w = Some b → wf_redis (self w) →
  ∃ w', UserCombined.return_points p w = (Ok tt, w') ∧ balance w' = Some (b + p).
Proof.
  intros Hb Hwf. unfold UserCombined.return_points.
  destruct (username_raw_ok w Hwf) as (name & w1 & Hn & Hv).
  unfold mbind, M_bind at 1. rewrite Hn.
  unfold mbind, M_bind at 1.
  destruct (logging_view DEBUG
              ("Returning " +:+ str_int p +:+ " points to " +:+ py_str name) w1)
    as (w2 & -> & Hv2 & _).
  assert (Hb2 : balance w2 = Some b).
  { rewrite <- Hb. apply balance_view. congruence. }
  unfold mbind, M_bind. rewrite (points_balance _ _ Hb2).
  assert (Hb3 : balance (loaded w2) = Some b) by by rewrite balance_loaded.
  destruct (set_points_balance (b + p) _ _ Hb3) as (w' & -> & Hw' & _). eauto.
Qed.

Lemma spend_currency_except_ok w p b e :
  balance w = Some b → wf_redis (self w) →
  ∃ w', UserCombined.spend_currency_except p e w = (Ok tt, w') ∧
        balance w' = Some (b + p).
Proof.
  intros Hb Hwf.
  assert (Hlog : ∃ w', (logging EXCEPTION "XXXX";; UserCombined.return_points p) w
                       = (Ok tt, w') ∧ balance w' = Some (b + p)).
  { unfold mbind, M_bind.
    destruct (logging_view EXCEPTION "XXXX" w) as (w1 & -> & Hv & Hs).
    apply return_points_ok.
    - rewrite <- Hb. by apply balance_view.
    - by rewrite Hs. }
  destruct e; cbn [UserCombined.spend_currency_except]; auto using return_points_ok.
Qed.

(** C1 (as amended).  When the amount [p] does not exceed the balance and
    the action wrapped by [spend_currency_context p t] fails, with
    [FailedCommand] or with any other exception, the [p] points are given
    back and the failure is handled inside the context: the [with]
    statement ends normally, nothing is raised to the caller, and the
    balance is the one before the context was entered (the action having
    left the deducted balance as it found it). *)
Theorem spend_currency_context_refund
    (w : World) (p t b : Z) (body : M unit) (e : exn) (w2 : World) :
  balance w = Some b →
  p ≤ b →
  body (UserCombined.spend_points p w).2 = (Raise e, w2) →
  balance w2 = Some (b - p) →
  wf_redis (self w2) →
  ∃ w', UserCombined.spend_currency_context p t body w = (Ok tt, w') ∧
        balance w' = Some b.
Proof.
  intros Hb Hp Hbody Hb2 Hwf.
  destruct (spend_points_run w p b Hb) as (w1 & Hs & _).
  rewrite Hs in Hbody. cbn in Hbody.
  destruct (spend_currency_except_ok w2 p (b - p) e Hb2 Hwf) as (w' & He & Hw').
  exists w'. split.
  - unfold UserCombined.spend_currency_context. run. rewrite Hs. cbn.
    by rewrite Hbody.
  - rewrite Hw'. f_equal. lia.
Qed.

Lemma spend_currency_context_refund_witness :
  balance alice10 = Some 10 ∧
  ∃ w', UserCombined.spend_currency_context 3 0 (raise FailedCommand) alice10
          = (Ok tt, w') ∧
        balance w' = Some 10.
Proof.
  split; [by vm_compute|].
  apply (spend_currency_context_refund alice10 3 0 10 (raise FailedCommand)
           FailedCommand (UserCombined.spend_points 3 alice10).2).
  - by vm_compute.
  - lia.
  - reflexivity.
  - by vm_compute.
  - intros _. vm_compute. eauto.
Defined.

(** C1 as stated fails: for alice with 10 points the exception of the
    action does not reach the caller, whichever kind it is, and with an
    amount of 30, which [spend_points] refuses to deduct, the balance after
    the failed action is 40. *)
Lemma spend_currency_context_swallows_failure :
  balance alice10 = Some 10 ∧
  (UserCombined.spend_currency_context 3 0 (raise (Exception "boom")) alice10).1
    = Ok tt ∧
  (UserCombined.spend_currency_context 3 0 (raise FailedCommand) alice10).1
    = Ok tt ∧
  balance (UserCombined.spend_currency_context 30 0 (raise FailedCommand) alice10).2
    = Some 40.
Proof. vm_compute. auto. Qed.

(** C2.  [spend_points n] returns true exactly when [n] does not exceed
    the balance [b], and the balance read afterwards is then [b - n];
    when [n] exceeds [b] it returns false, nothing but the lazy load of
    the record has happened and the balance is still [b]. *)
Theorem spend_points_spec (w : World) (n b : Z) :
  balance w = Some b →
  ∃ (r : bool) (w' : World),
    UserCombined.spend_points n w = (Ok r, w') ∧
    (r = true ↔ n ≤ b) ∧
    (n ≤ b → r = true ∧ balance w' = Some (b - n)) ∧
    (b < n → r = false ∧ balance w' = Some b ∧ w' = loaded w).
Proof.
  intros Hb.
  destruct (spend_points_run w n b Hb) as (w' & Hrun & Hle & Hgt).
  exists (bool_decide (n ≤ b)), w'. split; [exact Hrun|].
  split; [apply bool_decide_eq_true|]. split.
  - intros Hn. split; [by apply bool_decide_eq_true|by apply Hle].
  - intros Hn. destruct (Hgt Hn) as [-> Hbal].
    split; [apply bool_decide_eq_false; lia|done].
Qed.

Lemma spend_points_spec_witness :
  balance alice10 = Some 10 ∧
  ∃ (r : bool) (w' : World),
    UserCombined.spend_points 4 alice10 = (Ok r, w') ∧
    (r = true ↔ 4 ≤ 10) ∧
    (4 ≤ 10 → r = true ∧ balance w' = Some (10 - 4)) ∧
    (10 < 4 → r = false ∧ balance w' = Some 10 ∧ w' = loaded alice10).
Proof.
  split; [by vm_compute|].
  apply (spend_points_spec alice10 4 10). by vm_compute.
Defined.

(** ** Debts *)

Lemma list_remove_snoc_absent d l :
  d ∉ l → list_remove d (l ++ [d]) = Some l.
Proof.
  induction l as [|y l IH]; cbn; intros Hd.
  - by rewrite Z.eqb_refl.
  - apply not_elem_of_cons in Hd as [Hne Hd].
    destruct (Z.eqb_spec y d); [congruence|]. by rewrite IH.
Qed.

Lemma list_remove_perm d l l' :
  list_remove d l = Some l' → l ≡ₚ d :: l'.
Proof.
  revert l'. induction l as [|y l IH]; cbn; intros l'; [done|].
  destruct (Z.eqb_spec y d) as [->|Hne].
  - by intros [= ->].
  - destruct (list_remove d l) as [l''|]; [|done]. cbn. intros [= <-].
    rewrite (IH l'' eq_refl). apply Permutation_swap.
Qed.

Lemma list_remove_present d l :
  d ∈ l → is_Some (list_remove d l).
Proof.
  induction l as [|y l IH]; cbn; intros Hd; [by apply elem_of_nil in Hd|].
  destruct (Z.eqb_spec y d); [eauto|].
  apply elem_of_cons in Hd as [->|Hd]; [done|].
  destruct (IH Hd) as [l' ->]. cbn. eauto.
Qed.

Lemma list_remove_absent d l :
  d ∉ l → list_remove d l = None.
Proof.
  induction l as [|y l IH]; cbn; intros Hd; [done|].
  apply not_elem_of_cons in Hd as [Hne Hd].
  destruct (Z.eqb_spec y d); [congruence|]. by rewrite IH.
Qed.

(** The lazy load leaves the debts and the store alone and logs at debug
    level only. *)
Lemma loaded_frame w :
  Self.debts (self (loaded w)) = Self.debts (self w) ∧
  redis (loaded w) = redis w ∧
  ∃ l, log (loaded w) = log w ++ l ∧ Forall (λ x, x.1 = DEBUG) l.
Proof.
  unfold loaded, UserSQL.sql_load, DBManager.in_shared_session,
    DBManager.create_session_scope. run.
  destruct (Self.model_loaded (self w)) eqn:E.
  - cbn. split; [done|]. split; [done|]. exists []. by rewrite app_nil_r.
  - cbn. destruct (Self.shared_db_session (self w)); cbn;
      destruct (UserSQL.select_or_create _ _); cbn;
      (split; [done|]); (split; [done|]); eexists; split; try done;
      by repeat constructor.
Qed.

Lemma create_debts_run ds w :
  create_debts ds w =
    (Ok tt, set_self (Self.set_debts (Self.debts (self w) ++ ds) (self w)) w).
Proof.
  revert w. induction ds as [|d ds IH]; intros w; cbn [create_debts].
  - rewrite app_nil_r. by destruct w as [? ? ? ? ? ? ? ? []].
  - unfold UserCombined.create_debt. run. rewrite IH. cbn.
    by rewrite <- app_assoc.
Qed.

Lemma points_available_run w b :
  balance w = Some b →
  UserCombined.points_available w =
    (Ok (b - py_sum (Self.debts (self w))), loaded w).
Proof.
  intros Hb. unfold UserCombined.points_available, UserCombined.points_in_debt.
  run. rewrite (points_balance _ _ Hb).
  by destruct (loaded_frame w) as (-> & _).
Qed.

Lemma remove_debt_eq d w :
  UserCombined.remove_debt d w =
    match list_remove d (Self.debts (self w)) with
    | Some debts => (Ok tt, set_self (Self.set_debts debts (self w)) w)
    | None =>
        (Ok tt, set_log (log w ++
           [(ERROR, "For some reason the debt " +:+ str_int d
                    +:+ " was not in the list of debts "
                    +:+ str_list (Self.debts (self w)))]) w)
    end.
Proof.
  unfold UserCombined.remove_debt. run.
  by destruct (list_remove d (Self.debts (self w))).
Qed.

Lemma pay_debt_run d w b :
  balance w = Some b →
  ∃ w1, UserSQL.set_points (b - d) (loaded w) = (Ok tt, w1) ∧
        balance w1 = Some (b - d) ∧
        Self.debts (self w1) = Self.debts (self w) ∧
        log w1 = log (loaded w) ∧
        UserCombined.pay_debt d w = UserCombined.remove_debt d w1.
Proof.
  intros Hb.
  assert (Hb' : balance (loaded w) = Some b) by by rewrite balance_loaded.
  destruct (set_points_balance (b - d) _ _ Hb') as (w1 & Hs & Hw1 & Hd & Hl).
  exists w1. rewrite loaded_loaded in Hd, Hl.
  destruct (loaded_frame w) as (Hdw & _).
  split; [done|]. split; [done|]. split; [congruence|]. split; [done|].
  unfold UserCombined.pay_debt. run. by rewrite (points_balance _ _ Hb), Hs.
Qed.

(** [sum(l)] adds up the entries of [l]. *)
Lemma py_sum_foldr l : py_sum l = foldr Z.add 0 l.
Proof.
  unfold py_sum.
  assert (H : ∀ a, foldl Z.add a l = a + foldr Z.add 0 l).
  { induction l as [|x l IH]; intros a; cbn; [lia|]. rewrite IH. lia. }
  by rewrite H.
Qed.

(** C6.  For a balance [b]: after any sequence [ds] of [create_debt]
    calls [points_available] is [b] minus the sum of all debts, the
    former ones and [ds]; [can_afford n] is true exactly when [n] does
    not exceed that difference, which is what [points_available]
    returns; [create_debt d] followed by [pay_debt d] takes [d] off the
    balance and one entry [d] off the debt list, which has its former
    entries again (the very list, when it held no [d] before) without any
    error logged; and [pay_debt d] for an amount that is not in the list
    returns normally, takes [d] off the balance, leaves the list and logs
    one error. *)
Theorem debts_spec (w : World) (b : Z) :
  balance w = Some b →
  (∀ ds : list Z,
     ∃ w', (create_debts ds;; UserCombined.points_available) w
             = (Ok (b - foldr Z.add 0 (Self.debts (self w) ++ ds)), w') ∧
           Self.debts (self w') = Self.debts (self w) ++ ds) ∧
  (∀ (ds : list Z) (n : Z),
     ∃ w', (create_debts ds;; UserCombined.can_afford n) w
             = (Ok (bool_decide (n ≤ b - foldr Z.add 0 (Self.debts (self w) ++ ds))),
                w')) ∧
  (∀ n : Z,
     ∃ available w1 w',
       UserCombined.points_available w = (Ok available, w1) ∧
       UserCombined.can_afford n w = (Ok (bool_decide (n ≤ available)), w')) ∧
  (∀ d : Z,
     ∃ w', (UserCombined.create_debt d;; UserCombined.pay_debt d) w = (Ok tt, w') ∧
           balance w' = Some (b - d) ∧
           Self.debts (self w') ≡ₚ Self.debts (self w) ∧
           (d ∉ Self.debts (self w) → Self.debts (self w') = Self.debts (self w)) ∧
           Forall (λ x, x.1 = DEBUG) (drop (length (log w)) (log w'))) ∧
  (∀ d : Z,
     d ∉ Self.debts (self w) →
     ∃ w' msg, UserCombined.pay_debt d w = (Ok tt, w') ∧
           balance w' = Some (b - d) ∧
           Self.debts (self w') = Self.debts (self w) ∧
           log w' = log (loaded w) ++ [(ERROR, msg)]).
Proof.
  intros Hb.
  assert (Hafford : ∀ n w0, balance w0 = Some b →
    UserCombined.can_afford n w0 =
      (Ok (bool_decide (n ≤ b - foldr Z.add 0 (Self.debts (self w0)))), loaded w0)).
  { intros n w0 Hb0. unfold UserCombined.can_afford. run.
    rewrite (points_available_run _ b Hb0), py_sum_foldr.
    by destruct (Z.leb_spec n (b - foldr Z.add 0 (Self.debts (self w0))));
      [rewrite bool_decide_true|rewrite bool_decide_false by lia]. }
  split; [|split; [|split; [|split]]].
  - intros ds. unfold mbind, M_bind. rewrite create_debts_run.
    rewrite (points_available_run _ b), py_sum_foldr.
    + eexists. split; [reflexivity|]. by destruct (loaded_frame
        (set_self (Self.set_debts (Self.debts (self w) ++ ds) (self w)) w)) as (-> & _).
    + rewrite <- Hb. by apply balance_view.
  - intros ds n. unfold mbind, M_bind. rewrite create_debts_run.
    rewrite Hafford; [by eexists|].
    rewrite <- Hb. by apply balance_view.
  - intros n. eexists _, _, _. split; [by apply points_available_run|].
    by rewrite (Hafford _ _ Hb), py_sum_foldr.
  - intros d. unfold UserCombined.create_debt. run.
    set (w0 := set_self _ w).
    assert (Hb0 : balance w0 = Some b) by (rewrite <- Hb; by apply balance_view).
    destruct (pay_debt_run d w0 b Hb0) as (w1 & _ & Hb1 & Hd1 & Hl1 & ->).
    rewrite remove_debt_eq, Hd1. subst w0.
    cbn [self Self.debts Self.set_debts set_self].
    destruct (list_remove_present d (Self.debts (self w) ++ [d])) as [l' Hl'].
    { apply elem_of_app. right. by apply list_elem_of_singleton. }
    rewrite Hl'. eexists. split; [reflexivity|]. split; [|split; [|split]].
    + rewrite <- Hb1. by apply balance_view.
    + cbn. apply list_remove_perm in Hl'.
      apply (Permutation_cons_inv (a := d)). rewrite <- Hl'.
      by rewrite Permutation_app_comm.
    + intros Hd. cbn. rewrite (list_remove_snoc_absent d _ Hd) in Hl'. congruence.
    + cbn. rewrite Hl1.
      destruct (loaded_frame
                  (set_self (Self.set_debts (Self.debts (self w) ++ [d]) (self w)) w))
        as (_ & _ & l & -> & Hl).
      cbn. by rewrite drop_app_length.
  - intros d Hd.
    destruct (pay_debt_run d w b Hb) as (w1 & _ & Hb1 & Hd1 & Hl1 & ->).
    rewrite remove_debt_eq, Hd1, (list_remove_absent d _ Hd).
    eexists _, _. split; [reflexivity|]. split; [|split].
    + rewrite <- Hb1. by apply balance_view.
    + done.
    + cbn. by rewrite Hl1.
Qed.

Lemma debts_spec_witness :
  balance alice10 = Some 10 ∧
  Self.debts (self alice10) = [] ∧
  (∃ w', (create_debts [2; 3];; UserCombined.points_available) alice10
           = (Ok 5, w') ∧
         Self.debts (self w') = [2; 3]) ∧
  (∃ w', (create_debts [2; 3];; UserCombined.can_afford 5) alice10 = (Ok true, w')) ∧
  (∃ w', (create_debts [2; 3];; UserCombined.can_afford 6) alice10 = (Ok false, w')) ∧
  balance alice_in_debt = Some 10 ∧
  Self.debts (self alice_in_debt) = [2; 3] ∧
  (∃ w', (UserCombined.create_debt 4;; UserCombined.pay_debt 4) alice_in_debt
           = (Ok tt, w') ∧
         balance w' = Some 6 ∧
         Self.debts (self w') = [2; 3]) ∧
  (∃ w' msg, UserCombined.pay_debt 5 alice_in_debt = (Ok tt, w') ∧
         balance w' = Some 5 ∧
         Self.debts (self w') = [2; 3] ∧
         log w' = log (loaded alice_in_debt) ++ [(ERROR, msg)]).
Proof.
  assert (H : balance alice10 = Some 10) by by vm_compute.
  assert (H' : balance alice_in_debt = Some 10) by by vm_compute.
  assert (N4 : 4 ∉ Self.debts (self alice_in_debt)).
  { apply (bool_decide_unpack _). by vm_compute. }
  assert (N5 : 5 ∉ Self.debts (self alice_in_debt)).
  { apply (bool_decide_unpack _). by vm_compute. }
  destruct (debts_spec alice10 10 H) as (Havail & Hafford & _).
  destruct (debts_spec alice_in_debt 10 H') as (_ & _ & _ & Hround & Habsent).
  split; [exact H|]. split; [done|]. split; [exact (Havail [2; 3])|].
  split; [exact (Hafford [2; 3] 5)|]. split; [exact (Hafford [2; 3] 6)|].
  split; [exact H'|]. split; [done|]. split.
  - destruct (Hround 4) as (w' & Hrun & Hb & _ & Hd & _).
    exists w'. split; [exact Hrun|]. split; [exact Hb|]. exact (Hd N4).
  - exact (Habsent 5 N5).
Defined.

(** ** Query-or-create *)

(** C7.  When no row answers the lookup, [select_or_create] builds a
    record with level 100, no points, no subscription and both chat-time
    counters at 0, and registers it with the session; the lookup goes by
    the folded name, so any casing of the username of a stored record
    returns that record and registers nothing. *)
Theorem select_or_create_spec (s : Session.t) (name : string) :
  (Session.one_or_none s name = None →
   ∃ user s',
     UserSQL.select_or_create s name = (user, s') ∧
     User.username user = lower name ∧
     User.level user = 100 ∧ User.points user = 0 ∧
     User.subscriber user = false ∧
     User.minutes_in_chat_online user = 0 ∧
     User.minutes_in_chat_offline user = 0 ∧
     Session.new s' = Session.new s ++ [user] ∧
     Session.table s' = Session.table s) ∧
  (∀ (user : User.t) (name' : string),
     Session.table s !! collate (User.username user) = Some user →
     lower name' = lower (User.username user) →
     UserSQL.select_or_create s name' = (user, s)).
Proof.
  unfold UserSQL.select_or_create. split.
  - intros ->. eexists _, _. split; [reflexivity|]. done.
  - intros user name' Hrow Hfold. unfold Session.one_or_none, collate in *.
    by rewrite Hfold, Hrow.
Qed.

Lemma select_or_create_spec_witness :
  (∃ user s',
     UserSQL.select_or_create table_alice "Bob" = (user, s') ∧
     User.username user = lower "Bob" ∧
     User.level user = 100 ∧ User.points user = 0 ∧
     User.subscriber user = false ∧
     User.minutes_in_chat_online user = 0 ∧
     User.minutes_in_chat_offline user = 0 ∧
     Session.new s' = Session.new table_alice ++ [user] ∧
     Session.table s' = Session.table table_alice) ∧
  UserSQL.select_or_create table_alice "ALICE"
    = (User.set_points 7 (User.__init__ "alice"), table_alice).
Proof.
  split.
  - apply (proj1 (select_or_create_spec table_alice "Bob")). by vm_compute.
  - apply (proj2 (select_or_create_spec table_alice "ALICE")
             (User.set_points 7 (User.__init__ "alice")) "ALICE");
      by vm_compute.
Defined.

(** ** The subscriber flag and the cache *)

(** C8.  When the cache holds for the username a subscriber value equal
    to the one being written, the setter returns at once and the world is
    the same: no load, no change of the record, of the cache or of the
    relational store. *)
Theorem set_subscriber_cached (w : World) (value : bool) (entry : CacheEntry.t) :
  cache w !! Self.username (self w) = Some entry →
  CacheEntry.subscriber entry = value →
  UserSQL.set_subscriber value w = (Ok tt, w).
Proof.
  intros Hc Hv. unfold UserSQL.set_subscriber, except_NoCacheHit, UserSQLCache.get.
  run. rewrite Hc. cbn. rewrite Hv. by destruct value.
Qed.

Lemma set_subscriber_cached_witness :
  cache alice_cached !! Self.username (self alice_cached)
    = Some (CacheEntry.mk None 100 true) ∧
  UserSQL.set_subscriber true alice_cached = (Ok tt, alice_cached).
Proof.
  split; [by vm_compute|].
  apply (set_subscriber_cached alice_cached true (CacheEntry.mk None 100 true)).
  - by vm_compute.
  - reflexivity.
Defined.

(** ** Hashes of the store *)

Lemma alist_get_set_eq f v h : AList.get f (AList.set f v h) = Some v.
Proof.
  induction h as [|[k x] h IH]; cbn.
  - by rewrite String.eqb_refl.
  - destruct (String.eqb_spec k f) as [->|Hne]; cbn.
    + by rewrite String.eqb_refl.
    + by destruct (String.eqb_spec k f).
Qed.

Lemma alist_get_set_ne f g v h :
  f ≠ g → AList.get g (AList.set f v h) = AList.get g h.
Proof.
  intros Hne. induction h as [|[k x] h IH]; cbn.
  - by destruct (String.eqb_spec f g).
  - destruct (String.eqb_spec k f) as [->|Hkf]; cbn.
    + by destruct (String.eqb_spec f g).
    + by rewrite IH.
Qed.

Lemma alist_get_del_eq f h : AList.get f (AList.del f h) = None.
Proof.
  induction h as [|[k x] h IH]; [done|].
  unfold AList.del in *. rewrite filter_cons. cbn [fst]. case_decide as Hk; [|done].
  cbn. by destruct (String.eqb_spec k f).
Qed.

Lemma alist_keys_set f v h :
  f ∈ h.*1 → (AList.set f v h).*1 = h.*1.
Proof.
  induction h as [|[k x] h IH]; cbn; intros Hf; [by apply elem_of_nil in Hf|].
  destruct (String.eqb_spec k f) as [->|Hne]; [done|]. cbn. f_equal.
  apply IH. by apply elem_of_cons in Hf as [?|?].
Qed.

Lemma alist_get_None f h : AList.get f h = None ↔ f ∉ h.*1.
Proof.
  induction h as [|[k x] h IH]; cbn.
  - split; [intros _; apply not_elem_of_nil|done].
  - rewrite not_elem_of_cons. destruct (String.eqb_spec k f) as [->|Hne].
    + split; [done|]. by intros [? _].
    + rewrite IH. split; [by intros ?; split|by intros [_ ?]].
Qed.

Lemma hash_put_eq k h r : Redis.hash k (Redis.put_hash k h r) = h.
Proof.
  unfold Redis.hash, Redis.put_hash. destruct h; cbn.
  - by rewrite lookup_delete_eq.
  - by rewrite lookup_insert_eq.
Qed.

Lemma hash_put_ne k k' h r :
  k ≠ k' → Redis.hash k (Redis.put_hash k' h r) = Redis.hash k r.
Proof.
  intros Hne. unfold Redis.hash, Redis.put_hash. destruct h; cbn.
  - by rewrite lookup_delete_ne.
  - by rewrite lookup_insert_ne.
Qed.

Lemma hash_sent k c r : Redis.hash k (Redis.sent c r) = Redis.hash k r.
Proof. done. Qed.

Lemma users_key_inj st a b :
  UserRedis.users_key st a = UserRedis.users_key st b → a = b.
Proof.
  unfold UserRedis.users_key. intros H.
  apply String.app_inj in H. by apply String.app_inj in H.
Qed.

Lemma fix_bool_reply key o :
  UserRedis.fix_bool key (RedisManager.reply o) = bool_decide (is_Some o).
Proof. by destruct o. Qed.

Lemma value_unloaded key w :
  Self.redis_loaded (self w) = false →
  ∃ vals r',
    UserRedis.value key w =
      dict_get vals key
        (set_self (Self.set_values vals (Self.set_redis_loaded true (self w)))
           (set_redis r' w)) ∧
    vals !! "ignored" =
      Some (VBool (bool_decide (is_Some (AList.get (Self.username (self w))
        (Redis.hash (UserRedis.users_key (streamer w) "ignored") (redis w)))))) ∧
    vals !! "banned" =
      Some (VBool (bool_decide (is_Some (AList.get (Self.username (self w))
        (Redis.hash (UserRedis.users_key (streamer w) "banned") (redis w)))))).
Proof.
  intros Hl. destruct (redis_load_unloaded w Hl) as (vals & r' & Hrl & _ & _ & Hi & Hb).
  exists vals, r'. rewrite !fix_bool_reply in *. split; [|done].
  unfold UserRedis.value. run. by rewrite Hrl.
Qed.

Lemma init_run w username db_session user_model :
  UserCombined.__init__ username db_session user_model w =
    (Ok tt,
     set_self (Self.mk username user_model (bool_decide (is_Some user_model))
                 db_session false {[ "username_raw" := VStr username ]}
                 [] false false None)
       (set_redis
          (Redis.put_hash (UserRedis.users_key (streamer w) "username_raw")
             (AList.del username
                (Redis.hash (UserRedis.users_key (streamer w) "username_raw") (redis w)))
             (Redis.sent (HDEL (UserRedis.users_key (streamer w) "username_raw") username)
                (redis w))) w)).
Proof.
  unfold UserCombined.__init__, UserRedis.__init__, UserSQL.__init__,
    UserRedis.set_username_raw, UserRedis.set_value, RedisManager.hset,
    RedisManager.hdel, RedisManager.send, RedisManager.update.
  run. cbn. rewrite String.eqb_refl. cbn. done.
Qed.

(** ** Construction *)

(** C10.  The constructor sends one command to the key-value store, for
    the [username_raw] hash: an [HSET] when the name differs from the
    [username] attribute, an [HDEL] when it equals it, which is the case
    at construction since the attribute has just been set from the same
    name; the hash holds no raw name for the user afterwards.  Nothing
    has been loaded at that point: the key-value fields are not loaded,
    the relational model is the one the caller passed, the table, the
    cache and the log are as before. *)
Theorem init_writes_username_raw
    (w : World) (username : string) (db_session : bool) (user_model : option User.t) :
  ∃ w',
    UserCombined.__init__ username db_session user_model w = (Ok tt, w') ∧
    Self.username (self w') = username ∧
    Redis.journal (redis w') =
      Redis.journal (redis w) ++
      [if negb (String.eqb username (Self.username (self w')))
       then HSET (UserRedis.users_key (streamer w) "username_raw") username username
       else HDEL (UserRedis.users_key (streamer w) "username_raw") username] ∧
    Redis.journal (redis w') =
      Redis.journal (redis w) ++
      [HDEL (UserRedis.users_key (streamer w) "username_raw") username] ∧
    AList.get username
      (Redis.hash (UserRedis.users_key (streamer w) "username_raw") (redis w')) = None ∧
    Self.redis_loaded (self w') = false ∧
    Self.model_loaded (self w') = bool_decide (is_Some user_model) ∧
    Self.user_model (self w') = user_model ∧
    db w' = db w ∧ session_new w' = session_new w ∧ cache w' = cache w ∧
    log w' = log w.
Proof.
  eexists. split; [apply init_run|].
  cbn -[Redis.put_hash Redis.hash]. rewrite String.eqb_refl, hash_put_eq.
  split; [done|]. split; [done|]. split; [done|].
  split; [apply alist_get_del_eq|done].
Qed.

(** ** Boolean fields *)

(** C9.  A stored boolean field decodes to true exactly when the reply of
    the store is not [None], whatever the stored value: on the first read
    of an object [ignored] and [banned] are true exactly when the hash
    holds the username.  Hence [banned = v] followed by the construction
    of a new object for the same username and a read of [banned] gives
    [v], for [v] true and for [v] false. *)
Theorem banned_round_trip
    (w : World) (v : bool) (db_session : bool) (user_model : option User.t) :
  (∀ (key : string) (value : pyval),
     UserRedis.fix_bool key value = true ↔ value ≠ VNone) ∧
  (Self.redis_loaded (self w) = false →
   (∃ w', UserRedis.ignored w =
      (Ok (VBool (bool_decide (is_Some (AList.get (Self.username (self w))
         (Redis.hash (UserRedis.users_key (streamer w) "ignored") (redis w)))))), w')) ∧
   (∃ w', UserRedis.banned w =
      (Ok (VBool (bool_decide (is_Some (AList.get (Self.username (self w))
         (Redis.hash (UserRedis.users_key (streamer w) "banned") (redis w)))))), w'))) ∧
  ∃ w', (UserRedis.set_banned v;;
         UserCombined.__init__ (Self.username (self w)) db_session user_model;;
         UserRedis.banned) w = (Ok (VBool v), w').
Proof.
  split; [|split].
  - intros key value. by destruct value.
  - intros Hl. split.
    + destruct (value_unloaded "ignored" w Hl) as (vals & r' & Hv & Hi & _).
      unfold UserRedis.ignored. rewrite Hv. unfold dict_get. rewrite Hi. eauto.
    + destruct (value_unloaded "banned" w Hl) as (vals & r' & Hv & _ & Hb).
      unfold UserRedis.banned. rewrite Hv. unfold dict_get. rewrite Hb. eauto.
  - unfold mbind, M_bind.
    unfold UserRedis.set_banned at 1, UserRedis.set_value, RedisManager.hset,
      RedisManager.hdel, RedisManager.send, RedisManager.update. run.
    assert (Hne : UserRedis.users_key (streamer w) "banned"
                  ≠ UserRedis.users_key (streamer w) "username_raw").
    { by intros ?%users_key_inj. }
    destruct v; cbn; rewrite init_run; cbn -[Redis.put_hash];
      match goal with
      | |- context [UserRedis.banned ?w2] =>
          destruct (value_unloaded "banned" w2 eq_refl) as (vals & r' & Hv & _ & Hb);
          unfold UserRedis.banned; rewrite Hv; unfold dict_get; rewrite Hb
      end;
      cbn -[Redis.put_hash Redis.hash Redis.sent];
      rewrite (hash_put_ne _ _ _ _ Hne), !hash_sent, hash_put_eq.
    + rewrite alist_get_set_eq. eauto.
    + rewrite alist_get_del_eq. eauto.
Qed.

Lemma banned_round_trip_witness :
  Self.redis_loaded (self alice_banned) = false ∧
  (∃ w', UserRedis.banned alice_banned = (Ok (VBool true), w')) ∧
  ∃ w', (UserRedis.set_banned false;;
         UserCombined.__init__ "alice" false None;;
         UserRedis.banned) alice_banned = (Ok (VBool false), w').
Proof.
  split; [done|]. split.
  - apply (proj2 (proj1 (proj2 (banned_round_trip alice_banned true false None))
                    eq_refl)).
  - apply (proj2 (proj2 (banned_round_trip alice_banned false false None))).
Defined.

(** ** Reading back a written integer *)

Lemma small_N_cases (d : N) :
  (d < 10)%N →
  d ∈ [0; 1; 2; 3; 4; 5; 6; 7; 8; 9]%N.
Proof.
  intros Hd.
  assert (d = 0 ∨ d = 1 ∨ d = 2 ∨ d = 3 ∨ d = 4 ∨ d = 5 ∨ d = 6 ∨ d = 7
          ∨ d = 8 ∨ d = 9)%N as Hc by lia.
  rewrite !elem_of_cons. tauto.
Qed.

Lemma digit_of_pretty_N_char (d : N) :
  (d < 10)%N → digit_of (pretty_N_char d) = Some (Z.of_N d).
Proof.
  intros Hd%small_N_cases.
  repeat (apply elem_of_cons in Hd as [->|Hd]; [done|]).
  by apply elem_of_nil in Hd.
Qed.

Lemma int_digits_pretty_N_go (x : N) :
  (0 < x)%N →
  ∃ m : Z, ∀ s acc seen,
    int_digits (pretty_N_go x s) acc seen = int_digits s (acc * m + Z.of_N x) true.
Proof.
  induction (N.lt_wf_0 x) as [x _ IH]; intros Hx.
  assert (Hmod : (x `mod` 10 < 10)%N) by (apply N.mod_lt; lia).
  assert (Hdm := N.div_mod x 10 ltac:(lia)).
  destruct (decide (x `div` 10 = 0)%N) as [Hz|Hnz].
  - exists 10. intros s acc seen.
    rewrite pretty_N_go_step, Hz, pretty_N_go_0 by done. cbn [int_digits].
    rewrite digit_of_pretty_N_char by done. f_equal. lia.
  - destruct (IH (x `div` 10)%N) as [m Hm].
    { apply N.div_lt; lia. }
    { by apply N.neq_0_lt_0. }
    exists (10 * m). intros s acc seen.
    rewrite pretty_N_go_step, Hm by done. cbn [int_digits].
    rewrite digit_of_pretty_N_char by done. f_equal. lia.
Qed.

Lemma pretty_N_go_head (x : N) (s : string) :
  (0 < x)%N →
  ∃ d s', (d < 10)%N ∧ pretty_N_go x s = String (pretty_N_char d) s'.
Proof.
  revert s. induction (N.lt_wf_0 x) as [x _ IH]; intros s Hx.
  rewrite pretty_N_go_step by done.
  destruct (decide (x `div` 10 = 0)%N) as [Hz|Hnz].
  - rewrite Hz, pretty_N_go_0. eexists _, _. split; [|done]. apply N.mod_lt; lia.
  - apply IH; [apply N.div_lt; lia|by apply N.neq_0_lt_0].
Qed.

Lemma py_int_pretty_positive (p : positive) :
  py_int (pretty_N_go (Npos p) EmptyString) = Some (Zpos p) ∧
  int_digits (pretty_N_go (Npos p) EmptyString) 0 false = Some (Zpos p).
Proof.
  destruct (int_digits_pretty_N_go (Npos p)) as [m Hm]; [lia|].
  assert (Hd : int_digits (pretty_N_go (N.pos p) EmptyString) 0 false = Some (Z.pos p)).
  { rewrite Hm. cbn. f_equal. }
  split; [|done]. rewrite <- Hd.
  destruct (pretty_N_go_head (Npos p) EmptyString) as (d & s' & Hlt%small_N_cases & ->); [lia|].
  repeat (apply elem_of_cons in Hlt as [->|Hlt]; [done|]).
  by apply elem_of_nil in Hlt.
Qed.

Lemma py_int_str_int (z : Z) : py_int (str_int z) = Some z.
Proof.
  unfold str_int, pretty, pretty_Z. destruct z as [|p|p].
  - done.
  - unfold pretty, pretty_positive, pretty, pretty_N.
    rewrite decide_False by done. apply py_int_pretty_positive.
  - unfold pretty, pretty_positive, pretty, pretty_N.
    rewrite decide_False by done.
    change (Z.opp <$> int_digits (pretty_N_go (N.pos p) EmptyString) 0 false = Some (Z.neg p)).
    by rewrite (proj2 (py_int_pretty_positive p)).
Qed.

(** ** Awarding tokens *)

Lemma award_tokens_absent w sid a :
  current_stream_id w = Some sid →
  AList.get sid (ledger w) = None →
  UserCombined.award_tokens a false w =
    (Ok true,
     set_events
       (events w ++ [Event "on_user_gain_tokens" (Self.username (self w)) a])
       (set_redis
          (Redis.put_hash
             (UserCombined.tokens_key (streamer w) (Self.username (self w)))
             (AList.set sid (str_int a) (ledger w))
             (Redis.sent
                (HSETNX (UserCombined.tokens_key (streamer w) (Self.username (self w)))
                   sid (str_int a)) (redis w))) w)).
Proof.
  intros Hc Hget. unfold ledger in *.
  unfold UserCombined.award_tokens, RedisManager.hsetnx, RedisManager.send,
    RedisManager.update.
  run. rewrite Hc. cbn -[Redis.put_hash Redis.hash Redis.sent].
  by rewrite !hash_sent, Hget.
Qed.

Lemma award_tokens_present w sid a v :
  current_stream_id w = Some sid →
  AList.get sid (ledger w) = Some v →
  UserCombined.award_tokens a false w =
    (Ok false,
     set_redis
       (Redis.sent
          (HSETNX (UserCombined.tokens_key (streamer w) (Self.username (self w)))
             sid (str_int a)) (redis w)) w).
Proof.
  intros Hc Hget. unfold ledger in *.
  unfold UserCombined.award_tokens, RedisManager.hsetnx, RedisManager.send,
    RedisManager.update.
  run. rewrite Hc. cbn -[Redis.put_hash Redis.hash Redis.sent].
  by rewrite !hash_sent, Hget.
Qed.

Lemma award_tokens_force w sid a :
  current_stream_id w = Some sid →
  UserCombined.award_tokens a true w =
    (Ok true,
     set_redis
       (Redis.put_hash
          (UserCombined.tokens_key (streamer w) (Self.username (self w)))
          (AList.set sid (str_int a) (ledger w))
          (Redis.sent
             (HSET (UserCombined.tokens_key (streamer w) (Self.username (self w)))
                sid (str_int a)) (redis w))) w).
Proof.
  intros Hc. unfold ledger in *.
  unfold UserCombined.award_tokens, RedisManager.hset, RedisManager.send,
    RedisManager.update.
  run. by rewrite Hc.
Qed.

Lemma session_balance_set sid a h :
  AList.get sid (AList.set sid (str_int a) h) ≫= py_int = Some a.
Proof. rewrite alist_get_set_eq. apply py_int_str_int. Qed.

(** C4.  While no stream is live [award_tokens] returns false and leaves
    the world as it is, forced or not.  For a live stream [sid] that has
    no balance yet: the first unforced award stores the amount, fires
    [on_user_gain_tokens] and returns true; a second unforced award
    returns false, fires nothing and the stored balance is still the
    first amount; a forced second award returns true and the stored
    balance is the new amount, without an event. *)
Theorem award_tokens_spec (w : World) (a1 a2 : Z) :
  (∀ force : bool,
     current_stream_id w = None →
     UserCombined.award_tokens a1 force w = (Ok false, w)) ∧
  (∀ sid : string,
     current_stream_id w = Some sid →
     AList.get sid (ledger w) = None →
     ∃ w1 w2 w3,
       UserCombined.award_tokens a1 false w = (Ok true, w1) ∧
       events w1 =
         events w ++ [Event "on_user_gain_tokens" (Self.username (self w)) a1] ∧
       AList.get sid (ledger w1) = Some (str_int a1) ∧
       session_balance sid w1 = Some a1 ∧
       UserCombined.award_tokens a2 false w1 = (Ok false, w2) ∧
       events w2 = events w1 ∧
       ledger w2 = ledger w1 ∧
       session_balance sid w2 = Some a1 ∧
       UserCombined.award_tokens a2 true w1 = (Ok true, w3) ∧
       session_balance sid w3 = Some a2 ∧
       events w3 = events w1).
Proof.
  split.
  - intros force Hc. unfold UserCombined.award_tokens. run. by rewrite Hc.
  - intros sid Hc Hget.
    eexists _, _, _.
    split; [by apply award_tokens_absent|].
    split; [done|].
    assert (Hl1 : ∀ r, ledger (set_events
               (events w ++ [Event "on_user_gain_tokens" (Self.username (self w)) a1])
               (set_redis (Redis.put_hash
                  (UserCombined.tokens_key (streamer w) (Self.username (self w)))
                  (AList.set sid (str_int a1) (ledger w)) r) w))
             = AList.set sid (str_int a1) (ledger w)).
    { intros r. unfold ledger. cbn -[Redis.put_hash Redis.hash]. apply hash_put_eq. }
    split; [by rewrite Hl1, alist_get_set_eq|].
    split; [unfold session_balance; rewrite Hl1; apply session_balance_set|].
    split.
    { eapply award_tokens_present; [done|]. by rewrite Hl1, alist_get_set_eq. }
    split; [done|].
    split; [done|].
    split.
    { unfold session_balance, ledger. cbn -[Redis.put_hash Redis.hash Redis.sent].
      rewrite hash_sent, hash_put_eq. apply session_balance_set. }
    split; [by apply award_tokens_force|].
    split; [|done].
    unfold session_balance, ledger. cbn -[Redis.put_hash Redis.hash Redis.sent].
    rewrite hash_put_eq. apply session_balance_set.
Qed.

Lemma award_tokens_spec_witness :
  current_stream_id alice_offline = None ∧
  UserCombined.award_tokens 5 true alice_offline = (Ok false, alice_offline) ∧
  current_stream_id alice10 = Some "1" ∧
  AList.get "1" (ledger alice10) = None ∧
  ∃ w1 w2 w3,
    UserCombined.award_tokens 5 false alice10 = (Ok true, w1) ∧
    events w1 = events alice10 ++ [Event "on_user_gain_tokens" "alice" 5] ∧
    AList.get "1" (ledger w1) = Some (str_int 5) ∧
    session_balance "1" w1 = Some 5 ∧
    UserCombined.award_tokens 7 false w1 = (Ok false, w2) ∧
    events w2 = events w1 ∧
    ledger w2 = ledger w1 ∧
    session_balance "1" w2 = Some 5 ∧
    UserCombined.award_tokens 7 true w1 = (Ok true, w3) ∧
    session_balance "1" w3 = Some 7 ∧
    events w3 = events w1.
Proof.
  split; [done|].
  split; [by apply (proj1 (award_tokens_spec alice_offline 5 7) true)|].
  split; [done|]. split; [done|].
  apply (proj2 (award_tokens_spec alice10 5 7) "1"); done.
Defined.

(** ** Warnings and timeouts *)

Lemma get_warning_keys_run st w :
  UserCombined.get_warning_keys (WarningModule.total_chances st)
    (WarningModule.redis_prefix st) w = (Ok (warning_keys st w), w).
Proof. done. Qed.

Lemma get_warnings_run st w :
  UserCombined.get_warnings (warning_keys st w) w =
    (Ok (warnings st w),
     set_redis (Redis.sent (MGET (warning_keys st w)) (redis w)) w).
Proof. done. Qed.

Lemma warnings_length st w :
  length (warnings st w) = length (warning_keys st w).
Proof.
  unfold warnings, UserCombined.get_warnings, RedisManager.mget, RedisManager.send.
  run. by rewrite length_fmap.
Qed.

Lemma warning_keys_length st w :
  length (warning_keys st w) = Z.to_nat (WarningModule.total_chances st).
Proof.
  unfold warning_keys, UserCombined.get_warning_keys, range. run.
  by rewrite !length_fmap, length_seq.
Qed.

Lemma py_eq_None v : py_eq v VNone = true ↔ v = VNone.
Proof. by destruct v. Qed.

Lemma chances_used_bounds ws :
  0 ≤ UserCombined.get_chances_used ws ≤ Z.of_nat (length ws).
Proof.
  unfold UserCombined.get_chances_used.
  pose proof (length_filter (λ v, py_eq v VNone = true) ws). lia.
Qed.

(** Fewer chances used than values read: some value is [None]. *)
Lemma chances_left ws :
  UserCombined.get_chances_used ws < Z.of_nat (length ws) →
  ∃ i, ws !! i = Some VNone.
Proof.
  unfold UserCombined.get_chances_used. intros Hlt.
  destruct (filter (λ v, py_eq v VNone = true) ws) as [|v l] eqn:Hf.
  - cbn in Hlt. lia.
  - assert (Hv : v ∈ filter (λ v, py_eq v VNone = true) ws) by (rewrite Hf; left).
    apply list_elem_of_filter in Hv as [->%py_eq_None Hin].
    by apply list_elem_of_lookup in Hin.
Qed.

Lemma add_warning_from_first time keys ws w m :
  ∀ n,
    (n + m)%nat = length keys →
    length ws = length keys →
    (∃ i, (n ≤ i)%nat ∧ ws !! i = Some VNone) →
    ∃ i key,
      (n ≤ i)%nat ∧ keys !! i = Some key ∧ ws !! i = Some VNone ∧
      (∀ j, (n ≤ j < i)%nat → ws !! j ≠ Some VNone) ∧
      UserCombined.add_warning_from (seq n m) time keys ws w =
        (Ok true,
         set_redis (Redis.put_string key (str_int 1, time)
                      (Redis.sent (SETEX key time (str_int 1)) (redis w))) w).
Proof.
  induction m as [|m IH]; intros n Hlen Hws (i & Hi & Hnone).
  - apply lookup_lt_Some in Hnone. lia.
  - cbn [seq UserCombined.add_warning_from].
    destruct (lookup_lt_is_Some_2 ws n) as [v Hv]; [lia|].
    destruct (lookup_lt_is_Some_2 keys n) as [key Hkey]; [lia|].
    rewrite Hv. destruct (is_None v) eqn:Hn.
    + assert (v = VNone) as -> by by destruct v.
      rewrite Hkey. exists n, key. split; [done|]. split; [done|]. split; [done|].
      split; [intros j ?; lia|done].
    + assert (Hvn : v ≠ VNone) by by destruct v.
      destruct (IH (S n)) as (i' & key' & Hi' & Hk' & Hw' & Hfirst & Hrun);
        [lia|done|..].
      { exists i. split; [|done]. destruct (decide (i = n)) as [->|]; [congruence|lia]. }
      exists i', key'. split; [lia|]. split; [done|]. split; [done|]. split; [|done].
      intros j Hj. destruct (decide (j = n)) as [->|]; [congruence|apply Hfirst; lia].
Qed.

Lemma timeout_warned w L st :
  chances_used st w < WarningModule.total_chances st →
  ∃ i key,
    UserCombined.timeout L (Some st) true w =
      (Ok (WarningModule.base_timeout st * (chances_used st w + 1),
           warning_punishment
             (WarningModule.base_timeout st * (chances_used st w + 1))),
       set_redis
         (Redis.put_string key (str_int 1, WarningModule.length st)
            (Redis.sent (SETEX key (WarningModule.length st) (str_int 1))
               (Redis.sent (MGET (warning_keys st w)) (redis w)))) w) ∧
    warning_keys st w !! i = Some key ∧
    warnings st w !! i = Some VNone ∧
    (∀ j, (j < i)%nat → warnings st w !! j ≠ Some VNone).
Proof.
  intros Hlt. unfold UserCombined.timeout. unfold mbind, M_bind.
  rewrite get_warning_keys_run, get_warnings_run.
  fold (chances_used st w).
  destruct (Z.ltb_spec (chances_used st w) (WarningModule.total_chances st)); [|lia].
  assert (Hlen : Z.of_nat (length (warnings st w)) = WarningModule.total_chances st).
  { rewrite warnings_length, warning_keys_length.
    pose proof (chances_used_bounds (warnings st w)) as Hb.
    fold (chances_used st w) in Hb. lia. }
  destruct (chances_left (warnings st w)) as [i0 Hi0].
  { fold (chances_used st w). lia. }
  unfold UserCombined.add_warning.
  edestruct (add_warning_from_first (WarningModule.length st) (warning_keys st w)
               (warnings st w)) as (i & key & _ & Hk & Hw & Hfirst & ->).
  - by rewrite Nat.add_0_l.
  - apply warnings_length.
  - exists i0. split; [lia|done].
  - exists i, key. split; [reflexivity|]. split; [done|]. split; [done|].
    intros j Hj. apply Hfirst. lia.
Qed.

Lemma timeout_exhausted w L st :
  WarningModule.total_chances st ≤ chances_used st w →
  UserCombined.timeout L (Some st) true w =
    (Ok (L, punishment L),
     set_redis (Redis.sent (MGET (warning_keys st w)) (redis w)) w).
Proof.
  intros Hle. unfold UserCombined.timeout. unfold mbind, M_bind.
  rewrite get_warning_keys_run, get_warnings_run.
  fold (chances_used st w).
  by destruct (Z.ltb_spec (chances_used st w) (WarningModule.total_chances st)); [lia|].
Qed.

(** The two keys of a policy with two chances. *)
Lemma warning_keys_two st w :
  WarningModule.total_chances st = 2 →
  warning_keys st w =
    [WarningModule.redis_prefix st +:+ "_" +:+ Self.username (self w)
       +:+ "_warning_" +:+ "0";
     WarningModule.redis_prefix st +:+ "_" +:+ Self.username (self w)
       +:+ "_warning_" +:+ "1"].
Proof.
  intros H2. unfold warning_keys, UserCombined.get_warning_keys. run.
  by rewrite H2.
Qed.

Lemma warnings_eq st w :
  warnings st w =
    (λ k, RedisManager.reply (fst <$> Redis.strings (redis w) !! k))
      <$> warning_keys st w.
Proof. done. Qed.

Lemma warning_keys_two_ne prefix name :
  prefix +:+ "_" +:+ name +:+ "_warning_" +:+ "0"
  ≠ prefix +:+ "_" +:+ name +:+ "_warning_" +:+ "1".
Proof. intros H. by do 4 apply String.app_inj in H. Qed.

Lemma timeout_escalation w L st :
  WarningModule.total_chances st = 2 →
  WarningModule.base_timeout st = 10 →
  chances_used st w = 0 →
  ∃ w',
    (r1 ← UserCombined.timeout L (Some st) true;
     r2 ← UserCombined.timeout L (Some st) true;
     r3 ← UserCombined.timeout L (Some st) true;
     mret (r1, r2, r3)) w =
    (Ok ((10, warning_punishment 10), (20, warning_punishment 20), (L, punishment L)),
     w').
Proof.
  intros H2 H10 Hused.
  pose proof (warning_keys_two st w H2) as Hkeys.
  set (k0 := WarningModule.redis_prefix st +:+ "_" +:+ Self.username (self w)
             +:+ "_warning_" +:+ "0") in *.
  set (k1 := WarningModule.redis_prefix st +:+ "_" +:+ Self.username (self w)
             +:+ "_warning_" +:+ "1") in *.
  assert (Hne : k0 ≠ k1) by apply warning_keys_two_ne.
  assert (Hunset : Redis.strings (redis w) !! k0 = None ∧
                   Redis.strings (redis w) !! k1 = None).
  { unfold chances_used in Hused. rewrite warnings_eq, Hkeys in Hused.
    cbn [fmap list_fmap] in Hused.
    by destruct (Redis.strings (redis w) !! k0), (Redis.strings (redis w) !! k1). }
  destruct Hunset as [H0 H1].
  unfold mbind, M_bind.
  (* first offence *)
  destruct (timeout_warned w L st) as (i & key & -> & Hk & Hw & Hfirst); [lia|].
  rewrite warnings_eq, Hkeys in Hw, Hfirst. rewrite Hkeys in Hk.
  cbn [fmap list_fmap] in Hw, Hfirst. rewrite H0, H1 in Hw, Hfirst.
  assert (i = 0%nat) as ->.
  { destruct i as [|i]; [done|]. by destruct (Hfirst 0%nat ltac:(lia)). }
  injection Hk as <-. rewrite Hused, H10. clear Hw Hfirst.
  (* second offence *)
  match goal with |- context [UserCombined.timeout L (Some st) true ?x] =>
    set (w1 := x) end.
  assert (Hkeys1 : warning_keys st w1 = [k0; k1]) by apply (warning_keys_two st w1 H2).
  assert (Hused1 : chances_used st w1 = 1).
  { unfold chances_used. rewrite warnings_eq, Hkeys1.
    subst w1. cbn [self set_redis redis Redis.strings Redis.put_string Redis.sent].
    cbn [fmap list_fmap].
    by rewrite lookup_insert_eq, lookup_insert_ne, H1. }
  destruct (timeout_warned w1 L st) as (i & key & -> & Hk & Hw & Hfirst); [lia|].
  rewrite warnings_eq, Hkeys1 in Hw, Hfirst. rewrite Hkeys1 in Hk.
  subst w1. cbn [self set_redis redis Redis.strings Redis.put_string Redis.sent]
    in Hw, Hfirst.
  cbn [fmap list_fmap] in Hw, Hfirst.
  rewrite lookup_insert_eq, lookup_insert_ne, H1 in Hw, Hfirst by done.
  assert (i = 1%nat) as ->.
  { destruct i as [|[|i]]; [done|done|]. by destruct (Hfirst 1%nat ltac:(lia)). }
  injection Hk as <-. rewrite Hused1, H10.
  (* third offence *)
  match goal with |- context [UserCombined.timeout L (Some st) true ?x] =>
    set (w2 := x) end.
  assert (Hkeys2 : warning_keys st w2 = [k0; k1]) by apply (warning_keys_two st w2 H2).
  assert (Hused2 : chances_used st w2 = 2).
  { unfold chances_used. rewrite warnings_eq, Hkeys2.
    subst w2. cbn [self set_redis redis Redis.strings Redis.put_string Redis.sent].
    cbn [fmap list_fmap].
    by rewrite lookup_insert_eq, lookup_insert_ne, lookup_insert_eq. }
  rewrite timeout_exhausted by lia.
  eexists. reflexivity.
Qed.

(** The keys [timeout] asks the store for are the warning keys numbered
    [0] to [total_chances - 1]. *)
Lemma warning_keys_eq st w :
  warning_keys st w =
    warning_key st w <$> seq 0 (Z.to_nat (WarningModule.total_chances st)).
Proof.
  unfold warning_keys, UserCombined.get_warning_keys, range. run.
  by rewrite <- list_fmap_compose.
Qed.

(** The chances [timeout] counts as used are the warning keys the store
    holds. *)
Lemma chances_used_keys_set st w : chances_used st w = keys_set st w.
Proof.
  unfold chances_used, keys_set, UserCombined.get_chances_used.
  rewrite warnings_eq, warning_keys_eq.
  induction (seq 0 (Z.to_nat (WarningModule.total_chances st))) as [|id l IH];
    [done|].
  cbn [fmap list_fmap length]. rewrite !filter_cons.
  cbn [fmap list_fmap length] in IH.
  destruct (Redis.strings (redis w) !! warning_key st w id) as [[v t]|] eqn:Hid.
  - cbn [fmap option_fmap option_map RedisManager.reply fst].
    rewrite (decide_False (P := py_eq (VStr v) VNone = true)) by done.
    rewrite (decide_True (P := is_Some (Some (v, t)))) by eauto.
    cbn [length]. lia.
  - cbn [fmap option_fmap option_map RedisManager.reply].
    rewrite (decide_True (P := py_eq VNone VNone = true)) by done.
    rewrite (decide_False (P := is_Some None)) by (by intros [? ?]).
    cbn [length]. lia.
Qed.

Lemma warning_key_inj st w i j :
  warning_key st w i = warning_key st w j → i = j.
Proof.
  unfold warning_key. intros H. do 4 apply String.app_inj in H.
  apply (f_equal py_int) in H. rewrite !py_int_str_int in H.
  injection H. lia.
Qed.

Lemma filter_agree {A} (P Q : A → Prop)
    `{!∀ x, Decision (P x)} `{!∀ x, Decision (Q x)} (l : list A) :
  (∀ y, y ∈ l → (Q y ↔ P y)) → filter Q l = filter P l.
Proof.
  induction l as [|y l IH]; intros Hag; [done|].
  rewrite !filter_cons.
  rewrite IH by (intros z Hz; apply Hag; by right).
  destruct (decide (P y)) as [Hp|Hp].
  - by rewrite decide_True by (apply Hag; [left|done]).
  - rewrite decide_False; [done|]. intros Hq. apply Hp, Hag; [left|done].
Qed.

(** One more element of a duplicate-free list passes the filter. *)
Lemma filter_one_more {A} (P Q : A → Prop)
    `{!∀ x, Decision (P x)} `{!∀ x, Decision (Q x)} (l : list A) (x : A) :
  NoDup l → x ∈ l → ¬ P x → Q x → (∀ y, y ≠ x → (Q y ↔ P y)) →
  length (filter Q l) = S (length (filter P l)).
Proof.
  intros Hnd Hx Hp Hq Hrest.
  induction l as [|y l IH]; [by apply elem_of_nil in Hx|].
  apply NoDup_cons in Hnd as [Hy Hnd]. rewrite !filter_cons.
  apply elem_of_cons in Hx as [->|Hx].
  - rewrite decide_True, decide_False by done. cbn [length].
    rewrite (filter_agree P Q); [done|].
    intros z Hz. apply Hrest. intros ->. done.
  - assert (Hne : y ≠ x) by (by intros ->).
    specialize (IH Hnd Hx).
    destruct (decide (P y)) as [Hpy|Hpy].
    + rewrite decide_True by (by apply Hrest). cbn [length]. by rewrite IH.
    + rewrite decide_False; [done|]. intros Hqy. by apply Hpy, Hrest.
Qed.

(** Setting a warning key that was not set makes one more key set. *)
Lemma keys_set_insert st w w' i v :
  (i < Z.to_nat (WarningModule.total_chances st))%nat →
  Redis.strings (redis w) !! warning_key st w i = None →
  Self.username (self w') = Self.username (self w) →
  Redis.strings (redis w') = <[warning_key st w i := v]> (Redis.strings (redis w)) →
  keys_set st w' = keys_set st w + 1.
Proof.
  intros Hi Hnone Hname Hstrings. unfold keys_set.
  assert (Hkey : ∀ id, warning_key st w' id = warning_key st w id).
  { intros id. unfold warning_key. by rewrite Hname. }
  rewrite (filter_one_more
    (λ id, is_Some (Redis.strings (redis w) !! warning_key st w id))
    (λ id, is_Some (Redis.strings (redis w') !! warning_key st w' id)) _ i).
  - lia.
  - apply NoDup_seq.
  - apply elem_of_seq. lia.
  - rewrite Hnone. by intros [? ?].
  - rewrite Hkey, Hstrings, lookup_insert_eq. eauto.
  - intros id Hne. rewrite Hkey, Hstrings, lookup_insert_ne; [done|].
    intros Heq. by apply warning_key_inj in Heq.
Qed.

(** [timeout] below the limit, in terms of the keys the store holds. *)
Lemma timeout_warned_store w L st :
  keys_set st w < WarningModule.total_chances st →
  ∃ i,
    UserCombined.timeout L (Some st) true w =
      (Ok (WarningModule.base_timeout st * (keys_set st w + 1),
           warning_punishment
             (WarningModule.base_timeout st * (keys_set st w + 1))),
       set_redis
         (Redis.put_string (warning_key st w i) (str_int 1, WarningModule.length st)
            (Redis.sent (SETEX (warning_key st w i) (WarningModule.length st) (str_int 1))
               (Redis.sent (MGET (warning_keys st w)) (redis w)))) w) ∧
    (i < Z.to_nat (WarningModule.total_chances st))%nat ∧
    Redis.strings (redis w) !! warning_key st w i = None ∧
    (∀ j, (j < i)%nat →
       is_Some (Redis.strings (redis w) !! warning_key st w j)).
Proof.
  rewrite <- chances_used_keys_set. intros Hlt.
  destruct (timeout_warned w L st Hlt) as (i & key & Hrun & Hk & Hw & Hfirst).
  rewrite warnings_eq in Hw, Hfirst. rewrite warning_keys_eq in Hk, Hw, Hfirst.
  rewrite list_lookup_fmap in Hk.
  destruct (seq 0 (Z.to_nat (WarningModule.total_chances st)) !! i) as [i'|] eqn:Hi;
    [|done].
  apply lookup_seq in Hi as [-> Hi]. injection Hk as <-. cbn [Nat.add] in *.
  exists i. split; [exact Hrun|]. split; [done|]. split.
  - rewrite <- list_fmap_compose, list_lookup_fmap, lookup_seq_lt in Hw by done.
    cbn in Hw. injection Hw as Hw.
    by destruct (Redis.strings (redis w) !! warning_key st w i).
  - intros j Hj. specialize (Hfirst j Hj).
    rewrite <- list_fmap_compose, list_lookup_fmap, lookup_seq_lt in Hfirst by lia.
    cbn in Hfirst.
    destruct (Redis.strings (redis w) !! warning_key st w j); [eauto|done].
Qed.

(** C5.  With warnings enabled and a policy supplied: while fewer
    warning keys are set in the store than the policy has chances,
    [timeout] returns the base timeout times the number of keys set plus
    one, with the warning label, and sets the first warning key that is
    still unset, with the lifetime of the policy, so that one more key is
    set afterwards; once all keys are set it returns the requested length
    with the plain label and sets nothing.  With two chances and a base
    timeout of 10, three calls in a row that start with no key set return
    10, 20 and the requested length. *)
Theorem timeout_spec (w : World) (L : Z) (st : WarningModule.settings) :
  (keys_set st w < WarningModule.total_chances st →
   ∃ w' i,
     UserCombined.timeout L (Some st) true w =
       (Ok (WarningModule.base_timeout st * (keys_set st w + 1),
            warning_punishment
              (WarningModule.base_timeout st * (keys_set st w + 1))), w') ∧
     (i < Z.to_nat (WarningModule.total_chances st))%nat ∧
     Redis.strings (redis w) !! warning_key st w i = None ∧
     (∀ j, (j < i)%nat →
        is_Some (Redis.strings (redis w) !! warning_key st w j)) ∧
     Redis.strings (redis w') =
       <[warning_key st w i := (str_int 1, WarningModule.length st)]>
         (Redis.strings (redis w)) ∧
     keys_set st w' = keys_set st w + 1) ∧
  (WarningModule.total_chances st ≤ keys_set st w →
   ∃ w',
     UserCombined.timeout L (Some st) true w = (Ok (L, punishment L), w') ∧
     Redis.strings (redis w') = Redis.strings (redis w) ∧
     keys_set st w' = keys_set st w) ∧
  (WarningModule.total_chances st = 2 →
   WarningModule.base_timeout st = 10 →
   keys_set st w = 0 →
   ∃ w',
     (r1 ← UserCombined.timeout L (Some st) true;
      r2 ← UserCombined.timeout L (Some st) true;
      r3 ← UserCombined.timeout L (Some st) true;
      mret (r1, r2, r3)) w =
     (Ok ((10, warning_punishment 10), (20, warning_punishment 20),
          (L, punishment L)), w')).
Proof.
  split; [|split].
  - intros Hlt.
    destruct (timeout_warned_store w L st Hlt) as (i & Hrun & Hi & Hnone & Hf).
    eexists _, i. split; [exact Hrun|]. split; [done|]. split; [done|].
    split; [done|]. split; [done|].
    by apply (keys_set_insert st w _ i (str_int 1, WarningModule.length st)).
  - rewrite <- chances_used_keys_set. intros Hle.
    eexists. split; [by apply timeout_exhausted|]. split; [done|].
    by rewrite <- !chances_used_keys_set.
  - rewrite <- chances_used_keys_set. apply timeout_escalation.
Qed.

Lemma timeout_spec_witness :
  keys_set two_chances alice10 = 0 ∧
  (∃ w',
     UserCombined.timeout 300 (Some two_chances) true alice10 =
       (Ok (10, "timed out for 10 seconds (warning)"), w') ∧
     Redis.strings (redis w') =
       <["warn_alice_warning_0" := ("1", 600)]> (Redis.strings (redis alice10)) ∧
     keys_set two_chances w' = 1) ∧
  keys_set two_chances alice_late = 1 ∧
  (∃ w',
     UserCombined.timeout 300 (Some two_chances) true alice_late =
       (Ok (20, "timed out for 20 seconds (warning)"), w') ∧
     Redis.strings (redis w') =
       <["warn_alice_warning_0" := ("1", 600)]> (Redis.strings (redis alice_late)) ∧
     keys_set two_chances w' = 2) ∧
  keys_set two_chances alice_warned = 2 ∧
  (∃ w',
     UserCombined.timeout 300 (Some two_chances) true alice_warned
       = (Ok (300, "timed out for 300 seconds"), w') ∧
     Redis.strings (redis w') = Redis.strings (redis alice_warned) ∧
     keys_set two_chances w' = 2) ∧
  ∃ w',
    (r1 ← UserCombined.timeout 300 (Some two_chances) true;
     r2 ← UserCombined.timeout 300 (Some two_chances) true;
     r3 ← UserCombined.timeout 300 (Some two_chances) true;
     mret (r1, r2, r3)) alice10 =
    (Ok ((10, "timed out for 10 seconds (warning)"),
         (20, "timed out for 20 seconds (warning)"),
         (300, "timed out for 300 seconds")), w').
Proof.
  assert (K0 : keys_set two_chances alice10 = 0) by by vm_compute.
  assert (K1 : keys_set two_chances alice_late = 1) by by vm_compute.
  assert (K2 : keys_set two_chances alice_warned = 2) by by vm_compute.
  assert (first_key : ∀ w0 i,
    Self.username (self w0) = "alice" →
    Redis.strings (redis w0) !! warning_key two_chances w0 0 = None →
    (∀ j, (j < i)%nat →
       is_Some (Redis.strings (redis w0) !! warning_key two_chances w0 j)) →
    warning_key two_chances w0 i = "warn_alice_warning_0").
  { intros w0 i Hname H0 Hset. destruct i as [|i].
    - unfold warning_key. by rewrite Hname.
    - destruct (Hset 0%nat) as [v Hv]; [lia|]. congruence. }
  split; [exact K0|]. split.
  { destruct (proj1 (timeout_spec alice10 300 two_chances))
      as (w' & i & Hrun & Hi & Hnone & Hfirst & Hstr & Hk).
    { by rewrite K0. }
    exists w'. split; [by rewrite K0 in Hrun|]. split; [|by rewrite Hk, K0].
    rewrite Hstr. f_equal. by apply first_key. }
  split; [exact K1|]. split.
  { destruct (proj1 (timeout_spec alice_late 300 two_chances))
      as (w' & i & Hrun & Hi & Hnone & Hfirst & Hstr & Hk).
    { by rewrite K1. }
    exists w'. split; [by rewrite K1 in Hrun|]. split; [|by rewrite Hk, K1].
    rewrite Hstr. f_equal. by apply first_key. }
  split; [exact K2|]. split.
  { destruct (proj1 (proj2 (timeout_spec alice_warned 300 two_chances)))
      as (w' & Hrun & Hstr & Hk).
    { by rewrite K2. }
    exists w'. split; [exact Hrun|]. split; [done|]. by rewrite Hk. }
  exact (proj2 (proj2 (timeout_spec alice10 300 two_chances)) eq_refl eq_refl K0).
Defined.

(** ** Spending tokens *)

Lemma sum_tokens_run vs s acc w :
  ∃ w', UserCombined.sum_tokens vs s acc w =
          (Ok (acc + foldr (λ v a, default 0 (py_int v) + a) 0 vs), w') ∧
        redis w' = redis w ∧ self w' = self w ∧ streamer w' = streamer w.
Proof.
  revert acc w. induction vs as [|v vs IH]; intros acc w; cbn [UserCombined.sum_tokens foldr].
  - exists w. split; [|done]. unfold mret, M_ret. do 2 f_equal. lia.
  - destruct (py_int v) as [n|]; cbn [default].
    + destruct (IH (acc + n) w) as (w' & -> & ?). exists w'. split; [|done].
      by rewrite Z.add_assoc.
    + run. cbn. destruct (IH acc (set_log (log w ++
          [(WARNING, "Invalid value for tokens, user " +:+ Self.username s)]) w))
        as (w' & -> & ?). exists w'. split; [|done]. do 2 f_equal.
Qed.

Lemma get_tokens_total w :
  ∃ w', UserCombined.get_tokens w = (Ok (ledger_total (ledger w)), w') ∧
        ledger w' = ledger w.
Proof.
  unfold UserCombined.get_tokens, RedisManager.hgetall, RedisManager.send. run.
  cbn -[Redis.hash Redis.sent]. rewrite hash_sent.
  edestruct sum_tokens_run as (w' & -> & Hr & Hs & Hst).
  exists w'. split.
  - do 2 f_equal. unfold ledger_total, ledger. rewrite Z.add_0_l.
    induction (Redis.hash _ _) as [|[k v] l IH]; [done|]. cbn. by rewrite IH.
  - unfold ledger. by rewrite Hr, Hs, Hst.
Qed.

Lemma ledger_total_nonneg l : nonneg_ledger l → 0 ≤ ledger_total l.
Proof.
  induction l as [|[k v] l IH]; intros Hl; cbn; [done|].
  destruct (Hl k v) as (n & -> & Hn); [left|]. cbn.
  assert (0 ≤ ledger_total l); [|unfold ledger_total in *; lia].
  apply IH. intros k' v' Hin. apply (Hl k' v'). by right.
Qed.

Lemma nonneg_ledger_tail kv l : nonneg_ledger (kv :: l) → nonneg_ledger l.
Proof. intros Hl k v Hin. apply (Hl k v). by right. Qed.

Lemma ledger_total_zero l k v :
  nonneg_ledger l → ledger_total l = 0 → (k, v) ∈ l → py_int v = Some 0.
Proof.
  induction l as [|[k' v'] l IH]; intros Hl Hz Hin; [by apply elem_of_nil in Hin|].
  pose proof (ledger_total_nonneg l (nonneg_ledger_tail _ _ Hl)) as Hpos.
  destruct (Hl k' v') as (n & Hn & Hn0); [left|].
  cbn in Hz. rewrite Hn in Hz. cbn in Hz. fold (ledger_total l) in Hz.
  apply elem_of_cons in Hin as [[= -> ->]|Hin].
  - rewrite Hn. f_equal. lia.
  - apply IH; [by eapply nonneg_ledger_tail|lia|done].
Qed.

Lemma hset_run key f v w :
  RedisManager.hset key f v w =
    (Ok tt, set_redis (Redis.put_hash key (AList.set f v (Redis.hash key (redis w)))
                         (Redis.sent (HSET key f v) (redis w))) w).
Proof. done. Qed.

Lemma alist_get_elem_of k v (h : AList.t) :
  AList.get k h = Some v → k ∈ h.*1.
Proof.
  intros Hg. destruct (decide (k ∈ h.*1)) as [|Hn]; [done|].
  apply alist_get_None in Hn. congruence.
Qed.

Lemma spend_from_spec key l :
  ∀ t w,
    NoDup l.*1 →
    nonneg_ledger l →
    0 < t →
    (∀ k v, (k, v) ∈ l → AList.get k (Redis.hash key (redis w)) = Some v) →
    ∃ w',
      UserCombined.spend_from key l t w = (Ok (bool_decide (t ≤ ledger_total l)), w') ∧
      self w' = self w ∧ streamer w' = streamer w ∧
      (Redis.hash key (redis w')).*1 = (Redis.hash key (redis w)).*1 ∧
      (∀ k, k ∉ l.*1 →
         AList.get k (Redis.hash key (redis w')) = AList.get k (Redis.hash key (redis w))) ∧
      (ledger_total l ≤ t →
       ∀ k, k ∈ l.*1 → AList.get k (Redis.hash key (redis w')) ≫= py_int = Some 0).
Proof.
  induction l as [|[k v] l IH]; intros t w Hnd Hl Ht Hagree.
  - exists w. cbn. rewrite bool_decide_false by lia.
    split; [done|]. split; [done|]. split; [done|]. split; [done|]. split; [done|].
    intros _ k Hk. by apply elem_of_nil in Hk.
  - apply NoDup_cons in Hnd as [Hk Hnd].
    pose proof (nonneg_ledger_tail _ _ Hl) as Hl'.
    pose proof (ledger_total_nonneg l Hl') as Hpos.
    destruct (Hl k v) as (n & Hn & Hn0); [left|].
    assert (Htot : ledger_total ((k, v) :: l) = n + ledger_total l).
    { cbn. by rewrite Hn. }
    rewrite Htot. cbn [UserCombined.spend_from]. rewrite Hn.
    destruct (Z.eqb_spec n 0) as [->|Hnz].
    + (* an entry at 0 is passed over *)
      destruct (IH t w Hnd Hl' Ht) as (w' & -> & Hs & Hst & Hkeys & Hframe & Hzero).
      { intros k' v' Hin. apply Hagree. by right. }
      exists w'. rewrite Z.add_0_l. split; [done|]. split; [done|]. split; [done|].
      split; [done|]. split.
      * intros k' Hk'. apply Hframe. cbn in Hk'. by apply not_elem_of_cons in Hk' as [_ ?].
      * intros Hle k' Hk'. cbn in Hk'. apply elem_of_cons in Hk' as [->|Hk'].
        -- rewrite Hframe by done. rewrite (Hagree k v) by left. by cbn.
        -- by apply Hzero.
    + unfold mbind, M_bind. rewrite hset_run.
      set (w1 := set_redis _ w).
      assert (Hh1 : Redis.hash key (redis w1)
                    = AList.set k (str_int (n - Z.min t n)) (Redis.hash key (redis w))).
      { subst w1. cbn -[Redis.put_hash Redis.hash Redis.sent]. apply hash_put_eq. }
      assert (Hkeys1 : (Redis.hash key (redis w1)).*1 = (Redis.hash key (redis w)).*1).
      { rewrite Hh1. apply alist_keys_set. eapply alist_get_elem_of, Hagree. left. }
      assert (Hother : ∀ k', k' ≠ k →
                AList.get k' (Redis.hash key (redis w1))
                = AList.get k' (Redis.hash key (redis w))).
      { intros k' Hne. rewrite Hh1. by apply alist_get_set_ne. }
      destruct (Z.eqb_spec (t - Z.min t n) 0) as [Hdone|Hmore].
      * (* the request is covered *)
        exists w1. rewrite bool_decide_true by lia.
        split; [done|]. split; [done|]. split; [done|]. split; [done|]. split.
        -- intros k' Hk'. cbn in Hk'. apply not_elem_of_cons in Hk' as [Hne _].
           by apply Hother.
        -- intros Hle k' Hk'. cbn in Hk'. apply elem_of_cons in Hk' as [->|Hk'].
           ++ rewrite Hh1, alist_get_set_eq. cbn.
              replace (n - Z.min t n) with 0 by lia. apply py_int_str_int.
           ++ apply list_elem_of_fmap in Hk' as ([k'' v'] & -> & Hin). cbn.
              rewrite Hother.
              ** rewrite (Hagree k'' v') by by right. cbn.
                 apply (ledger_total_zero l k'' v'); [done|lia|done].
              ** intros ->. apply Hk. apply list_elem_of_fmap. by exists (k, v').
      * (* the entry is drained and the loop goes on *)
        destruct (IH (t - Z.min t n) w1 Hnd Hl') as (w' & -> & Hs & Hst & Hkeys & Hframe & Hzero).
        { lia. }
        { intros k' v' Hin. rewrite Hother; [apply Hagree; by right|].
          intros ->. apply Hk. apply list_elem_of_fmap. by exists (k, v'). }
        exists w'. split.
        { f_equal. f_equal. apply bool_decide_ext. lia. }
        split; [done|]. split; [done|]. split; [congruence|]. split.
        -- intros k' Hk'. cbn in Hk'. apply not_elem_of_cons in Hk' as [Hne Hk'].
           rewrite Hframe by done. by apply Hother.
        -- intros Hle k' Hk'. cbn in Hk'. apply elem_of_cons in Hk' as [->|Hk'].
           ++ rewrite Hframe by done. rewrite Hh1, alist_get_set_eq. cbn.
              replace (n - Z.min t n) with 0 by lia. apply py_int_str_int.
           ++ apply Hzero; [lia|done].
Qed.

Lemma alist_get_NoDup k v (h : AList.t) :
  NoDup h.*1 → (k, v) ∈ h → AList.get k h = Some v.
Proof.
  induction h as [|[k' v'] h IH]; intros Hnd Hin; [by apply elem_of_nil in Hin|].
  cbn in Hnd. apply NoDup_cons in Hnd as [Hk Hnd]. cbn.
  apply elem_of_cons in Hin as [[= -> ->]|Hin].
  - by rewrite String.eqb_refl.
  - destruct (String.eqb_spec k' k) as [->|Hne]; [|by apply IH].
    destruct Hk. apply list_elem_of_fmap. by exists (k, v).
Qed.

Lemma spend_tokens_run w t :
  NoDup (ledger w).*1 →
  nonneg_ledger (ledger w) →
  0 < t →
  ∃ w', UserCombined.spend_tokens t w
          = (Ok (bool_decide (t ≤ ledger_total (ledger w))), w') ∧
        (ledger w').*1 = (ledger w).*1 ∧
        (ledger_total (ledger w) ≤ t →
         ∀ sid, sid ∈ (ledger w).*1 → session_balance sid w' = Some 0).
Proof.
  intros Hnd Hl Ht.
  unfold UserCombined.spend_tokens, RedisManager.hgetall, RedisManager.send. run.
  cbn -[Redis.hash Redis.sent]. rewrite hash_sent. fold (ledger w).
  edestruct (spend_from_spec
               (UserCombined.tokens_key (streamer w) (Self.username (self w)))
               (ledger w) t) as (w' & -> & Hs & Hst & Hkeys & _ & Hzero); [done..| |].
  - intros k v Hin. cbn -[Redis.hash Redis.sent]. rewrite hash_sent.
    by apply alist_get_NoDup.
  - cbn -[Redis.hash Redis.sent] in *. rewrite hash_sent in Hkeys.
    exists w'. unfold session_balance, ledger in *. rewrite Hs, Hst.
    split; [done|]. split; [done|]. done.
Qed.

(** C3 (as amended).  For a ledger whose balances are integers that are
    not negative, in whatever order the store enumerates it: [get_tokens]
    returns their sum; when the sum is positive, [spend_tokens] called
    with it returns true and every session balance is 0 afterwards;
    [spend_tokens] called with one more than the sum returns false and
    every session balance is 0 afterwards, the decrements staying written. *)
Theorem spend_tokens_drains (w : World) :
  NoDup (ledger w).*1 →
  nonneg_ledger (ledger w) →
  (∃ w', UserCombined.get_tokens w = (Ok (ledger_total (ledger w)), w')) ∧
  (0 < ledger_total (ledger w) →
   ∃ w', UserCombined.spend_tokens (ledger_total (ledger w)) w = (Ok true, w') ∧
         (ledger w').*1 = (ledger w).*1 ∧
         ∀ sid, sid ∈ (ledger w).*1 → session_balance sid w' = Some 0) ∧
  (∃ w', UserCombined.spend_tokens (ledger_total (ledger w) + 1) w = (Ok false, w') ∧
         (ledger w').*1 = (ledger w).*1 ∧
         ∀ sid, sid ∈ (ledger w).*1 → session_balance sid w' = Some 0).
Proof.
  intros Hnd Hl. pose proof (ledger_total_nonneg _ Hl) as Hpos.
  split; [|split].
  - destruct (get_tokens_total w) as (w' & Hg & _). eauto.
  - intros Ht.
    destruct (spend_tokens_run w (ledger_total (ledger w)) Hnd Hl Ht)
      as (w' & Hrun & Hkeys & Hzero).
    rewrite bool_decide_true in Hrun by done.
    exists w'. split; [done|]. split; [done|]. by apply Hzero.
  - destruct (spend_tokens_run w (ledger_total (ledger w) + 1) Hnd Hl ltac:(lia))
      as (w' & Hrun & Hkeys & Hzero).
    rewrite bool_decide_false in Hrun by lia.
    exists w'. split; [done|]. split; [done|]. apply Hzero. lia.
Qed.

Lemma spend_tokens_drains_witness :
  NoDup (ledger (ledger_world [("1", "2"); ("2", "0"); ("3", "3")])).*1 ∧
  nonneg_ledger (ledger (ledger_world [("1", "2"); ("2", "0"); ("3", "3")])) ∧
  ledger_total (ledger (ledger_world [("1", "2"); ("2", "0"); ("3", "3")])) = 5 ∧
  (∃ w', UserCombined.spend_tokens 5
           (ledger_world [("1", "2"); ("2", "0"); ("3", "3")]) = (Ok true, w') ∧
         (ledger w').*1 = ["1"; "2"; "3"] ∧
         ∀ sid, sid ∈ ["1"; "2"; "3"] → session_balance sid w' = Some 0) ∧
  (∃ w', UserCombined.spend_tokens (5 + 1)
           (ledger_world [("1", "2"); ("2", "0"); ("3", "3")]) = (Ok false, w') ∧
         (ledger w').*1 = ["1"; "2"; "3"] ∧
         ∀ sid, sid ∈ ["1"; "2"; "3"] → session_balance sid w' = Some 0).
Proof.
  assert (Hnd : NoDup (ledger (ledger_world [("1", "2"); ("2", "0"); ("3", "3")])).*1).
  { apply (bool_decide_unpack _). by vm_compute. }
  assert (Hl : nonneg_ledger (ledger (ledger_world [("1", "2"); ("2", "0"); ("3", "3")]))).
  { intros k v Hin. vm_compute in Hin.
    repeat (apply elem_of_cons in Hin as [[= -> ->]|Hin];
            [eexists; split; [vm_compute; reflexivity|lia]|]).
    by apply elem_of_nil in Hin. }
  split; [exact Hnd|]. split; [exact Hl|]. split; [by vm_compute|]. split.
  - apply (proj1 (proj2 (spend_tokens_drains _ Hnd Hl))). by vm_compute.
  - apply (proj2 (proj2 (spend_tokens_drains _ Hnd Hl))).
Defined.

(** C3 as stated fails: on an empty ledger the sum is 0 and
    [spend_tokens 0] returns false; on the ledger 8, -5 the sum is 3,
    [spend_tokens 3] returns true and leaves the balances 5 and -5, and
    [spend_tokens 4] returns true as well. *)
Lemma spend_tokens_counterexample :
  ledger (ledger_world []) = [] ∧
  ledger_total (ledger (ledger_world [])) = 0 ∧
  (UserCombined.spend_tokens 0 (ledger_world [])).1 = Ok false ∧
  ledger_total (ledger (ledger_world [("2", "8"); ("1", "-5")])) = 3 ∧
  (UserCombined.spend_tokens 3 (ledger_world [("2", "8"); ("1", "-5")])).1 = Ok true ∧
  ledger (UserCombined.spend_tokens 3 (ledger_world [("2", "8"); ("1", "-5")])).2
    = [("2", "5"); ("1", "-5")] ∧
  (UserCombined.spend_tokens 4 (ledger_world [("2", "8"); ("1", "-5")])).1 = Ok true.
Proof. vm_compute. auto 10. Qed.

(** * Further properties *)

(** ** The cache *)

(** X1.  After [UserSQLCache.save user] the cache answers for the
    username of [user] with its identity, level and subscriber flag and
    with [NoCacheHit] for every other field; the answers for other
    usernames are as before; and after [_clear_cache] every lookup is a
    [NoCacheHit]. *)
Theorem cache_save_get (user : User.t) (w : World) :
  ∃ w',
    UserSQLCache.save user w = (Ok tt, w') ∧
    UserSQLCache.get (User.username user) "id" w'
      = (Ok (match User.id user with Some i => VInt i | None => VNone end), w') ∧
    UserSQLCache.get (User.username user) "level" w'
      = (Ok (VInt (User.level user)), w') ∧
    UserSQLCache.get (User.username user) "subscriber" w'
      = (Ok (VBool (User.subscriber user)), w') ∧
    (∀ value, value ≠ "id" → value ≠ "level" → value ≠ "subscriber" →
       UserSQLCache.get (User.username user) value w'
         = (Raise (NoCacheHit "Value not in cache"), w')) ∧
    (∀ name value, name ≠ User.username user →
       (UserSQLCache.get name value w').1 = (UserSQLCache.get name value w).1) ∧
    (∀ name value,
       (UserSQLCache._clear_cache;; UserSQLCache.get name value) w'
         = (Raise (NoCacheHit "User not in cache"), set_cache ∅ w')).
Proof.
  eexists. split; [reflexivity|].
  unfold UserSQLCache.get, UserSQLCache._clear_cache. run. cbn [cache set_cache].
  rewrite lookup_insert_eq. cbn.
  split; [done|]. split; [done|]. split; [done|]. split; [|split].
  - intros value H1 H2 H3. unfold CacheEntry.lookup.
    destruct (String.eqb_spec value "id"); [done|].
    destruct (String.eqb_spec value "level"); [done|].
    by destruct (String.eqb_spec value "subscriber").
  - intros name value Hne. rewrite lookup_insert_ne by done.
    destruct (cache w !! name) as [e|]; [|done].
    by destruct (CacheEntry.lookup e value).
  - intros name value. by rewrite lookup_empty.
Qed.

(** ** The lazy load of the record *)

Lemma commit_expunged tb user :
  Session.commit (Session.expunge user (Session.add user (Session.mk tb []))) = tb.
Proof.
  unfold Session.commit, Session.expunge, Session.add.
  cbn [Session.new Session.table app].
  rewrite filter_cons, decide_False by (by intros []). done.
Qed.

Lemma commit_expunged_nil tb user :
  Session.commit (Session.expunge user (Session.mk tb [])) = tb.
Proof. done. Qed.

(** X2.  The lazy load of an object without a shared session: the
    record becomes the row the table holds for the username, or a fresh
    record with the defaults when there is none; a fresh record is taken
    out of the short-lived session again before it is committed, so the
    table, the pending objects, the cache and the store are unchanged;
    and a second load does nothing. *)
Theorem sql_load_solo (w : World) :
  Self.model_loaded (self w) = false →
  Self.shared_db_session (self w) = false →
  Self.user_model (self (loaded w)) =
    Some (default (User.__init__ (Self.username (self w)))
            (db w !! collate (Self.username (self w)))) ∧
  db (loaded w) = db w ∧
  session_new (loaded w) = session_new w ∧
  cache (loaded w) = cache w ∧
  redis (loaded w) = redis w ∧
  UserSQL.sql_load (loaded w) = (Ok tt, loaded w).
Proof.
  intros Hl Hs.
  assert (Hagain : UserSQL.sql_load (loaded w) = (Ok tt, loaded w)).
  { by rewrite sql_load_ok, loaded_loaded. }
  split_and!; [..|exact Hagain];
    unfold loaded, UserSQL.sql_load, DBManager.create_session_scope,
      UserSQL.select_or_create, Session.one_or_none; run; rewrite Hl; cbn;
    rewrite Hs; cbn;
    destruct (db w !! collate (Self.username (self w))) as [u|] eqn:Hrow;
    cbn -[Session.commit Session.expunge];
    rewrite ?commit_expunged, ?commit_expunged_nil; done.
Qed.

Lemma sql_load_solo_witness :
  Self.user_model (self (loaded ALICE_new))
    = Some (User.set_points 7 (User.__init__ "alice")) ∧
  Self.user_model (self (loaded Bob_new)) = Some (User.__init__ "Bob") ∧
  db (loaded Bob_new) = db Bob_new.
Proof.
  assert (A1 : Self.model_loaded (self ALICE_new) = false) by reflexivity.
  assert (A2 : Self.shared_db_session (self ALICE_new) = false) by reflexivity.
  assert (B1 : Self.model_loaded (self Bob_new) = false) by reflexivity.
  assert (B2 : Self.shared_db_session (self Bob_new) = false) by reflexivity.
  destruct (sql_load_solo ALICE_new A1 A2) as (HA & _).
  destruct (sql_load_solo Bob_new B1 B2) as (HB & HBdb & _).
  split; [|split].
  - rewrite HA. by vm_compute.
  - rewrite HB. by vm_compute.
  - exact HBdb.
Defined.

(** X3.  The lazy load of an object with a shared session: the record is
    the row of the table or a fresh record as before, but a fresh record
    stays registered with the shared session, as one more pending object;
    the table is unchanged and a second load registers nothing more. *)
Theorem sql_load_shared (w : World) :
  Self.model_loaded (self w) = false →
  Self.shared_db_session (self w) = true →
  Self.user_model (self (loaded w)) =
    Some (default (User.__init__ (Self.username (self w)))
            (db w !! collate (Self.username (self w)))) ∧
  db (loaded w) = db w ∧
  session_new (loaded w) =
    session_new w ++
    match db w !! collate (Self.username (self w)) with
    | Some _ => []
    | None => [User.__init__ (Self.username (self w))]
    end ∧
  session_new (loaded (loaded w)) = session_new (loaded w).
Proof.
  intros Hl Hs. split_and!; [..|by rewrite loaded_loaded];
    unfold loaded, UserSQL.sql_load, DBManager.in_shared_session,
      UserSQL.select_or_create, Session.one_or_none, Session.add; run;
    rewrite Hl; cbn; rewrite Hs; cbn;
    destruct (db w !! collate (Self.username (self w))) as [u|] eqn:Hrow; cbn;
    rewrite ?app_nil_r; done.
Qed.

Lemma sql_load_shared_witness :
  Self.user_model (self (loaded Bob_shared)) = Some (User.__init__ "Bob") ∧
  session_new (loaded Bob_shared) = [User.__init__ "Bob"] ∧
  session_new (loaded (loaded Bob_shared)) = [User.__init__ "Bob"].
Proof.
  assert (B1 : Self.model_loaded (self Bob_shared) = false) by reflexivity.
  assert (B2 : Self.shared_db_session (self Bob_shared) = true) by reflexivity.
  destruct (sql_load_shared Bob_shared B1 B2) as (HB & _ & Hnew & Hagain).
  split; [|split].
  - rewrite HB. by vm_compute.
  - rewrite Hnew. by vm_compute.
  - rewrite Hagain, Hnew. by vm_compute.
Defined.

(** ** Reads and writes of the record fields *)

Lemma loaded_record w :
  wf_sql (self w) → is_Some (Self.user_model (self (loaded w))).
Proof.
  intros Hwf. destruct (Self.model_loaded (self w)) eqn:Hl.
  - rewrite (loaded_id _ Hl). by apply Hwf.
  - unfold loaded, UserSQL.sql_load, DBManager.in_shared_session,
      DBManager.create_session_scope. run. rewrite Hl. cbn.
    destruct (Self.shared_db_session (self w)); cbn;
      by destruct (UserSQL.select_or_create _ _).
Qed.

Lemma loaded_cache w :
  cache (loaded w) = cache w ∧
  Self.username (self (loaded w)) = Self.username (self w).
Proof.
  unfold loaded, UserSQL.sql_load, DBManager.in_shared_session,
    DBManager.create_session_scope. run.
  destruct (Self.model_loaded (self w)); [done|]. cbn.
  destruct (Self.shared_db_session (self w)); cbn;
    by destruct (UserSQL.select_or_create _ _).
Qed.

(** A write of a field of the record: the load, then the update. *)
Lemma update_run (f : User.t → User.t) w :
  wf_sql (self w) →
  ∃ u,
    Self.user_model (self (loaded w)) = Some u ∧
    (UserSQL.sql_load;; UserSQL.update_model f) w =
      (Ok tt, set_self (Self.set_user_model (Some (f u)) (self (loaded w))) (loaded w)).
Proof.
  intros [u Hu]%loaded_record. exists u. split; [done|].
  unfold UserSQL.update_model, UserSQL.user_model. run.
  by rewrite sql_load_ok, Hu.
Qed.

(** A read of a field of the record of an object that is loaded. *)
Lemma read_loaded {A} (g : User.t → A) w u :
  Self.model_loaded (self w) = true →
  Self.user_model (self w) = Some u →
  (UserSQL.sql_load;; user ← UserSQL.user_model; mret (g user)) w = (Ok (g u), w).
Proof.
  intros Hl Hu. unfold UserSQL.user_model. run.
  by rewrite sql_load_ok, (loaded_id _ Hl), Hu.
Qed.

(** A read through the cache: the cached value when the entry of the
    user holds the field, the record otherwise. *)
Lemma cached_read_eq (field : string) (g : User.t → pyval) w :
  (s ← gets self;
   except_NoCacheHit (UserSQLCache.get (Self.username s) field)
     (UserSQL.sql_load;; user ← UserSQL.user_model; mret (g user))) w =
  match cache w !! Self.username (self w) ≫= λ entry, CacheEntry.lookup entry field with
  | Some v => (Ok v, w)
  | None => (UserSQL.sql_load;; user ← UserSQL.user_model; mret (g user)) w
  end.
Proof.
  unfold except_NoCacheHit, UserSQLCache.get. run.
  destruct (cache w !! Self.username (self w)) as [entry|]; [|done]. cbn.
  by destruct (CacheEntry.lookup entry field).
Qed.

(** A write to the record, and the record read that follows it. *)
Lemma write_read (f : User.t → User.t) w :
  wf_sql (self w) →
  ∃ u w',
    Self.user_model (self (loaded w)) = Some u ∧
    (UserSQL.sql_load;; UserSQL.update_model f) w = (Ok tt, w') ∧
    cache w' = cache w ∧
    Self.username (self w') = Self.username (self w) ∧
    Self.user_model (self w') = Some (f u) ∧
    ∀ (g : User.t → pyval),
      (UserSQL.sql_load;; user ← UserSQL.user_model; mret (g user)) w'
        = (Ok (g (f u)), w').
Proof.
  intros Hwf. destruct (update_run f w Hwf) as (u & Hu & Hrun).
  destruct (loaded_cache w) as [Hc Hn].
  eexists u, _. split_and!; [done|exact Hrun|done|done|done|].
  intros g. apply read_loaded; [|done]. cbn. apply loaded_model_loaded.
Qed.

(** A write to the record followed by a read through the cache. *)
Lemma write_cached_read (f : User.t → User.t) (field : string)
    (g : User.t → pyval) w :
  wf_sql (self w) →
  ∃ u w',
    Self.user_model (self (loaded w)) = Some u ∧
    Self.user_model (self w') = Some (f u) ∧
    ((UserSQL.sql_load;; UserSQL.update_model f);;
     (s ← gets self;
      except_NoCacheHit (UserSQLCache.get (Self.username s) field)
        (UserSQL.sql_load;; user ← UserSQL.user_model; mret (g user)))) w =
    (Ok (default (g (f u))
           (cache w !! Self.username (self w)
              ≫= λ entry, CacheEntry.lookup entry field)), w').
Proof.
  intros Hwf.
  destruct (write_read f _ Hwf) as (u & w1 & Hu & Hrun & Hc & Hn & Hm & Hread).
  exists u, w1. split; [done|]. split; [done|].
  unfold mbind at 1, M_bind at 1. rewrite Hrun.
  rewrite cached_read_eq, Hn, Hc.
  destruct (cache w !! Self.username (self w) ≫= _); [done|].
  by rewrite Hread.
Qed.

(** X4.  A level or an identity written through the accessor is not what
    the next read on the same object returns while the cache holds an
    entry for the user: the read gives the cached value.  Without an
    entry the read gives the value just written. *)
Theorem cached_read_after_write (w : World) (v : Z) (i : option Z) :
  wf_sql (self w) →
  (∀ entry, cache w !! Self.username (self w) = Some entry →
     (∃ w', (UserSQL.set_level v;; UserSQL.level) w
              = (Ok (VInt (CacheEntry.level entry)), w')) ∧
     (∃ w', (UserSQL.set_id i;; UserSQL.id) w
              = (Ok (match CacheEntry.id entry with
                     | Some n => VInt n | None => VNone end), w'))) ∧
  (cache w !! Self.username (self w) = None →
     (∃ w', (UserSQL.set_level v;; UserSQL.level) w = (Ok (VInt v), w')) ∧
     (∃ w', (UserSQL.set_id i;; UserSQL.id) w
              = (Ok (match i with Some n => VInt n | None => VNone end), w'))).
Proof.
  intros Hwf.
  destruct (write_cached_read (User.set_level v) "level"
              (λ u, VInt (User.level u)) w Hwf) as (u1 & w1 & _ & _ & Hlevel).
  destruct (write_cached_read (User.set_id i) "id"
              (λ u, match User.id u with Some n => VInt n | None => VNone end)
              w Hwf) as (u2 & w2 & _ & _ & Hid).
  unfold UserSQL.set_level, UserSQL.level, UserSQL.set_id, UserSQL.id.
  rewrite Hlevel, Hid.
  split; [intros entry He|intros He]; rewrite He; cbn; eauto.
Qed.

Lemma cached_read_after_write_witness :
  wf_sql (self alice_cached) ∧
  cache alice_cached !! Self.username (self alice_cached)
    = Some (CacheEntry.mk None 100 true) ∧
  (∃ w', (UserSQL.set_level 500;; UserSQL.level) alice_cached
           = (Ok (VInt 100), w')) ∧
  wf_sql (self alice10) ∧
  cache alice10 !! Self.username (self alice10) = None ∧
  (∃ w', (UserSQL.set_level 500;; UserSQL.level) alice10 = (Ok (VInt 500), w')).
Proof.
  assert (H1 : wf_sql (self alice_cached)) by (intros _; vm_compute; eauto).
  assert (H2 : wf_sql (self alice10)) by (intros _; vm_compute; eauto).
  assert (E1 : cache alice_cached !! Self.username (self alice_cached)
               = Some (CacheEntry.mk None 100 true)) by (by vm_compute).
  assert (E2 : cache alice10 !! Self.username (self alice10) = None)
    by (by vm_compute).
  split; [exact H1|]. split; [exact E1|]. split.
  { exact (proj1 (proj1 (cached_read_after_write alice_cached 500 None H1) _ E1)). }
  split; [exact H2|]. split; [exact E2|].
  exact (proj1 (proj2 (cached_read_after_write alice10 500 None H2) E2)).
Defined.

(** X5.  The subscriber flag behaves the same way, and its setter
    consults the cache too: with an entry for the user, the read after a
    write gives the cached flag; the write itself is dropped when the new
    flag equals the cached one and reaches the record when it differs.
    Without an entry the read gives the flag just written. *)
Theorem subscriber_read_after_write (w : World) (v : bool) :
  wf_sql (self w) →
  (∀ entry, cache w !! Self.username (self w) = Some entry →
     ∃ w', (UserSQL.set_subscriber v;; UserSQL.subscriber) w
             = (Ok (VBool (CacheEntry.subscriber entry)), w') ∧
           (CacheEntry.subscriber entry = v → w' = w) ∧
           (CacheEntry.subscriber entry ≠ v →
            ∃ u, Self.user_model (self w') = Some u ∧ User.subscriber u = v)) ∧
  (cache w !! Self.username (self w) = None →
     ∃ w', (UserSQL.set_subscriber v;; UserSQL.subscriber) w = (Ok (VBool v), w')).
Proof.
  intros Hwf.
  destruct (write_read (User.set_subscriber v) _ Hwf)
    as (u & w1 & Hu & Hrun & Hc & Hn & Hm & Hread).
  assert (Hset : ∀ w0, UserSQL.set_subscriber v w0 =
    match cache w0 !! Self.username (self w0) with
    | Some entry =>
        if Bool.eqb (CacheEntry.subscriber entry) v then (Ok tt, w0)
        else (UserSQL.sql_load;; UserSQL.update_model (User.set_subscriber v)) w0
    | None => (UserSQL.sql_load;; UserSQL.update_model (User.set_subscriber v)) w0
    end).
  { intros w0. unfold UserSQL.set_subscriber, except_NoCacheHit, UserSQLCache.get.
    run. destruct (cache w0 !! Self.username (self w0)) as [entry|]; [|done]. cbn.
    by destruct (Bool.eqb (CacheEntry.subscriber entry) v). }
  split; [intros entry He|intros He];
    unfold mbind at 1, M_bind at 1; rewrite Hset, He.
  - destruct (Bool.eqb (CacheEntry.subscriber entry) v) eqn:Hb.
    + unfold UserSQL.subscriber. rewrite cached_read_eq, He. cbn.
      eexists. split_and!; [done|done|].
      intros Hne. by apply Bool.eqb_prop in Hb.
    + rewrite Hrun. unfold UserSQL.subscriber. rewrite cached_read_eq, Hn, Hc, He.
      cbn. eexists. split_and!; [done| |].
      * intros Heq. by rewrite Heq, Bool.eqb_reflx in Hb.
      * intros _. exists (User.set_subscriber v u). by split.
  - rewrite Hrun. unfold UserSQL.subscriber. rewrite cached_read_eq, Hn, Hc, He.
    cbn. rewrite Hread. eauto.
Qed.

Lemma subscriber_read_after_write_witness :
  wf_sql (self alice_cached) ∧
  cache alice_cached !! Self.username (self alice_cached)
    = Some (CacheEntry.mk None 100 true) ∧
  ∃ w', (UserSQL.set_subscriber false;; UserSQL.subscriber) alice_cached
          = (Ok (VBool true), w') ∧
        (true = false → w' = alice_cached) ∧
        (true ≠ false →
         ∃ u, Self.user_model (self w') = Some u ∧ User.subscriber u = false).
Proof.
  assert (H1 : wf_sql (self alice_cached)) by (intros _; vm_compute; eauto).
  assert (E1 : cache alice_cached !! Self.username (self alice_cached)
               = Some (CacheEntry.mk None 100 true)) by (by vm_compute).
  split; [exact H1|]. split; [exact E1|].
  exact (proj1 (subscriber_read_after_write alice_cached false H1) _ E1).
Defined.

(** X6.  The point balance and the two chat-time counters are never
    served from the cache: a read after a write on the same object gives
    the written value whatever the cache holds, and a write to one
    counter leaves the other one as it was. *)
Theorem uncached_read_after_write (w : World) (v : Z) :
  wf_sql (self w) →
  (∃ w', (UserSQL.set_points v;; UserSQL.points) w = (Ok v, w')) ∧
  (∃ w', (UserSQL.set_minutes_in_chat_online v;; UserSQL.minutes_in_chat_online) w
           = (Ok (VInt v), w')) ∧
  (∃ w', (UserSQL.set_minutes_in_chat_offline v;; UserSQL.minutes_in_chat_offline) w
           = (Ok (VInt v), w')) ∧
  ((UserSQL.set_minutes_in_chat_online v;; UserSQL.minutes_in_chat_offline) w).1
    = (UserSQL.minutes_in_chat_offline w).1 ∧
  ((UserSQL.set_minutes_in_chat_offline v;; UserSQL.minutes_in_chat_online) w).1
    = (UserSQL.minutes_in_chat_online w).1.
Proof.
  intros Hwf.
  assert (Hmiss : ∀ field,
    field ≠ "id" → field ≠ "level" → field ≠ "subscriber" →
    cache w !! Self.username (self w) ≫= (λ entry, CacheEntry.lookup entry field)
      = None).
  { intros field H1 H2 H3.
    destruct (cache w !! Self.username (self w)) as [entry|]; [|done]. cbn.
    unfold CacheEntry.lookup.
    destruct (String.eqb_spec field "id"); [done|].
    destruct (String.eqb_spec field "level"); [done|].
    by destruct (String.eqb_spec field "subscriber"). }
  assert (Hold : ∀ (g : User.t → pyval) u,
    Self.user_model (self (loaded w)) = Some u →
    (UserSQL.sql_load;; user ← UserSQL.user_model; mret (g user)) w
      = (Ok (g u), loaded w)).
  { intros g u Hu. unfold UserSQL.user_model. run.
    by rewrite sql_load_ok, Hu. }
  split; [|split; [|split; [|split]]].
  - destruct (write_read (User.set_points v) _ Hwf)
      as (u & w1 & Hu & Hrun & Hc & Hn & Hm & Hread).
    assert (Hb : balance w1 = Some v).
    { unfold UserSQL.set_points in Hrun.
      destruct (balance_defined w Hwf) as [b Hb].
      destruct (set_points_balance v w b Hb) as (w' & Hs & Hb' & _).
      unfold UserSQL.set_points in Hs. congruence. }
    unfold UserSQL.set_points. unfold mbind at 1, M_bind at 1. rewrite Hrun.
    rewrite (points_balance _ _ Hb). eauto.
  - destruct (write_cached_read (User.set_minutes_in_chat_online v)
                "minutes_in_chat_online"
                (λ u, VInt (User.minutes_in_chat_online u)) w Hwf)
      as (u & w1 & _ & _ & Hrun).
    unfold UserSQL.set_minutes_in_chat_online, UserSQL.minutes_in_chat_online.
    rewrite Hrun, Hmiss by done. cbn. eauto.
  - destruct (write_cached_read (User.set_minutes_in_chat_offline v)
                "minutes_in_chat_offline"
                (λ u, VInt (User.minutes_in_chat_offline u)) w Hwf)
      as (u & w1 & _ & _ & Hrun).
    unfold UserSQL.set_minutes_in_chat_offline, UserSQL.minutes_in_chat_offline.
    rewrite Hrun, Hmiss by done. cbn. eauto.
  - destruct (write_cached_read (User.set_minutes_in_chat_online v)
                "minutes_in_chat_offline"
                (λ u, VInt (User.minutes_in_chat_offline u)) w Hwf)
      as (u & w1 & Hu & _ & Hrun).
    unfold UserSQL.set_minutes_in_chat_online, UserSQL.minutes_in_chat_offline.
    rewrite Hrun, Hmiss by done.
    rewrite cached_read_eq, Hmiss by done. by rewrite (Hold _ _ Hu).
  - destruct (write_cached_read (User.set_minutes_in_chat_offline v)
                "minutes_in_chat_online"
                (λ u, VInt (User.minutes_in_chat_online u)) w Hwf)
      as (u & w1 & Hu & _ & Hrun).
    unfold UserSQL.set_minutes_in_chat_offline, UserSQL.minutes_in_chat_online.
    rewrite Hrun, Hmiss by done.
    rewrite cached_read_eq, Hmiss by done. by rewrite (Hold _ _ Hu).
Qed.

Lemma uncached_read_after_write_witness :
  wf_sql (self alice_cached) ∧
  (∃ w', (UserSQL.set_points 3;; UserSQL.points) alice_cached = (Ok 3, w')) ∧
  (∃ w', (UserSQL.set_minutes_in_chat_online 3;; UserSQL.minutes_in_chat_online)
           alice_cached = (Ok (VInt 3), w')).
Proof.
  assert (H1 : wf_sql (self alice_cached)) by (intros _; vm_compute; eauto).
  destruct (uncached_read_after_write alice_cached 3 H1) as (Hp & Ho & _).
  split; [exact H1|]. split; [exact Hp|exact Ho].
Defined.

(** ** The lazy load of the key-value fields, in full *)

(** The six values [load_redis_data] stores for six replies. *)
Lemma load_values_six v1 v2 v3 v4 v5 v6 w :
  UserRedis.load_values UserRedis.FULL_KEYS [v1; v2; v3; v4; v5; v6] w =
    (Ok tt,
     set_self
       (Self.set_values
          (<["banned" := VBool (UserRedis.fix_bool "banned" v6)]>
             (<["ignored" := VBool (UserRedis.fix_bool "ignored" v5)]>
                (<["username_raw" := py_or v4 (VStr (Self.username (self w)))]>
                   (<["last_active" := py_or v3 VNone]>
                      (<["last_seen" := py_or v2 VNone]>
                         (<["num_lines" := VInt (default 0 (int_of v1))]>
                            (Self.values (self w))))))))
          (self w)) w).
Proof.
  unfold UserRedis.FULL_KEYS, UserRedis.SS_KEYS, UserRedis.HASH_KEYS,
    UserRedis.BOOL_KEYS.
  cbn [app UserRedis.load_values]. key_cases. cbv iota.
  unfold UserRedis.fix_ss, UserRedis.fix_hash, UserRedis.set_value, dict_get, py_or.
  run. closed_lookups.
  by destruct (int_of v1), (truthy v2), (truthy v3).
Qed.


(** The first load of an object: the commands it sends and the values it
    stores. *)
Lemma redis_load_first w :
  Self.redis_loaded (self w) = false →
  ∃ vals r',
    UserRedis.redis_load w =
      (Ok tt,
       set_self (Self.set_values vals (Self.set_redis_loaded true (self w)))
         (set_redis r' w)) ∧
    same_data (redis w) r' ∧
    Redis.journal r' = Redis.journal (redis w) ++ load_commands w ∧
    vals !! "num_lines" =
      Some (VInt (default 0
        (Redis.zset (UserRedis.users_key (streamer w) "num_lines") (redis w)
           !! Self.username (self w)))) ∧
    vals !! "username_raw" =
      Some (py_or
        (RedisManager.reply (AList.get (Self.username (self w))
           (Redis.hash (UserRedis.users_key (streamer w) "username_raw") (redis w))))
        (VStr (Self.username (self w)))) ∧
    (∀ key, key ∉ UserRedis.FULL_KEYS → vals !! key = Self.values (self w) !! key).
Proof.
  intros Hl.
  unfold UserRedis.redis_load, UserRedis.queue_up_redis_calls,
    UserRedis.load_redis_data.
  run. rewrite Hl.
  unfold UserRedis.SS_KEYS, UserRedis.HASH_KEYS, UserRedis.BOOL_KEYS.
  cbn [fmap list_fmap app RedisManager.execute].
  unfold RedisManager.zscore, RedisManager.hget, RedisManager.send. run.
  cbn -[UserRedis.load_values UserRedis.FULL_KEYS].
  rewrite load_values_six. eexists _, _. split; [reflexivity|].
  split; [done|]. split.
  { cbn. by rewrite <- !app_assoc. }
  split; [|split].
  - rewrite !(lookup_insert_ne _ _ "num_lines") by done.
    rewrite lookup_insert_eq. do 2 f_equal.
    unfold Redis.zset. cbn.
    by destruct (default ∅ (Redis.zsets (redis w) !! _) !! _).
  - rewrite !(lookup_insert_ne _ _ "username_raw") by done.
    by rewrite lookup_insert_eq.
  - intros key Hkey. cbn [self set_self Self.values Self.set_values Self.set_redis_loaded].
    unfold UserRedis.FULL_KEYS, UserRedis.SS_KEYS, UserRedis.HASH_KEYS,
      UserRedis.BOOL_KEYS in Hkey. cbn [app] in Hkey.
    rewrite !not_elem_of_cons in Hkey.
    destruct Hkey as (? & ? & ? & ? & ? & ? & _).
    by rewrite !lookup_insert_ne by done.
Qed.

(** X7.  The key-value fields are loaded once: the first read of an
    object sends six commands, a score read for [num_lines] and a hash
    read for each of [last_seen], [last_active], [username_raw],
    [ignored] and [banned], in this order; it changes no data of the
    store; and a later load sends nothing and changes nothing. *)
Theorem redis_load_once (w : World) :
  Self.redis_loaded (self w) = false →
  ∃ w',
    UserRedis.redis_load w = (Ok tt, w') ∧
    Redis.journal (redis w') = Redis.journal (redis w) ++ load_commands w ∧
    same_data (redis w) (redis w') ∧
    Self.redis_loaded (self w') = true ∧
    UserRedis.redis_load w' = (Ok tt, w').
Proof.
  intros Hl.
  destruct (redis_load_first w Hl) as (vals & r' & Hrun & Hsame & Hj & _).
  eexists. split; [exact Hrun|]. split; [done|]. split; [done|]. split; [done|].
  unfold UserRedis.redis_load. run. done.
Qed.

Lemma redis_load_once_witness :
  ∃ w',
    UserRedis.redis_load bob_unloaded = (Ok tt, w') ∧
    Redis.journal (redis w') =
      Redis.journal (redis bob_unloaded) ++
        [ZSCORE "pajlada:users:num_lines" "bob";
         HGET "pajlada:users:last_seen" "bob";
         HGET "pajlada:users:last_active" "bob";
         HGET "pajlada:users:username_raw" "bob";
         HGET "pajlada:users:ignored" "bob";
         HGET "pajlada:users:banned" "bob"] ∧
    UserRedis.redis_load w' = (Ok tt, w').
Proof.
  destruct (redis_load_once bob_unloaded eq_refl) as (w' & Hrun & Hj & _ & _ & Hagain).
  exists w'. split; [exact Hrun|]. split; [exact Hj|exact Hagain].
Defined.

(** X8.  The first read of an unloaded object decodes what the store
    holds: [num_lines] is the score of the user, or 0 when the user has
    none; [username_raw] is the stored raw name, or the username when
    none is stored or the stored one is empty. *)
Theorem first_read_defaults (w : World) :
  Self.redis_loaded (self w) = false →
  (∃ w', UserRedis.num_lines w =
     (Ok (VInt (default 0
        (Redis.zset (UserRedis.users_key (streamer w) "num_lines") (redis w)
           !! Self.username (self w)))), w')) ∧
  (∃ w', UserRedis.username_raw w =
     (Ok (VStr (match AList.get (Self.username (self w))
                        (Redis.hash (UserRedis.users_key (streamer w) "username_raw")
                           (redis w)) with
                | Some name =>
                    if String.eqb name EmptyString then Self.username (self w)
                    else name
                | None => Self.username (self w)
                end)), w')).
Proof.
  intros Hl.
  destruct (redis_load_first w Hl) as (vals & r' & Hrun & _ & _ & Hn & Hr & _).
  unfold UserRedis.num_lines, UserRedis.username_raw, UserRedis.value, dict_get.
  run. rewrite Hrun. cbn. rewrite Hn, Hr. split; eexists; [done|].
  do 2 f_equal. unfold py_or.
  destruct (AList.get _ _) as [name|]; cbn; [|done].
  by destruct (String.eqb name EmptyString).
Qed.

Lemma first_read_defaults_witness :
  (∃ w', UserRedis.num_lines bob_unloaded = (Ok (VInt 0), w')) ∧
  (∃ w', UserRedis.username_raw bob_unloaded = (Ok (VStr "bob"), w')) ∧
  (∃ w', UserRedis.num_lines alice_unloaded = (Ok (VInt 42), w')) ∧
  (∃ w', UserRedis.username_raw alice_unloaded = (Ok (VStr "Alice"), w')).
Proof.
  destruct (first_read_defaults bob_unloaded eq_refl) as (Hn & Hr).
  destruct (first_read_defaults alice_unloaded eq_refl) as (Hn' & Hr').
  split; [exact Hn|]. split; [exact Hr|]. split; [exact Hn'|exact Hr'].
Defined.

(** ** Round trips through the key-value store *)





(** X10.  A raw name written through the setter: a loaded object reads
    back what was written; an object that loads afterwards reads the
    written name too, except for the empty name, in place of which it
    reads the username. *)
Theorem username_raw_round_trip (w : World) (v : string) :
  (Self.redis_loaded (self w) = true →
   ∃ w', (UserRedis.set_username_raw v;; UserRedis.username_raw) w
           = (Ok (VStr v), w')) ∧
  (Self.redis_loaded (self w) = false →
   ∃ w', (UserRedis.set_username_raw v;; UserRedis.username_raw) w
           = (Ok (VStr (if String.eqb v EmptyString
                        then Self.username (self w) else v)), w')).
Proof.
  assert (Hset : ∃ r',
    UserRedis.set_username_raw v w =
      (Ok tt,
       set_redis r'
         (set_self (Self.set_values (<["username_raw" := VStr v]> (Self.values (self w)))
                      (self w)) w)) ∧
    AList.get (Self.username (self w))
      (Redis.hash (UserRedis.users_key (streamer w) "username_raw") r')
    = if String.eqb v (Self.username (self w)) then None else Some v).
  { unfold UserRedis.set_username_raw, UserRedis.set_value, RedisManager.hset,
      RedisManager.hdel, RedisManager.send, RedisManager.update. run.
    cbn [set_self self Self.username Self.set_values streamer].
    destruct (String.eqb v (Self.username (self w)));
      cbn -[Redis.put_hash Redis.hash Redis.sent];
      (eexists; split; [reflexivity|]); rewrite hash_put_eq.
    - apply alist_get_del_eq.
    - apply alist_get_set_eq. }
  destruct Hset as (r' & Hrun & Hget).
  split; intros Hl; unfold mbind at 1, M_bind at 1; rewrite Hrun.
  - unfold UserRedis.username_raw, UserRedis.value, UserRedis.redis_load, dict_get.
    run. cbn. rewrite Hl. cbn. rewrite lookup_insert_eq. eauto.
  - match goal with |- context [UserRedis.username_raw ?x] => set (w1 := x) end.
    destruct (first_read_defaults w1 Hl) as (_ & (w' & ->)).
    subst w1. cbn -[Redis.hash]. rewrite Hget.
    destruct (String.eqb_spec v (Self.username (self w))) as [->|Hne].
    + destruct (String.eqb _ EmptyString); eauto.
    + eauto.
Qed.

Lemma username_raw_round_trip_witness :
  Self.redis_loaded (self alice_unloaded) = false ∧
  (∃ w', (UserRedis.set_username_raw "ALICE";; UserRedis.username_raw) alice_unloaded
           = (Ok (VStr "ALICE"), w')) ∧
  (∃ w', (UserRedis.set_username_raw EmptyString;; UserRedis.username_raw)
           alice_unloaded = (Ok (VStr "alice"), w')) ∧
  Self.redis_loaded (self (UserRedis.redis_load alice_unloaded).2) = true ∧
  (∃ w', (UserRedis.set_username_raw EmptyString;; UserRedis.username_raw)
           (UserRedis.redis_load alice_unloaded).2 = (Ok (VStr EmptyString), w')).
Proof.
  split; [reflexivity|]. split.
  { exact (proj2 (username_raw_round_trip alice_unloaded "ALICE") eq_refl). }
  split.
  { exact (proj2 (username_raw_round_trip alice_unloaded EmptyString) eq_refl). }
  split; [reflexivity|].
  exact (proj1 (username_raw_round_trip (UserRedis.redis_load alice_unloaded).2
                  EmptyString) eq_refl).
Defined.

(** X11.  The constructor of [UserCombined] resets the raw name: whatever
    raw name the store held for the user, the first read on the new
    object returns the name the object was constructed with. *)
Theorem init_resets_username_raw
    (w : World) (username : string) (db_session : bool) (user_model : option User.t) :
  ∃ w', (UserCombined.__init__ username db_session user_model;;
         UserRedis.username_raw) w = (Ok (VStr username), w').
Proof.
  unfold mbind at 1, M_bind at 1. rewrite init_run.
  match goal with |- context [UserRedis.username_raw ?x] => set (w1 := x) end.
  destruct (first_read_defaults w1 eq_refl) as (_ & (w' & ->)).
  subst w1. cbn -[Redis.hash Redis.put_hash Redis.sent].
  rewrite hash_put_eq, alist_get_del_eq. eauto.
Qed.

(** X12.  [load_redis_data] consumes one field name for every reply: with
    more than six replies it raises [IndexError], after the object has
    been marked as loaded; with six or fewer it returns normally, marks
    the object as loaded, gives a value to the first fields, as many as
    there are replies, and leaves every other entry of the dictionary as
    it was.  A field that got no value raises [KeyError] when it is read
    afterwards. *)
Theorem load_redis_data_lengths (w : World) (data : list pyval) :
  ((6 < length data)%nat →
   ∃ w', UserRedis.load_redis_data data w = (Raise IndexError, w') ∧
         Self.redis_loaded (self w') = true) ∧
  ((length data ≤ 6)%nat →
   ∃ w', UserRedis.load_redis_data data w = (Ok tt, w') ∧
         Self.redis_loaded (self w') = true ∧
         (∀ key, key ∈ take (length data) UserRedis.FULL_KEYS →
            is_Some (Self.values (self w') !! key)) ∧
         (∀ key, key ∉ take (length data) UserRedis.FULL_KEYS →
            Self.values (self w') !! key = Self.values (self w) !! key) ∧
         (∀ key, key ∉ take (length data) UserRedis.FULL_KEYS →
            Self.values (self w) !! key = None →
            (UserRedis.value key w').1 = Raise (KeyError key))).
Proof.
  assert (Hread : ∀ w' key,
    Self.redis_loaded (self w') = true →
    Self.values (self w') !! key = None →
    (UserRedis.value key w').1 = Raise (KeyError key)).
  { intros w' key Hl Hnone.
    unfold UserRedis.value, UserRedis.redis_load, dict_get. run.
    by rewrite Hl, Hnone. }
  unfold UserRedis.load_redis_data, UserRedis.FULL_KEYS, UserRedis.SS_KEYS,
    UserRedis.HASH_KEYS, UserRedis.BOOL_KEYS.
  cbn [app]. split; intros Hlen.
  - destruct data as [|v1 [|v2 [|v3 [|v4 [|v5 [|v6 [|v7 data]]]]]]];
      cbn in Hlen; try lia.
    cbn [UserRedis.load_values]. key_cases. cbv iota.
    unfold UserRedis.fix_ss, UserRedis.fix_hash, UserRedis.set_value, dict_get.
    run. closed_lookups.
    destruct (int_of v1), (truthy v2), (truthy v3); cbn; eauto.
  - destruct data as [|v1 [|v2 [|v3 [|v4 [|v5 [|v6 [|v7 data]]]]]]];
      cbn in Hlen; try lia;
      cbn [UserRedis.load_values length take]; key_cases; cbv iota;
      unfold UserRedis.fix_ss, UserRedis.fix_hash, UserRedis.set_value, dict_get;
      run; closed_lookups;
      repeat match goal with
             | |- context [int_of ?v] => destruct (int_of v)
             | |- context [truthy ?v] => destruct (truthy v)
             end; cbn;
      (eexists; split; [reflexivity|]; split; [reflexivity|];
       split; [|split];
       [ intros key Hkey; rewrite ?elem_of_cons, elem_of_nil in Hkey;
         cbn; repeat (destruct Hkey as [->|Hkey];
                      [rewrite ?lookup_insert_eq;
                       repeat (rewrite lookup_insert_ne by done);
                       rewrite ?lookup_insert_eq; eauto|]); done
       | intros key Hkey; rewrite ?not_elem_of_cons in Hkey; cbn;
         repeat (rewrite lookup_insert_ne by (intros <-; tauto)); done
       | intros key Hkey Hnone; apply Hread; [done|]; cbn;
         rewrite ?not_elem_of_cons in Hkey;
         repeat (rewrite lookup_insert_ne by (intros <-; tauto)); done ]).
Qed.

Lemma load_redis_data_lengths_witness :
  (∃ w', UserRedis.load_redis_data
           [VNone; VNone; VNone; VNone; VNone; VNone; VNone] bob_unloaded
           = (Raise IndexError, w') ∧
         Self.redis_loaded (self w') = true) ∧
  (∃ w', UserRedis.load_redis_data [VInt 3] bob_unloaded = (Ok tt, w') ∧
         Self.redis_loaded (self w') = true ∧
         is_Some (Self.values (self w') !! "num_lines") ∧
         (UserRedis.value "banned" w').1 = Raise (KeyError "banned")).
Proof.
  split.
  - apply (proj1 (load_redis_data_lengths bob_unloaded
                    [VNone; VNone; VNone; VNone; VNone; VNone; VNone])).
    cbn. lia.
  - destruct (proj2 (load_redis_data_lengths bob_unloaded [VInt 3]))
      as (w' & Hrun & Hl & Hsome & _ & Herr); [cbn; lia|].
    exists w'. split; [exact Hrun|]. split; [exact Hl|]. split.
    + apply Hsome. cbn. left.
    + apply Herr; [|reflexivity].
      cbn. rewrite elem_of_cons, elem_of_nil. intros [|[]]. done.
Defined.

(** ** The token ledger as a whole *)

Lemma alist_set_mid k x pre v (l : AList.t) :
  k ∉ pre.*1 → AList.set k x (pre ++ (k, v) :: l) = pre ++ (k, x) :: l.
Proof.
  induction pre as [|[k' v'] pre IH]; cbn; intros Hk.
  - by rewrite String.eqb_refl.
  - apply not_elem_of_cons in Hk as [Hne Hk].
    destruct (String.eqb_spec k' k); [congruence|]. by rewrite IH.
Qed.

Lemma alist_set_absent k x (l : AList.t) :
  AList.get k l = None → AList.set k x l = l ++ [(k, x)].
Proof.
  induction l as [|[k' v'] l IH]; cbn; [done|].
  destruct (String.eqb k' k); [done|]. intros H. by rewrite IH.
Qed.

Lemma ledger_total_app l1 l2 :
  ledger_total (l1 ++ l2) = ledger_total l1 + ledger_total l2.
Proof.
  unfold ledger_total. induction l1 as [|kv l1 IH]; cbn; [done|].
  rewrite IH. lia.
Qed.

Lemma nonneg_ledger_cons k v n l :
  py_int v = Some n → 0 ≤ n → nonneg_ledger l → nonneg_ledger ((k, v) :: l).
Proof.
  intros Hv Hn Hl k' v' Hin. apply elem_of_cons in Hin as [[= -> ->]|Hin]; eauto.
Qed.

(** The loop of [spend_tokens] on the part [l] of the ledger that is
    still to be visited, for any amount [t]: the answer, the ledger it
    leaves and the total that remains. *)
Lemma spend_from_total key l :
  ∀ pre t w,
    NoDup (pre ++ l).*1 →
    nonneg_ledger l →
    Redis.hash key (redis w) = pre ++ l →
    ∃ r' l',
      UserCombined.spend_from key l t w
        = (Ok (bool_decide (t ≤ ledger_total l ∧ 0 < ledger_total l)),
           set_redis r' w) ∧
      Redis.hash key r' = pre ++ l' ∧
      l'.*1 = l.*1 ∧
      nonneg_ledger l' ∧
      ledger_total l' =
        (if bool_decide (t ≤ ledger_total l ∧ 0 < ledger_total l)
         then ledger_total l - t else 0).
Proof.
  induction l as [|[k v] l IH]; intros pre t w Hnd Hl Hhash.
  - exists (redis w), []. cbn. rewrite bool_decide_false by lia.
    split; [by destruct w|]. done.
  - pose proof (nonneg_ledger_tail _ _ Hl) as Hl'.
    pose proof (ledger_total_nonneg l Hl') as Hpos.
    destruct (Hl k v) as (n & Hn & Hn0); [left|].
    assert (Htot : ledger_total ((k, v) :: l) = n + ledger_total l).
    { cbn. by rewrite Hn. }
    assert (Hk : k ∉ pre.*1).
    { rewrite fmap_app in Hnd. apply NoDup_app in Hnd as (_ & Hdis & _).
      intros Hin. apply (Hdis k Hin). cbn. left. }
    rewrite Htot. cbn [UserCombined.spend_from]. rewrite Hn.
    destruct (Z.eqb_spec n 0) as [->|Hnz].
    + (* an entry at 0 is passed over *)
      destruct (IH (pre ++ [(k, v)]) t w) as (r' & l' & -> & Hh & Hkeys & Hnn & Htotal);
        [by rewrite <- app_assoc|done|by rewrite <- app_assoc|].
      exists r', ((k, v) :: l'). rewrite Z.add_0_l.
      split; [done|]. split; [by rewrite Hh, <- app_assoc|].
      split; [cbn; by rewrite Hkeys|]. split; [by apply (nonneg_ledger_cons k v 0)|].
      cbn. rewrite Hn. cbn. fold (ledger_total l'). by rewrite Htotal.
    + unfold mbind, M_bind. rewrite hset_run.
      set (w1 := set_redis _ w).
      assert (Hh1 : Redis.hash key (redis w1)
                    = pre ++ (k, str_int (n - Z.min t n)) :: l).
      { subst w1. cbn -[Redis.put_hash Redis.hash Redis.sent].
        rewrite hash_put_eq, Hhash. by apply alist_set_mid. }
      destruct (Z.eqb_spec (t - Z.min t n) 0) as [Hdone|Hmore].
      * (* the request is covered *)
        exists (redis w1), ((k, str_int (n - Z.min t n)) :: l).
        rewrite bool_decide_true by lia.
        split; [done|]. split; [done|]. split; [done|]. split.
        -- apply (nonneg_ledger_cons _ _ (n - Z.min t n));
             [apply py_int_str_int|lia|done].
        -- cbn. rewrite py_int_str_int. cbn. fold (ledger_total l). lia.
      * (* the entry is drained and the loop goes on *)
        assert (Hmin : Z.min t n = n) by lia.
        destruct (IH (pre ++ [(k, str_int (n - Z.min t n))]) (t - Z.min t n) w1)
          as (r' & l' & -> & Hh & Hkeys & Hnn & Htotal).
        { rewrite <- app_assoc. cbn. by rewrite !fmap_app in *. }
        { done. }
        { by rewrite <- app_assoc. }
        exists r', ((k, str_int (n - Z.min t n)) :: l').
        assert (Hiff : (t - Z.min t n ≤ ledger_total l ∧ 0 < ledger_total l)
                       ↔ (t ≤ n + ledger_total l ∧ 0 < n + ledger_total l)) by lia.
        rewrite (bool_decide_ext _ _ Hiff) in *.
        split; [done|]. split; [by rewrite Hh, <- app_assoc|].
        split; [cbn; by rewrite Hkeys|]. split.
        -- apply (nonneg_ledger_cons _ _ (n - Z.min t n));
             [apply py_int_str_int|lia|done].
        -- cbn. rewrite py_int_str_int. cbn. fold (ledger_total l').
           rewrite Htotal. case_bool_decide; lia.
Qed.

Lemma spend_tokens_total w t :
  NoDup (ledger w).*1 →
  nonneg_ledger (ledger w) →
  ∃ r',
    UserCombined.spend_tokens t w
      = (Ok (bool_decide (t ≤ ledger_total (ledger w) ∧ 0 < ledger_total (ledger w))),
         set_redis r' w) ∧
    (ledger (set_redis r' w)).*1 = (ledger w).*1 ∧
    nonneg_ledger (ledger (set_redis r' w)) ∧
    ledger_total (ledger (set_redis r' w)) =
      (if bool_decide (t ≤ ledger_total (ledger w) ∧ 0 < ledger_total (ledger w))
       then ledger_total (ledger w) - t else 0).
Proof.
  intros Hnd Hl.
  unfold UserCombined.spend_tokens, RedisManager.hgetall, RedisManager.send. run.
  cbn -[Redis.hash Redis.sent]. rewrite hash_sent. fold (ledger w).
  edestruct (spend_from_total
               (UserCombined.tokens_key (streamer w) (Self.username (self w)))
               (ledger w) [] t) as (r' & l' & -> & Hh & Hkeys & Hnn & Htotal);
    [done|done| |].
  - cbn -[Redis.hash Redis.sent]. by rewrite hash_sent.
  - exists r'.
    assert (Hled : ledger (set_redis r' w) = l').
    { unfold ledger. cbn -[Redis.hash]. by rewrite Hh. }
    rewrite Hled. split; [done|]. done.
Qed.

(** X13.  [spend_tokens t] on a ledger with one entry per stream and no
    negative balance, for every integer [t]: the answer is true exactly
    when the ledger holds tokens and [t] does not exceed their total;
    then the total has gone down by [t] (up, for a negative [t]), and
    otherwise nothing is left.  The streams of the ledger are the same
    afterwards and no balance is negative, so the same holds for the
    next call; [get_tokens] returns the new total. *)
Theorem spend_tokens_accounting (w : World) (t : Z) :
  NoDup (ledger w).*1 →
  nonneg_ledger (ledger w) →
  ∃ w',
    UserCombined.spend_tokens t w
      = (Ok (bool_decide (t ≤ ledger_total (ledger w) ∧ 0 < ledger_total (ledger w))),
         w') ∧
    ledger_total (ledger w') =
      (if bool_decide (t ≤ ledger_total (ledger w) ∧ 0 < ledger_total (ledger w))
       then ledger_total (ledger w) - t else 0) ∧
    (ledger w').*1 = (ledger w).*1 ∧
    nonneg_ledger (ledger w') ∧
    (UserCombined.get_tokens w').1 = Ok (ledger_total (ledger w')).
Proof.
  intros Hnd Hl.
  destruct (spend_tokens_total w t Hnd Hl) as (r' & Hrun & Hkeys & Hnn & Htotal).
  eexists. split; [exact Hrun|]. split; [done|]. split; [done|]. split; [done|].
  by destruct (get_tokens_total (set_redis r' w)) as (w'' & -> & _).
Qed.

Lemma spend_tokens_accounting_witness :
  ledger_total (ledger (ledger_world [("1", "2"); ("2", "0"); ("3", "3")])) = 5 ∧
  (∃ w', UserCombined.spend_tokens 4
           (ledger_world [("1", "2"); ("2", "0"); ("3", "3")]) = (Ok true, w') ∧
         ledger_total (ledger w') = 1 ∧
         (UserCombined.get_tokens w').1 = Ok 1) ∧
  (∃ w', UserCombined.spend_tokens (-4)
           (ledger_world [("1", "2"); ("2", "0"); ("3", "3")]) = (Ok true, w') ∧
         ledger_total (ledger w') = 9) ∧
  (∃ w', UserCombined.spend_tokens 6
           (ledger_world [("1", "2"); ("2", "0"); ("3", "3")]) = (Ok false, w') ∧
         ledger_total (ledger w') = 0) ∧
  (∃ w', UserCombined.spend_tokens 0 (ledger_world [("1", "0")]) = (Ok false, w') ∧
         ledger_total (ledger w') = 0).
Proof.
  assert (Hledger1 : ledger (ledger_world [("1", "2"); ("2", "0"); ("3", "3")])
                     = [("1", "2"); ("2", "0"); ("3", "3")]) by reflexivity.
  assert (Hledger2 : ledger (ledger_world [("1", "0")]) = [("1", "0")])
    by reflexivity.
  assert (N1 : NoDup (ledger (ledger_world [("1", "2"); ("2", "0"); ("3", "3")])).*1).
  { rewrite Hledger1. apply (bool_decide_unpack _). by vm_compute. }
  assert (L1 : nonneg_ledger (ledger (ledger_world [("1", "2"); ("2", "0"); ("3", "3")]))).
  { rewrite Hledger1. intros k v Hin.
    rewrite !elem_of_cons, elem_of_nil in Hin.
    destruct Hin as [[= -> ->]|[[= -> ->]|[[= -> ->]|[]]]];
      eexists; (split; [by vm_compute|lia]). }
  assert (N2 : NoDup (ledger (ledger_world [("1", "0")])).*1).
  { rewrite Hledger2. apply (bool_decide_unpack _). by vm_compute. }
  assert (L2 : nonneg_ledger (ledger (ledger_world [("1", "0")]))).
  { rewrite Hledger2. intros k v Hin.
    rewrite !elem_of_cons, elem_of_nil in Hin.
    destruct Hin as [[= -> ->]|[]]; eexists; (split; [by vm_compute|lia]). }
  split; [by vm_compute|]. split.
  { destruct (spend_tokens_accounting _ 4 N1 L1) as (w' & Hrun & Htot & _ & _ & Hget).
    exists w'. split; [exact Hrun|]. split; [exact Htot|].
    rewrite Hget, Htot. reflexivity. }
  split.
  { destruct (spend_tokens_accounting _ (-4) N1 L1) as (w' & Hrun & Htot & _).
    exists w'. split; [exact Hrun|exact Htot]. }
  split.
  { destruct (spend_tokens_accounting _ 6 N1 L1) as (w' & Hrun & Htot & _).
    exists w'. split; [exact Hrun|exact Htot]. }
  destruct (spend_tokens_accounting _ 0 N2 L2) as (w' & Hrun & Htot & _).
  exists w'. split; [exact Hrun|exact Htot].
Defined.

(** X14.  [can_afford_with_tokens] and [spend_tokens] agree on a positive
    cost: on a ledger with one entry per stream and no negative balance,
    the check followed by the spending gives the same answer twice, and
    the tokens counted afterwards are the former total less the cost
    when the answer is true, and none when it is false. *)
Theorem afford_then_spend_tokens (w : World) (c : Z) :
  NoDup (ledger w).*1 →
  nonneg_ledger (ledger w) →
  0 < c →
  ∃ w',
    (b ← UserCombined.can_afford_with_tokens c;
     r ← UserCombined.spend_tokens c;
     n ← UserCombined.get_tokens;
     mret (b, r, n)) w =
    (Ok (bool_decide (c ≤ ledger_total (ledger w)),
         bool_decide (c ≤ ledger_total (ledger w)),
         if bool_decide (c ≤ ledger_total (ledger w))
         then ledger_total (ledger w) - c else 0), w').
Proof.
  intros Hnd Hl Hc.
  pose proof (ledger_total_nonneg _ Hl) as Hpos.
  destruct (get_tokens_total w) as (w1 & Hget & Hledger).
  destruct (spend_tokens_total w1 c) as (r' & Hrun & _ & _ & Htotal);
    [by rewrite Hledger..|].
  destruct (get_tokens_total (set_redis r' w1)) as (w2 & Hget2 & _).
  unfold UserCombined.can_afford_with_tokens.
  unfold mbind, M_bind, mret, M_ret.
  rewrite Hget. cbv beta iota. rewrite Hrun. cbv beta iota.
  rewrite Hget2, Htotal, Hledger.
  exists w2.
  assert (Hiff : (c ≤ ledger_total (ledger w) ∧ 0 < ledger_total (ledger w))
                 ↔ c ≤ ledger_total (ledger w)) by lia.
  rewrite (bool_decide_ext _ _ Hiff).
  by destruct (Z.leb_spec c (ledger_total (ledger w)));
    [rewrite bool_decide_true by done|rewrite bool_decide_false by lia].
Qed.

Lemma afford_then_spend_tokens_witness :
  ∃ w',
    (b ← UserCombined.can_afford_with_tokens 4;
     r ← UserCombined.spend_tokens 4;
     n ← UserCombined.get_tokens;
     mret (b, r, n)) (ledger_world [("1", "2"); ("2", "0"); ("3", "3")]) =
    (Ok (true, true, 1), w').
Proof.
  assert (Hledger : ledger (ledger_world [("1", "2"); ("2", "0"); ("3", "3")])
                    = [("1", "2"); ("2", "0"); ("3", "3")]) by reflexivity.
  assert (N1 : NoDup (ledger (ledger_world [("1", "2"); ("2", "0"); ("3", "3")])).*1).
  { rewrite Hledger. apply (bool_decide_unpack _). by vm_compute. }
  assert (L1 : nonneg_ledger (ledger (ledger_world [("1", "2"); ("2", "0"); ("3", "3")]))).
  { rewrite Hledger. intros k v Hin.
    rewrite !elem_of_cons, elem_of_nil in Hin.
    destruct Hin as [[= -> ->]|[[= -> ->]|[[= -> ->]|[]]]];
      eexists; (split; [by vm_compute|lia]). }
  exact (afford_then_spend_tokens _ 4 N1 L1 ltac:(lia)).
Defined.

Lemma sum_tokens_events vs s acc w :
  ∃ w', UserCombined.sum_tokens vs s acc w =
          (Ok (acc + foldr (λ v a, default 0 (py_int v) + a) 0 vs), w') ∧
        events w' = events w.
Proof.
  revert acc w. induction vs as [|v vs IH]; intros acc w; cbn.
  - exists w. split; [|done]. unfold mret, M_ret. do 2 f_equal. lia.
  - destruct (py_int v) as [n|]; cbn.
    + destruct (IH (acc + n) w) as (w' & -> & Hev). exists w'.
      split; [|done]. do 2 f_equal. lia.
    + run. destruct (IH acc (set_log (log w ++ [(WARNING,
          "Invalid value for tokens, user " +:+ Self.username s)]) w))
        as (w' & -> & Hev).
      exists w'. split; [|done]. do 2 f_equal.
Qed.

Lemma get_tokens_events w : events (UserCombined.get_tokens w).2 = events w.
Proof.
  unfold UserCombined.get_tokens, RedisManager.hgetall, RedisManager.send. run.
  match goal with |- context [UserCombined.sum_tokens ?vs ?s 0 ?x] =>
    destruct (sum_tokens_events vs s 0 x) as (w' & -> & Hev)
  end.
  cbn [snd]. by rewrite Hev.
Qed.

(** X15.  Tokens are awarded once per stream even when they have been
    spent: after a first award of [a] tokens in a stream, spending every
    token of the ledger succeeds, a second unforced award in the same
    stream is refused, and no token is counted afterwards. *)
Theorem award_spend_award (w : World) (sid : string) (a a' : Z) :
  current_stream_id w = Some sid →
  AList.get sid (ledger w) = None →
  NoDup (ledger w).*1 →
  nonneg_ledger (ledger w) →
  0 < a →
  ∃ w',
    (r1 ← UserCombined.award_tokens a false;
     r2 ← UserCombined.spend_tokens (ledger_total (ledger w) + a);
     r3 ← UserCombined.award_tokens a' false;
     n ← UserCombined.get_tokens;
     mret (r1, r2, r3, n)) w =
    (Ok (true, true, false, 0), w') ∧
    events w' = events w ++ [Event "on_user_gain_tokens" (Self.username (self w)) a].
Proof.
  intros Hsid Habsent Hnd Hl Ha.
  pose proof (ledger_total_nonneg _ Hl) as Hpos.
  pose proof (award_tokens_absent w sid a Hsid Habsent) as Haward.
  set (w1 := set_events _ _) in Haward.
  assert (Hledger1 : ledger w1 = ledger w ++ [(sid, str_int a)]).
  { subst w1. unfold ledger at 1. cbn -[Redis.hash Redis.put_hash Redis.sent].
    rewrite hash_put_eq. by apply alist_set_absent. }
  assert (Hnd1 : NoDup (ledger w1).*1).
  { rewrite Hledger1, fmap_app. apply NoDup_app. split; [done|]. split.
    - intros k Hk Hin. cbn in Hin. apply list_elem_of_singleton in Hin as ->.
      by apply alist_get_None in Habsent.
    - cbn. apply NoDup_singleton. }
  assert (Hl1 : nonneg_ledger (ledger w1)).
  { rewrite Hledger1. intros k v Hin. apply elem_of_app in Hin as [Hin|Hin].
    - by apply (Hl k v).
    - apply list_elem_of_singleton in Hin as [= -> ->].
      exists a. split; [apply py_int_str_int|lia]. }
  assert (Htot1 : ledger_total (ledger w1) = ledger_total (ledger w) + a).
  { rewrite Hledger1, ledger_total_app. cbn. rewrite py_int_str_int. cbn. lia. }
  destruct (spend_tokens_total w1 (ledger_total (ledger w) + a) Hnd1 Hl1)
    as (r' & Hrun & Hkeys & Hnn & Htotal).
  rewrite Htot1 in Hrun, Htotal.
  rewrite bool_decide_true in Hrun, Htotal by lia.
  set (w2 := set_redis r' w1) in *.
  assert (Hpresent : is_Some (AList.get sid (ledger w2))).
  { destruct (AList.get sid (ledger w2)) eqn:Hget; [eauto|].
    apply alist_get_None in Hget. destruct Hget.
    rewrite Hkeys, Hledger1, fmap_app. apply elem_of_app. right. cbn. left. }
  destruct Hpresent as [v Hv].
  pose proof (award_tokens_present w2 sid a' v Hsid Hv) as Hagain.
  set (w3 := set_redis _ w2) in Hagain.
  assert (Hledger3 : ledger w3 = ledger w2).
  { subst w3. unfold ledger. cbn -[Redis.hash Redis.sent]. apply hash_sent. }
  destruct (get_tokens_total w3) as (w4 & Hget & _).
  pose proof (get_tokens_events w3) as Hev. rewrite Hget in Hev.
  run. rewrite Haward. cbv beta iota. rewrite Hrun. cbv beta iota.
  rewrite Hagain. cbv beta iota. rewrite Hget.
  exists w4. split.
  - do 4 f_equal. rewrite Hledger3, Htotal. lia.
  - cbn [snd] in Hev. by rewrite Hev.
Qed.

Lemma award_spend_award_witness :
  ∃ w',
    (r1 ← UserCombined.award_tokens 5 false;
     r2 ← UserCombined.spend_tokens (ledger_total (ledger alice10) + 5);
     r3 ← UserCombined.award_tokens 7 false;
     n ← UserCombined.get_tokens;
     mret (r1, r2, r3, n)) alice10 =
    (Ok (true, true, false, 0), w') ∧
    events w' = events alice10 ++ [Event "on_user_gain_tokens" "alice" 5].
Proof.
  assert (Hledger : ledger alice10 = []) by reflexivity.
  apply (award_spend_award alice10 "1" 5 7).
  - reflexivity.
  - reflexivity.
  - rewrite Hledger. apply NoDup_nil_2.
  - rewrite Hledger. intros k v Hin. by apply elem_of_nil in Hin.
  - lia.
Defined.

(** ** Timeouts in a row *)

Lemma timeout_step w L st :
  ∃ w',
    UserCombined.timeout L (Some st) true w
      = (Ok (timeout_result L st (keys_set st w)), w') ∧
    keys_set st w' =
      (if bool_decide (keys_set st w < WarningModule.total_chances st)
       then keys_set st w + 1 else keys_set st w).
Proof.
  unfold timeout_result. case_bool_decide as Hlt.
  - destruct (timeout_warned_store w L st Hlt) as (i & Hrun & Hi & Hnone & _).
    eexists. split; [exact Hrun|].
    by apply (keys_set_insert st w _ i (str_int 1, WarningModule.length st)).
  - rewrite timeout_exhausted by (rewrite chances_used_keys_set; lia).
    eexists. split; [done|].
    by rewrite <- !chances_used_keys_set.
Qed.

(** X16.  Timeouts in a row under any policy: the call made when [u]
    warning keys are set returns the base timeout times [u + 1] with the
    warning label while [u] is below the number of chances, and the
    requested length with the plain label from then on; every call below
    the limit sets one more key, so [n] calls that start with [u] keys
    set see [u], [u + 1], ... until the limit is reached. *)
Theorem timeouts_escalate (n : nat) (w : World) (L : Z) (st : WarningModule.settings) :
  ∃ w',
    timeouts n L st w =
      (Ok ((λ j : nat, timeout_result L st (keys_set st w + Z.of_nat j)) <$> seq 0 n),
       w') ∧
    keys_set st w' =
      Z.max (keys_set st w)
        (Z.min (keys_set st w + Z.of_nat n) (WarningModule.total_chances st)).
Proof.
  revert w. induction n as [|n IH]; intros w.
  - exists w. split; [done|]. lia.
  - cbn [timeouts]. destruct (timeout_step w L st) as (w1 & Hrun & Hk1).
    destruct (IH w1) as (w2 & Hrest & Hk2).
    exists w2. unfold mbind, M_bind, mret, M_ret. rewrite Hrun. cbv beta iota.
    rewrite Hrest. cbv beta iota. split.
    + cbn [seq fmap list_fmap]. rewrite Z.add_0_r. do 3 f_equal.
      rewrite <- fmap_S_seq, <- list_fmap_compose.
      apply list_fmap_ext. intros i j _. cbn [compose]. rewrite Hk1.
      case_bool_decide as Hlt.
      * f_equal. lia.
      * unfold timeout_result. by rewrite !bool_decide_false by lia.
    + rewrite Hk2, Hk1. case_bool_decide; lia.
Qed.

Lemma timeouts_escalate_witness :
  ∃ w',
    timeouts 4 300 two_chances alice10 =
      (Ok [(10, "timed out for 10 seconds (warning)");
           (20, "timed out for 20 seconds (warning)");
           (300, "timed out for 300 seconds");
           (300, "timed out for 300 seconds")], w') ∧
    keys_set two_chances w' = 2.
Proof.
  destruct (timeouts_escalate 4 alice10 300 two_chances) as (w' & Hrun & Hk).
  exists w'. split; [exact Hrun|]. rewrite Hk. reflexivity.
Defined.

(** ** Points, debts and the spending context, together *)

(** X17.  A block under [spend_currency_context] that ends normally: the
    points are taken before the block runs when the balance covers them,
    the block runs in any case, also when the balance is too low and
    nothing was taken, and nothing is given back; the context ends in the
    state the block ended in, whatever the number of tokens it was
    given. *)
Theorem spend_currency_context_normal
    (w : World) (p t b : Z) (body : M unit) (w2 : World) :
  balance w = Some b →
  body (UserCombined.spend_points p w).2 = (Ok tt, w2) →
  UserCombined.spend_currency_context p t body w = (Ok tt, w2) ∧
  balance (UserCombined.spend_points p w).2 = Some (if bool_decide (p ≤ b) then b - p else b).
Proof.
  intros Hb Hbody.
  destruct (spend_points_run w p b Hb) as (w1 & Hrun & Hle & Hgt).
  rewrite Hrun in Hbody |- *. cbn [snd] in *. split.
  - unfold UserCombined.spend_currency_context. run. by rewrite Hrun, Hbody.
  - case_bool_decide; [by apply Hle|]. apply Hgt. lia.
Qed.

Lemma spend_currency_context_normal_witness :
  balance alice10 = Some 10 ∧
  (∃ w2, UserCombined.spend_currency_context 3 0 (mret tt) alice10 = (Ok tt, w2) ∧
         balance w2 = Some 7) ∧
  (∃ w2, UserCombined.spend_currency_context 30 0 (mret tt) alice10 = (Ok tt, w2) ∧
         balance w2 = Some 10).
Proof.
  assert (H : balance alice10 = Some 10) by by vm_compute.
  split; [exact H|]. split.
  - exists (UserCombined.spend_points 3 alice10).2.
    exact (spend_currency_context_normal alice10 3 0 10 (mret tt) _ H eq_refl).
  - exists (UserCombined.spend_points 30 alice10).2.
    exact (spend_currency_context_normal alice10 30 0 10 (mret tt) _ H eq_refl).
Defined.

(** X18.  A block under [spend_currency_context] that raises when the
    balance did not cover the points: nothing was taken before the block
    ran, the exception is handled, and the points are added to the
    balance all the same; the balance ends [p] points above the one the
    block left. *)
Theorem spend_currency_context_uncovered
    (w : World) (p t b b2 : Z) (body : M unit) (e : exn) (w2 : World) :
  balance w = Some b →
  b < p →
  body (loaded w) = (Raise e, w2) →
  balance w2 = Some b2 →
  wf_redis (self w2) →
  ∃ w', UserCombined.spend_currency_context p t body w = (Ok tt, w') ∧
        balance w' = Some (b2 + p).
Proof.
  intros Hb Hlt Hbody Hb2 Hwf.
  destruct (spend_points_run w p b Hb) as (w1 & Hrun & _ & Hgt).
  destruct (Hgt Hlt) as [-> _].
  destruct (spend_currency_except_ok w2 p b2 e Hb2 Hwf) as (w' & Hexc & Hb').
  exists w'. split; [|done].
  unfold UserCombined.spend_currency_context. run. by rewrite Hrun, Hbody, Hexc.
Qed.

Lemma spend_currency_context_uncovered_witness :
  balance alice10 = Some 10 ∧
  ∃ w', UserCombined.spend_currency_context 30 0 (raise FailedCommand) alice10
          = (Ok tt, w') ∧
        balance w' = Some (10 + 30).
Proof.
  assert (H : balance alice10 = Some 10) by by vm_compute.
  split; [exact H|].
  assert (Hl : loaded alice10 = alice10) by (apply loaded_id; reflexivity).
  apply (spend_currency_context_uncovered alice10 30 0 10 10 (raise FailedCommand)
           FailedCommand alice10 H).
  - lia.
  - unfold raise. by rewrite Hl.
  - exact H.
  - intros _. vm_compute. eauto.
Defined.

(** X19.  Debts are consulted by [can_afford] only: the check followed
    by the spending returns whether the amount fits the balance less the
    debts, and then whether it fits the balance.  While no debt is
    negative overall, an amount that can be afforded can be spent. *)
Theorem afford_then_spend_points (w : World) (n b : Z) :
  balance w = Some b →
  ∃ w',
    (c ← UserCombined.can_afford n;
     r ← UserCombined.spend_points n;
     mret (c, r)) w =
    (Ok (bool_decide (n ≤ b - foldr Z.add 0 (Self.debts (self w))),
         bool_decide (n ≤ b)), w') ∧
    (0 ≤ foldr Z.add 0 (Self.debts (self w)) →
     n ≤ b - foldr Z.add 0 (Self.debts (self w)) →
     balance w' = Some (b - n)).
Proof.
  intros Hb.
  assert (Hb1 : balance (loaded w) = Some b) by by rewrite balance_loaded.
  destruct (spend_points_run (loaded w) n b Hb1) as (w' & Hrun & Hle & _).
  exists w'. split.
  - unfold UserCombined.can_afford. run.
    rewrite (points_available_run _ b Hb), py_sum_foldr. cbv beta iota.
    rewrite Hrun.
    assert (Hc : (n <=? b - foldr Z.add 0 (Self.debts (self w)))
                 = bool_decide (n ≤ b - foldr Z.add 0 (Self.debts (self w)))).
    { by destruct (Z.leb_spec n (b - foldr Z.add 0 (Self.debts (self w))));
        [rewrite bool_decide_true|rewrite bool_decide_false by lia]. }
    by rewrite Hc.
  - intros Hpos Hn. apply Hle. lia.
Qed.

Lemma afford_then_spend_points_witness :
  balance alice_in_debt = Some 10 ∧
  ∃ w',
    (c ← UserCombined.can_afford 6;
     r ← UserCombined.spend_points 6;
     mret (c, r)) alice_in_debt = (Ok (false, true), w').
Proof.
  assert (H : balance alice_in_debt = Some 10) by by vm_compute.
  split; [exact H|].
  destruct (afford_then_spend_points alice_in_debt 6 10 H) as (w' & Hrun & _).
  exists w'. exact Hrun.
Defined.
